(** * godaikin-ha: the bridge between the GO DAIKIN cloud API and MQTT

    A shallow embedding of [src/godaikin] (types.py, energy.py, auth.py,
    api.py, controller.py, discovery.py) and the properties of it that
    the specification states.

    Conventions of the model.
    - Python [int] is [Z]; Python [str] is [string], a text standing by
      its UTF-8 bytes, with the ASCII case mappings for [lower], [upper]
      and [title]; Python [bytes] is [string] as well, and [decode]
      checks that the bytes are UTF-8.
    - A [datetime] is the number of microseconds on the naive local
      time line ([Z]); a [timedelta] is a difference of two of them.
    - Python [float] is modelled by the exact rationals [Q]: the energy
      arithmetic is the one of the source with rounding left out, and the
      results about it are stated up to [Qeq] ([==]).
    - A [dict] is a stdpp [gmap]; [d[k]] on an absent key raises
      [KeyError], [d.get(k)] is the lookup [d !! k].
    - Code that raises returns [Raise e] together with the state reached
      when the exception left the function: what was mutated before the
      raise stays mutated.
    - Of the structlog calls only the warnings are recorded (in
      [warnings]); debug and info records have no effect on any state the
      properties speak of and are left out.
    - The collaborators outside the repository (the clock, the MQTT
      broker, the HTTP endpoint, the identity provider, [json.dumps],
      [float]) are oracles of an environment record. *)

From Stdlib Require Import ZArith QArith Qround String Ascii List Lia.
From stdpp Require Import base gmap strings list.

Open Scope string_scope.
Open Scope Z_scope.

(** ** Python built-ins the source relies on *)

Module Py.

Inductive Exn : Type :=
| KeyError (key : string)
| ValueError (what : string)
| AuthError (what : string)
| ClientError (what : string)
| ApiError (what : string)
| MqttError (what : string)
| UnicodeDecodeError (what : string).

Inductive Outcome (A : Type) : Type :=
| Ret (a : A)
| Raise (e : Exn).
Arguments Ret {A} a.
Arguments Raise {A} e.

(** A computation over a state [S] that may raise. *)
Definition M (S A : Type) : Type := S -> Outcome A * S.

Definition ret {S A} (a : A) : M S A := fun s => (Ret a, s).

Definition raise {S A} (e : Exn) : M S A := fun s => (Raise e, s).

Definition bind {S A B} (c : M S A) (k : A -> M S B) : M S B :=
  fun s =>
    match c s with
    | (Ret a, s') => k a s'
    | (Raise e, s') => (Raise e, s')
    end.

Definition gets {S A} (f : S -> A) : M S A := fun s => (Ret (f s), s).

Definition modify {S} (f : S -> S) : M S unit := fun s => (Ret tt, f s).

(** [for x in xs: body(x)] *)
Fixpoint for_each {S A} (xs : list A) (body : A -> M S unit) : M S unit :=
  match xs with
  | [] => ret tt
  | x :: xs' => bind (body x) (fun _ => for_each xs' body)
  end.

Definition is_upper (c : ascii) : bool :=
  let n := N_of_ascii c in ((65 <=? n) && (n <=? 90))%N.

Definition is_lower (c : ascii) : bool :=
  let n := N_of_ascii c in ((97 <=? n) && (n <=? 122))%N.

Definition to_lower (c : ascii) : ascii :=
  if is_upper c then ascii_of_N (N_of_ascii c + 32) else c.

Definition to_upper (c : ascii) : ascii :=
  if is_lower c then ascii_of_N (N_of_ascii c - 32) else c.

(** [s.lower()] *)
Fixpoint lower (s : string) : string :=
  match s with
  | EmptyString => EmptyString
  | String c s' => String (to_lower c) (lower s')
  end.

(** [s.upper()] *)
Fixpoint upper (s : string) : string :=
  match s with
  | EmptyString => EmptyString
  | String c s' => String (to_upper c) (upper s')
  end.

(** [s.title()]: a cased character is upper-cased after an uncased one
    (or at the start) and lower-cased after a cased one. *)
Fixpoint title_from (previous_is_cased : bool) (s : string) : string :=
  match s with
  | EmptyString => EmptyString
  | String c s' =>
      let cased := is_upper c || is_lower c in
      String (if previous_is_cased then to_lower c else to_upper c)
             (title_from cased s')
  end.

Definition title (s : string) : string := title_from false s.

(** [s.split(sep)] for a one-character separator: the pieces between
    the separators, empty pieces included. *)
Fixpoint split_from (sep : ascii) (piece : string) (s : string) : list string :=
  match s with
  | EmptyString => [String.rev piece]
  | String c s' =>
      if Ascii.eqb c sep
      then String.rev piece :: split_from sep EmptyString s'
      else split_from sep (String c piece) s'
  end.

Definition split (sep : ascii) (s : string) : list string :=
  split_from sep EmptyString s.

(** Truth value of an [int] in a condition. *)
Definition truthy (n : Z) : bool := negb (n =? 0).

(** [int(x)] of a float: truncation towards zero. *)
Definition int_of_float (x : Q) : Z := Z.quot (Qnum x) (Zpos (Qden x)).

(** [lo <= b <= hi] on a byte *)
Definition byte_between (lo hi : N) (b : ascii) : bool :=
  let n := N_of_ascii b in ((lo <=? n) && (n <=? hi))%N.

Definition continuation_byte (b : ascii) : bool := byte_between 128 191 b.

(** Whether a sequence of bytes is UTF-8, as the strict decoder of
    [bytes.decode()] takes it: one byte below 128; a lead byte C2..DF,
    E0..EF or F0..F4 with one, two or three continuation bytes, where the
    second byte is narrowed after E0 and F0 (no overlong form), after ED
    (no surrogate) and after F4 (nothing beyond U+10FFFF). *)
Fixpoint is_utf8 (b : string) : bool :=
  match b with
  | EmptyString => true
  | String b0 rest =>
      if byte_between 0 127 b0 then is_utf8 rest
      else if byte_between 194 223 b0 then
        match rest with
        | String b1 rest1 => continuation_byte b1 && is_utf8 rest1
        | _ => false
        end
      else if byte_between 224 239 b0 then
        match rest with
        | String b1 (String b2 rest2) =>
            (if byte_between 224 224 b0 then byte_between 160 191 b1
             else if byte_between 237 237 b0 then byte_between 128 159 b1
             else continuation_byte b1)
            && continuation_byte b2 && is_utf8 rest2
        | _ => false
        end
      else if byte_between 240 244 b0 then
        match rest with
        | String b1 (String b2 (String b3 rest3)) =>
            (if byte_between 240 240 b0 then byte_between 144 191 b1
             else if byte_between 244 244 b0 then byte_between 128 143 b1
             else continuation_byte b1)
            && continuation_byte b2 && continuation_byte b3 && is_utf8 rest3
        | _ => false
        end
      else false
  end.

(** [b.decode()]: the text of the bytes, or [UnicodeDecodeError] when
    they are not UTF-8.  A [str] stands in the model by its UTF-8 bytes,
    so the text of well-formed bytes is these bytes. *)
Definition decode (b : string) : Outcome string :=
  if is_utf8 b then Ret b
  else Raise (UnicodeDecodeError "'utf-8' codec can't decode byte").

(** [s.replace(old, new)] for one-character [old] and [new]. *)
Fixpoint replace (old new : ascii) (s : string) : string :=
  match s with
  | EmptyString => EmptyString
  | String c s' => String (if Ascii.eqb c old then new else c) (replace old new s')
  end.

(** [s[-n:]] for [n] positive: the last [n] characters, all of [s] when
    it has fewer. *)
Definition suffix_of (n : nat) (s : string) : string :=
  substring (String.length s - n) n s.

End Py.

Export Py.

Declare Scope py_scope.
Delimit Scope py_scope with py.
Notation "'do' x <- c ; k" := (bind c (fun x => k))
  (at level 10, x name, c at level 100, k at level 200) : py_scope.
Notation "c ;; k" := (bind c (fun _ => k))
  (at level 100, k at level 200, right associativity) : py_scope.

(** ** types.py *)

Module Types.

Definition UniqueID : Type := string.

(** The fields of the shadow state that the bridge reads.  The other
    fields of the dataclass are carried along by the source and never
    inspected by the functions modelled here. *)
Record ShadowState : Type := {
  Set_Breeze : Z;
  Set_Ecoplus : Z;
  Set_Fan : Z;
  Set_LEDOff : Z;
  Set_LRLvr : Z;
  Set_Mode : Z;
  Set_OnOff : Z;
  Set_Sleep : Z;
  Set_Temp : Z;
  Set_Turbo : Z;
  Set_UDLvr : Z;
  Sta_IDRoomTemp : Z;
  Sta_ODAirTemp : Z;
  Sta_ODPwrCon : Z;
  eventType : string;
  key : string
}.

Record Aircond : Type := {
  ACName : string;
  ThingName : string;
  shadowState : ShadowState
}.

Definition is_on (self : Aircond) : bool :=
  Set_OnOff (shadowState self) =? 1.

Definition unique_id (self : Aircond) : UniqueID :=
  lower (ThingName self).

Definition is_connected (self : Aircond) : bool :=
  String.eqb (eventType (shadowState self)) "connected".

(** The enumerations.  Each lives in a module of its name, so that its
    members read as in the source: [AircondMode.COOL], [FanSpeed.AUTO],
    [AircondSwing.AUTO], [AircondPreset.NONE]. *)
Module AircondMode.
Inductive t : Type := COOL | FAN_ONLY | DRY.
Definition value (m : t) : Z :=
  match m with COOL => 1 | FAN_ONLY => 2 | DRY => 4 end.
Definition name (m : t) : string :=
  match m with COOL => "COOL" | FAN_ONLY => "FAN_ONLY" | DRY => "DRY" end.
Definition members : list t := [COOL; FAN_ONLY; DRY].
(** [AircondMode._value2member_map_.get(v)] *)
Definition value2member (v : Z) : option t :=
  List.find (fun m => value m =? v) members.
(** [AircondMode(v)] *)
Definition of_value (v : Z) : Outcome t :=
  match value2member v with
  | Some m => Ret m
  | None => Raise (ValueError "is not a valid AircondMode")
  end.
End AircondMode.

Definition AircondMode : Type := AircondMode.t.

Module FanSpeed.
Inductive t : Type := AUTO | UNKNOWN | LOW | MEDIUM | HIGH.
Definition value (f : t) : Z :=
  match f with
  | AUTO => 128 | UNKNOWN => 1 | LOW => 2 | MEDIUM => 4 | HIGH => 8
  end.
Definition name (f : t) : string :=
  match f with
  | AUTO => "AUTO" | UNKNOWN => "UNKNOWN" | LOW => "LOW"
  | MEDIUM => "MEDIUM" | HIGH => "HIGH"
  end.
Definition members : list t := [AUTO; UNKNOWN; LOW; MEDIUM; HIGH].
(** [FanSpeed(v)] *)
Definition of_value (v : Z) : Outcome t :=
  match List.find (fun f => value f =? v) members with
  | Some f => Ret f
  | None => Raise (ValueError "is not a valid FanSpeed")
  end.
(** [FanSpeed[n]] *)
Definition of_name (n : string) : Outcome t :=
  match List.find (fun f => String.eqb (name f) n) members with
  | Some f => Ret f
  | None => Raise (KeyError n)
  end.
End FanSpeed.

Definition FanSpeed : Type := FanSpeed.t.

Module AircondSwing.
Inductive t : Type := OFF | STEP_1 | STEP_2 | STEP_3 | STEP_4 | STEP_5 | AUTO.
Definition value (s : t) : Z :=
  match s with
  | OFF => 0 | STEP_1 => 1 | STEP_2 => 2 | STEP_3 => 3
  | STEP_4 => 4 | STEP_5 => 5 | AUTO => 15
  end.
Definition name (s : t) : string :=
  match s with
  | OFF => "OFF" | STEP_1 => "STEP_1" | STEP_2 => "STEP_2"
  | STEP_3 => "STEP_3" | STEP_4 => "STEP_4" | STEP_5 => "STEP_5"
  | AUTO => "AUTO"
  end.
Definition members : list t :=
  [OFF; STEP_1; STEP_2; STEP_3; STEP_4; STEP_5; AUTO].
(** [AircondSwing(v)] *)
Definition of_value (v : Z) : Outcome t :=
  match List.find (fun s => value s =? v) members with
  | Some s => Ret s
  | None => Raise (ValueError "is not a valid AircondSwing")
  end.
(** [AircondSwing[n]] *)
Definition of_name (n : string) : Outcome t :=
  match List.find (fun s => String.eqb (name s) n) members with
  | Some s => Ret s
  | None => Raise (KeyError n)
  end.
(** [a == b] on members *)
Definition eqb (a b : t) : bool := value a =? value b.
End AircondSwing.

Definition AircondSwing : Type := AircondSwing.t.

Module AircondPreset.
Inductive t : Type := NONE | COMFORT | ECO | BOOST | SLEEP.
Definition value (p : t) : string :=
  match p with
  | NONE => "none" | COMFORT => "comfort" | ECO => "eco"
  | BOOST => "boost" | SLEEP => "sleep"
  end.
Definition members : list t := [NONE; COMFORT; ECO; BOOST; SLEEP].
(** [AircondPreset(v)] *)
Definition of_value (v : string) : Outcome t :=
  match List.find (fun p => String.eqb (value p) v) members with
  | Some p => Ret p
  | None => Raise (ValueError "is not a valid AircondPreset")
  end.
End AircondPreset.

Definition AircondPreset : Type := AircondPreset.t.

(** The [mode] property of [Aircond]: the mode's name, or ["Unknown"]
    for a code that is no member of the enumeration. *)
Definition mode (self : Aircond) : string :=
  match AircondMode.value2member (Set_Mode (shadowState self)) with
  | Some m => AircondMode.name m
  | None => "Unknown"
  end.

Definition MQTT_PREFIX : string := "godaikin".
Definition DISCOVERY_PREFIX : string := "homeassistant".
Definition BRIDGE_AVAILABILITY_TOPIC : string :=
  MQTT_PREFIX ++ "/bridge/availability".

Record AircondMqttTopics : Type := {
  base : string;
  availability : string;
  cmd_mode : string;
  cmd_temp : string;
  cmd_fan : string;
  cmd_swing : string;
  cmd_swing_horizontal : string;
  cmd_preset : string;
  cmd_status_led : string;
  status : string;
  discovery : string;
  sensor : string
}.

Definition from_aircond (aircond : Aircond) : AircondMqttTopics :=
  let base := MQTT_PREFIX ++ "/" ++ unique_id aircond in
  {| base := base;
     availability := base ++ "/availability";
     cmd_mode := base ++ "/set/mode";
     cmd_temp := base ++ "/set/temperature";
     cmd_fan := base ++ "/set/fan_mode";
     cmd_swing := base ++ "/set/swing_mode";
     cmd_swing_horizontal := base ++ "/set/swing_horizontal_mode";
     cmd_preset := base ++ "/set/preset_mode";
     cmd_status_led := base ++ "/set/status_led";
     status := base ++ "/status";
     discovery :=
       DISCOVERY_PREFIX ++ "/climate/" ++ unique_id aircond ++ "/config";
     sensor := base ++ "/sensor" |}.

(** The [mac_address] property of [Aircond]. *)
Definition mac_address (self : Aircond) : string :=
  if (String.length (ThingName self) <? 12)%nat then "00:00:00:00:00:00"
  else
    let hex_part := suffix_of 12 (ThingName self) in
    String.concat ":"
      (map (fun i => substring i 2 hex_part) [0; 2; 4; 6; 8; 10]%nat).

(** The [object_id] property of [Aircond]. *)
Definition object_id (self : Aircond) : string :=
  replace " " "_" (lower (ACName self)) ++ "_ac".

Definition HVAC_MODES : list string := ["off"; "cool"; "dry"; "fan_only"].
Definition FAN_MODES : list string := ["auto"; "low"; "medium"; "high"].
Definition MIN_TEMP : Z := 16.
Definition MAX_TEMP : Z := 31.
Definition TEMP_STEP_AND_PRECISION : Q := 1.

End Types.

Export Types.

(** ** energy.py *)

Module Energy.

Record EnergyCounter : Type := {
  energy_by_unique_id : gmap UniqueID Q;
  energy_accumulated_at_by_unique_id : gmap UniqueID Z
}.

(** [EnergyCounter()] *)
Definition init : EnergyCounter :=
  {| energy_by_unique_id := ∅; energy_accumulated_at_by_unique_id := ∅ |}.

(** [timedelta.total_seconds()] of a difference of [delta] microseconds *)
Definition total_seconds (delta : Z) : Q := inject_Z delta / 1000000.

(** [now] is the value that [dt.now()] returns in the call. *)
Definition accumulate_energy_usage_for_aircond
    (now : Z) (aircond : Aircond) (self : EnergyCounter)
  : Q * EnergyCounter :=
  let accumulated_at :=
    energy_accumulated_at_by_unique_id self !! unique_id aircond in
  let self :=
    {| energy_by_unique_id := energy_by_unique_id self;
       energy_accumulated_at_by_unique_id :=
         <[unique_id aircond := now]>
           (energy_accumulated_at_by_unique_id self) |} in
  match accumulated_at with
  | None => (0%Q, self)
  | Some accumulated_at =>
      let energy_at_last_accum :=
        default 0%Q (energy_by_unique_id self !! unique_id aircond) in
      let is_actually_on :=
        is_on aircond
        && (Set_OnOff (shadowState aircond) =? 1)
        && (0 <? Sta_ODPwrCon (shadowState aircond)) in
      let kilowatts :=
        if is_actually_on
        then (inject_Z (Sta_ODPwrCon (shadowState aircond)) / 1000)%Q
        else 0%Q in
      let hours_passed_since_last_accum :=
        (total_seconds (now - accumulated_at) / 3600)%Q in
      let energy_since_last_accum :=
        (kilowatts * hours_passed_since_last_accum)%Q in
      let energy_now := (energy_at_last_accum + energy_since_last_accum)%Q in
      (energy_now,
       {| energy_by_unique_id :=
            <[unique_id aircond := energy_now]> (energy_by_unique_id self);
          energy_accumulated_at_by_unique_id :=
            energy_accumulated_at_by_unique_id self |})
  end.

Definition get_energy_usage (unique_id : UniqueID) (self : EnergyCounter) : Q :=
  default 0%Q (energy_by_unique_id self !! unique_id).

Definition Qgtb (x y : Q) : bool := negb (Qle_bool x y).

Definition reset_energy_if_off (aircond : Aircond) (self : EnergyCounter)
  : EnergyCounter :=
  if negb (is_on aircond) && (Set_OnOff (shadowState aircond) =? 0) then
    let old_energy :=
      default 0%Q (energy_by_unique_id self !! unique_id aircond) in
    if Qgtb old_energy 0 then
      {| energy_by_unique_id :=
           <[unique_id aircond := 0%Q]> (energy_by_unique_id self);
         energy_accumulated_at_by_unique_id :=
           energy_accumulated_at_by_unique_id self |}
    else self
  else self.

End Energy.

(** ** auth.py *)

Module Auth.

(** [timedelta(minutes=5)], in microseconds *)
Definition EXPIRY_BUFFER : Z := 5 * 60 * 1000000.

Record CognitoToken : Type := {
  access_token : string;
  id_token : string;
  refresh_token : string;
  expires_at : Z
}.

(** The [AuthenticationResult] entry of a response of the identity
    provider.  A response to a refresh carries no [RefreshToken]. *)
Record AuthenticationResult : Type := {
  AccessToken : string;
  IdToken : string;
  RefreshToken : option string;
  ExpiresIn : Z
}.

(** A call of [cognito.initiate_auth], by its [AuthFlow]. *)
Inductive AuthRequest : Type :=
| USER_PASSWORD_AUTH (USERNAME PASSWORD : string)
| REFRESH_TOKEN_AUTH (REFRESH_TOKEN : string).

(** The world outside: the [k]-th reading of [dt.now()], and what the
    provider does at the [k]-th exchange: it raises, or it answers with
    or without an [AuthenticationResult]. *)
Record Env : Type := {
  clock : nat -> Z;
  cognito : nat -> AuthRequest -> Outcome (option AuthenticationResult)
}.

Record AuthClient : Type := {
  username : string;
  password : string;
  token : option CognitoToken;
  exchanges : list AuthRequest;
  clock_reads : nat
}.

(** [AuthClient(username, password)] *)
Definition init (username password : string) : AuthClient :=
  {| username := username; password := password; token := None;
     exchanges := []; clock_reads := 0 |}.

Definition set_token (t : CognitoToken) (self : AuthClient) : AuthClient :=
  {| username := username self; password := password self; token := Some t;
     exchanges := exchanges self; clock_reads := clock_reads self |}.

Section WithEnv.

Variable env : Env.

Open Scope py_scope.

(** [dt.now()] *)
Definition dt_now : M AuthClient Z :=
  fun self =>
    (Ret (clock env (clock_reads self)),
     {| username := username self; password := password self;
        token := token self; exchanges := exchanges self;
        clock_reads := S (clock_reads self) |}).

(** [cognito.initiate_auth(...)]: the exchange is recorded, then the
    provider answers. *)
Definition initiate_auth (request : AuthRequest)
  : M AuthClient (option AuthenticationResult) :=
  fun self =>
    (cognito env (length (exchanges self)) request,
     {| username := username self; password := password self;
        token := token self; exchanges := exchanges self ++ [request];
        clock_reads := clock_reads self |}).

Definition init_cognito_token : M AuthClient CognitoToken :=
  do user <- gets username;
  do pass <- gets password;
  do auth <- initiate_auth (USER_PASSWORD_AUTH user pass);
  match auth with
  | None =>
      raise (AuthError "Did not receive AuthenticationResult (auth failed or unhandled challenge).")
  | Some auth =>
      match RefreshToken auth with
      | None => raise (KeyError "RefreshToken")
      | Some refresh =>
          do now <- dt_now;
          ret {| access_token := AccessToken auth;
                 id_token := IdToken auth;
                 refresh_token := refresh;
                 expires_at := now + ExpiresIn auth * 1000000 |}
      end
  end.

Definition refresh_jwt_token (token : CognitoToken) : M AuthClient CognitoToken :=
  do auth <- initiate_auth (REFRESH_TOKEN_AUTH (refresh_token token));
  match auth with
  | None =>
      raise (AuthError "Did not receive AuthenticationResult (refresh failed or unhandled challenge).")
  | Some auth =>
      do now <- dt_now;
      ret {| access_token := AccessToken auth;
             id_token := IdToken auth;
             refresh_token := refresh_token token;
             expires_at := now + ExpiresIn auth * 1000000 |}
  end.

Definition get_jwt_token : M AuthClient string :=
  do held <- gets token;
  do tok <- match held with
            | None =>
                do fresh <- init_cognito_token;
                modify (set_token fresh) ;;
                ret fresh
            | Some tok => ret tok
            end;
  do now <- dt_now;
  do tok <- (if expires_at tok <=? now + EXPIRY_BUFFER
             then do renewed <- refresh_jwt_token tok;
                  modify (set_token renewed) ;;
                  ret renewed
             else ret tok);
  ret (id_token tok).

End WithEnv.

(** The number of initial (username and password) exchanges in a log. *)
Definition initial_exchanges (log : list AuthRequest) : nat :=
  length (List.filter
            (fun r => match r with USER_PASSWORD_AUTH _ _ => true | _ => false end)
            log).

End Auth.

(** ** api.py and controller.py *)

Module Controller.

Import Energy.

#[local] Unset Elimination Schemes.
Inductive JsonValue : Type :=
| JNull
| JBool (b : bool)
| JInt (n : Z)
| JFloat (x : Q)
| JStr (s : string)
| JList (items : list JsonValue)
| JDict (items : list (string * JsonValue)).
#[local] Set Elimination Schemes.

(** A Python [dict] literal with string keys, in insertion order. *)
Definition JsonObject : Type := list (string * JsonValue).

(** [d[k]] of a literal, when [k] is one of its keys. *)
Fixpoint field (k : string) (d : JsonObject) : option JsonValue :=
  match d with
  | [] => None
  | (k', v) :: d' => if String.eqb k k' then Some v else field k d'
  end.

(** The [payload: dict | str] argument of [mqtt_publish]. *)
Inductive Payload : Type :=
| PayloadStr (s : string)
| PayloadDict (d : JsonObject).

(** The payload of an inbound message: [bytes], as the broker delivers
    it, or a value of another type, which stands by the text that
    [str()] gives for it. *)
Inductive MessagePayload : Type :=
| Bytes (b : string)
| NotBytes (text : string).

Record DiscoveryMessage : Type := {
  topic : string;
  payload : JsonObject
}.

(** A call of [mqtt.publish(topic, payload, qos=, retain=)]. *)
Record MqttPublish : Type := {
  pub_topic : string;
  pub_payload : string;
  pub_qos : Z;
  pub_retain : bool
}.

(** A call of [ApiClient._api_request]. *)
Inductive ApiRequest : Type :=
| gethomepageinfowithsubscription
| publishdevicestate (thingName key : string) (desired : list (string * Z)).

(** The world outside the controller.
    - [clock k]: the [k]-th reading of [dt.now()].
    - [broker k]: whether the [k]-th call of [mqtt.publish] returns or
      raises.
    - [cloud k]: whether the [k]-th call of [_api_request] (credential,
      HTTP round trip, status check) raises or returns; of a response the
      model keeps the devices of its [data] entry as [Aircond.from_api]
      parses them (none when the entry is absent).
    - [json_dumps d] is [json.dumps(d)].
    - [float_of_str s] is [float(s)], [None] when it raises or yields no
      finite number.
    - [make_discovery_messages] is the formatter of discovery.py, a pure
      function of the device and its topics. *)
Record Env : Type := {
  clock : nat -> Z;
  broker : nat -> Outcome unit;
  cloud : nat -> Outcome (list Aircond);
  json_dumps : JsonObject -> string;
  float_of_str : string -> option Q;
  make_discovery_messages : Aircond -> AircondMqttTopics -> list DiscoveryMessage
}.

(** The controller with the API client it owns ([airconds_by_unique_id]),
    and the record of what it did to the outside: the calls of
    [mqtt.publish] and of [_api_request], oldest first, the number of
    clock readings, and the warnings logged. *)
Record Controller : Type := {
  energy : EnergyCounter;
  mqtt_topics_by_unique_id : gmap UniqueID AircondMqttTopics;
  preempt_state_refresh : bool;
  payload_cache_by_topic : gmap string string;
  airconds_by_unique_id : gmap UniqueID Aircond;
  published : list MqttPublish;
  api_requests : list ApiRequest;
  clock_reads : nat;
  warnings : list string
}.

(** [Controller(api, mqtt, refresh_interval)] on a fresh [ApiClient] *)
Definition init : Controller :=
  {| energy := Energy.init;
     mqtt_topics_by_unique_id := ∅;
     preempt_state_refresh := false;
     payload_cache_by_topic := ∅;
     airconds_by_unique_id := ∅;
     published := [];
     api_requests := [];
     clock_reads := 0;
     warnings := [] |}.

Definition set_energy (e : EnergyCounter) (self : Controller) : Controller :=
  {| energy := e;
     mqtt_topics_by_unique_id := mqtt_topics_by_unique_id self;
     preempt_state_refresh := preempt_state_refresh self;
     payload_cache_by_topic := payload_cache_by_topic self;
     airconds_by_unique_id := airconds_by_unique_id self;
     published := published self;
     api_requests := api_requests self;
     clock_reads := clock_reads self;
     warnings := warnings self |}.

Definition set_mqtt_topics_by_unique_id
    (m : gmap UniqueID AircondMqttTopics) (self : Controller) : Controller :=
  {| energy := energy self;
     mqtt_topics_by_unique_id := m;
     preempt_state_refresh := preempt_state_refresh self;
     payload_cache_by_topic := payload_cache_by_topic self;
     airconds_by_unique_id := airconds_by_unique_id self;
     published := published self;
     api_requests := api_requests self;
     clock_reads := clock_reads self;
     warnings := warnings self |}.

Definition set_preempt_state_refresh (b : bool) (self : Controller) : Controller :=
  {| energy := energy self;
     mqtt_topics_by_unique_id := mqtt_topics_by_unique_id self;
     preempt_state_refresh := b;
     payload_cache_by_topic := payload_cache_by_topic self;
     airconds_by_unique_id := airconds_by_unique_id self;
     published := published self;
     api_requests := api_requests self;
     clock_reads := clock_reads self;
     warnings := warnings self |}.

Definition set_payload_cache_by_topic
    (m : gmap string string) (self : Controller) : Controller :=
  {| energy := energy self;
     mqtt_topics_by_unique_id := mqtt_topics_by_unique_id self;
     preempt_state_refresh := preempt_state_refresh self;
     payload_cache_by_topic := m;
     airconds_by_unique_id := airconds_by_unique_id self;
     published := published self;
     api_requests := api_requests self;
     clock_reads := clock_reads self;
     warnings := warnings self |}.

Definition set_airconds_by_unique_id
    (m : gmap UniqueID Aircond) (self : Controller) : Controller :=
  {| energy := energy self;
     mqtt_topics_by_unique_id := mqtt_topics_by_unique_id self;
     preempt_state_refresh := preempt_state_refresh self;
     payload_cache_by_topic := payload_cache_by_topic self;
     airconds_by_unique_id := m;
     published := published self;
     api_requests := api_requests self;
     clock_reads := clock_reads self;
     warnings := warnings self |}.

Definition set_published (l : list MqttPublish) (self : Controller) : Controller :=
  {| energy := energy self;
     mqtt_topics_by_unique_id := mqtt_topics_by_unique_id self;
     preempt_state_refresh := preempt_state_refresh self;
     payload_cache_by_topic := payload_cache_by_topic self;
     airconds_by_unique_id := airconds_by_unique_id self;
     published := l;
     api_requests := api_requests self;
     clock_reads := clock_reads self;
     warnings := warnings self |}.

Definition set_api_requests (l : list ApiRequest) (self : Controller) : Controller :=
  {| energy := energy self;
     mqtt_topics_by_unique_id := mqtt_topics_by_unique_id self;
     preempt_state_refresh := preempt_state_refresh self;
     payload_cache_by_topic := payload_cache_by_topic self;
     airconds_by_unique_id := airconds_by_unique_id self;
     published := published self;
     api_requests := l;
     clock_reads := clock_reads self;
     warnings := warnings self |}.

Definition set_clock_reads (n : nat) (self : Controller) : Controller :=
  {| energy := energy self;
     mqtt_topics_by_unique_id := mqtt_topics_by_unique_id self;
     preempt_state_refresh := preempt_state_refresh self;
     payload_cache_by_topic := payload_cache_by_topic self;
     airconds_by_unique_id := airconds_by_unique_id self;
     published := published self;
     api_requests := api_requests self;
     clock_reads := n;
     warnings := warnings self |}.

Definition set_warnings (l : list string) (self : Controller) : Controller :=
  {| energy := energy self;
     mqtt_topics_by_unique_id := mqtt_topics_by_unique_id self;
     preempt_state_refresh := preempt_state_refresh self;
     payload_cache_by_topic := payload_cache_by_topic self;
     airconds_by_unique_id := airconds_by_unique_id self;
     published := published self;
     api_requests := api_requests self;
     clock_reads := clock_reads self;
     warnings := l |}.

(** [round(x, 2)]: to the nearest multiple of 1/100, ties to the even one. *)
Definition round_half_even (x : Q) : Z :=
  let f := Qfloor x in
  match ((x - inject_Z f) ?= (1 # 2))%Q with
  | Lt => f
  | Gt => f + 1
  | Eq => if Z.even f then f else f + 1
  end.

Definition round2 (x : Q) : Q := (inject_Z (round_half_even (x * 100)) / 100)%Q.

(** Lift the outcome of a pure computation. *)
Definition lift {A} (o : Outcome A) : M Controller A := fun self => (o, self).

(** Lines 233-242 of controller.py: the preset of the status payload. *)
Definition preset_mode (aircond : Aircond) : string :=
  if truthy (Set_Turbo (shadowState aircond)) then AircondPreset.value AircondPreset.BOOST
  else if truthy (Set_Breeze (shadowState aircond)) then AircondPreset.value AircondPreset.COMFORT
  else if truthy (Set_Ecoplus (shadowState aircond)) then AircondPreset.value AircondPreset.ECO
  else if truthy (Set_Sleep (shadowState aircond)) then AircondPreset.value AircondPreset.SLEEP
  else AircondPreset.value AircondPreset.NONE.

(** Lines 228-256 of controller.py: the status payload of
    [publish_aircond_state], or the exception of an enumeration lookup. *)
Definition aircond_state_payload (aircond : Aircond) : Outcome JsonObject :=
  let mode :=
    if negb (is_on aircond) then Ret "off"
    else match AircondMode.of_value (Set_Mode (shadowState aircond)) with
         | Ret m => Ret (lower (AircondMode.name m))
         | Raise e => Raise e
         end in
  match mode with
  | Raise e => Raise e
  | Ret mode =>
      let preset_mode := preset_mode aircond in
      match FanSpeed.of_value (Set_Fan (shadowState aircond)) with
      | Raise e => Raise e
      | Ret fan_mode =>
          match AircondSwing.of_value (Set_UDLvr (shadowState aircond)) with
          | Raise e => Raise e
          | Ret swing_mode =>
              match AircondSwing.of_value (Set_LRLvr (shadowState aircond)) with
              | Raise e => Raise e
              | Ret swing_horizontal_mode =>
                  Ret [("mode", JStr mode);
                       ("temperature", JInt (Set_Temp (shadowState aircond)));
                       ("current_temperature",
                        JInt (Sta_IDRoomTemp (shadowState aircond)));
                       ("fan_mode", JStr (lower (FanSpeed.name fan_mode)));
                       ("swing_mode", JStr (title (AircondSwing.name swing_mode)));
                       ("swing_horizontal_mode",
                        JStr (title (AircondSwing.name swing_horizontal_mode)));
                       ("preset_mode", JStr preset_mode)]
              end
          end
      end
  end.

(** Lines 281-295 of controller.py: the power of the sensor payload. *)
Definition power_w (aircond : Aircond) : Z :=
  let is_set_to_on := Set_OnOff (shadowState aircond) =? 1 in
  let is_property_on := is_on aircond in
  let has_power_draw := 0 <? Sta_ODPwrCon (shadowState aircond) in
  let is_actually_on := is_set_to_on && is_property_on && has_power_draw in
  if negb is_set_to_on || negb is_property_on then 0
  else if has_power_draw && is_actually_on then Sta_ODPwrCon (shadowState aircond)
  else 0.

(** Lines 308-316 of controller.py: the sensor payload. *)
Definition sensor_payload (aircond : Aircond) (energy_usage : Q) : JsonObject :=
  [("Sta_ODPwrCon", JInt (power_w aircond));
   ("Sta_IDRoomTemp", JInt (Sta_IDRoomTemp (shadowState aircond)));
   ("Sta_ODAirTemp", JInt (Sta_ODAirTemp (shadowState aircond)));
   ("energy", JFloat (round2 energy_usage));
   ("status_led",
    JStr (if truthy (Set_LEDOff (shadowState aircond)) then "OFF" else "ON"))].

Section WithEnv.

Variable env : Env.

Open Scope py_scope.

Definition warning (event : string) : M Controller unit :=
  modify (fun self => set_warnings (warnings self ++ [event]) self).

(** [dt.now()] *)
Definition dt_now : M Controller Z :=
  fun self =>
    (Ret (clock env (clock_reads self)),
     set_clock_reads (S (clock_reads self)) self).

(** [self.mqtt.publish(topic, payload, qos=qos, retain=retain)] *)
Definition mqtt_client_publish (topic payload : string) (qos : Z) (retain : bool)
  : M Controller unit :=
  fun self =>
    (broker env (length (published self)),
     set_published
       (published self ++
          [{| pub_topic := topic; pub_payload := payload;
              pub_qos := qos; pub_retain := retain |}])
       self).

Definition payload_str (payload : Payload) : string :=
  match payload with
  | PayloadDict d => json_dumps env d
  | PayloadStr s => s
  end.

Definition mqtt_publish (topic : string) (payload : Payload) (qos : Z)
    (retain : bool) (only_if_changed : bool) : M Controller unit :=
  let payload_str := payload_str payload in
  let transmit := mqtt_client_publish topic payload_str qos retain in
  if only_if_changed then
    do cached_payload <- gets (fun self => payload_cache_by_topic self !! topic);
    if bool_decide (cached_payload = Some payload_str) then ret tt
    else
      modify (fun self =>
                set_payload_cache_by_topic
                  (<[topic := payload_str]> (payload_cache_by_topic self)) self) ;;
      transmit
  else transmit.

Definition publish_bridge_availability : M Controller unit :=
  mqtt_publish BRIDGE_AVAILABILITY_TOPIC (PayloadStr "online") 1 true false.

Definition publish_bridge_offline : M Controller unit :=
  mqtt_publish BRIDGE_AVAILABILITY_TOPIC (PayloadStr "offline") 1 true false.

(** *** The API client (api.py) *)

Definition _api_request (request : ApiRequest) : M Controller (list Aircond) :=
  fun self =>
    (cloud env (length (api_requests self)),
     set_api_requests (api_requests self ++ [request]) self).

Definition get_airconds : M Controller (list Aircond) :=
  do airconds <- _api_request gethomepageinfowithsubscription;
  modify (set_airconds_by_unique_id
            (foldl (fun m a => <[unique_id a := a]> m) ∅ airconds)) ;;
  ret airconds.

Definition _set_desired_state (unique_id : UniqueID) (state : list (string * Z))
  : M Controller unit :=
  do known <- gets (fun self => airconds_by_unique_id self !! unique_id);
  match known with
  | None => raise (KeyError unique_id)
  | Some aircond =>
      _api_request
        (publishdevicestate (ThingName aircond) (key (shadowState aircond)) state) ;;
      ret tt
  end.

Definition set_mode (unique_id : UniqueID) (mode : AircondMode) : M Controller unit :=
  _set_desired_state unique_id
    [("Set_OnOff", 1); ("Set_Mode", AircondMode.value mode)].

Definition set_preset (unique_id : UniqueID) (preset : AircondPreset)
  : M Controller unit :=
  match preset with
  | AircondPreset.NONE =>
      _set_desired_state unique_id
        [("Set_Breeze", 0); ("Set_Ecoplus", 0); ("Set_Silent", 0);
         ("Set_Sleep", 0); ("Set_SmEcomax", 0); ("Set_SmSleepplus", 0);
         ("Set_SmPwrfulplus", 0); ("Set_Turbo", 0)]
  | AircondPreset.COMFORT =>
      _set_desired_state unique_id
        [("Set_Breeze", 1); ("Set_LRLvr", 0); ("Set_Swing", 0)]
  | AircondPreset.ECO =>
      _set_desired_state unique_id [("Set_Ecoplus", 1); ("Set_SmEcomax", 0)]
  | AircondPreset.BOOST =>
      _set_desired_state unique_id [("Set_Silent", 0); ("Set_Turbo", 1)]
  | AircondPreset.SLEEP =>
      _set_desired_state unique_id [("Set_Sleep", 1); ("SetSmSleepplus", 0)]
  end.

Definition set_fan_mode (unique_id : UniqueID) (fan : FanSpeed) : M Controller unit :=
  _set_desired_state unique_id [("Set_Fan", FanSpeed.value fan)].

Definition set_swing (unique_id : UniqueID) (swing : AircondSwing)
    (horizontal : bool) : M Controller unit :=
  if horizontal then
    _set_desired_state unique_id [("Set_LRLvr", AircondSwing.value swing)]
  else
    _set_desired_state unique_id
      [("Set_Swing", if AircondSwing.eqb swing AircondSwing.AUTO then 1 else 0);
       ("Set_UDLvr", AircondSwing.value swing)].

Definition set_temperature (unique_id : UniqueID) (temperature : Z)
  : M Controller unit :=
  _set_desired_state unique_id [("Set_Temp", temperature)].

Definition turn_off (unique_id : UniqueID) : M Controller unit :=
  _set_desired_state unique_id [("Set_OnOff", 0)].

Definition turn_on (unique_id : UniqueID) : M Controller unit :=
  _set_desired_state unique_id [("Set_OnOff", 1)].

Definition set_status_led (unique_id : UniqueID) (on : bool) : M Controller unit :=
  if on then _set_desired_state unique_id [("Set_LEDOff", 0); ("Set_PwrInd", 1)]
  else _set_desired_state unique_id [("Set_LEDOff", 1); ("Set_PwrInd", 0)].

(** *** Inbound commands *)

Definition handle_set_mode (unique_id : UniqueID) (mode : string) : M Controller unit :=
  if String.eqb mode "off" then turn_off unique_id
  else if String.eqb mode "cool" then set_mode unique_id AircondMode.COOL
  else if String.eqb mode "dry" then set_mode unique_id AircondMode.DRY
  else if String.eqb mode "fan_only" then set_mode unique_id AircondMode.FAN_ONLY
  else warning "Unknown mode".

Definition handle_set_preset_mode (unique_id : UniqueID) (preset_mode : string)
  : M Controller unit :=
  do preset <- match AircondPreset.of_value preset_mode with
               | Ret preset => ret preset
               | Raise (ValueError _) =>
                   warning "Unknown preset mode" ;; ret AircondPreset.NONE
               | Raise e => raise e
               end;
  set_preset unique_id preset.

Definition handle_set_temperature (unique_id : UniqueID) (temperature : Z)
  : M Controller unit :=
  set_temperature unique_id temperature.

Definition handle_set_fan_mode (unique_id : UniqueID) (fan_mode : string)
  : M Controller unit :=
  do fan <- lift (FanSpeed.of_name (upper fan_mode));
  set_fan_mode unique_id fan.

Definition handle_set_swing (unique_id : UniqueID) (swing : string)
  : M Controller unit :=
  do swing_ <- lift (AircondSwing.of_name (upper swing));
  set_swing unique_id swing_ false.

Definition handle_set_swing_horizontal (unique_id : UniqueID) (swing : string)
  : M Controller unit :=
  do swing_ <- lift (AircondSwing.of_name (upper swing));
  set_swing unique_id swing_ true.

Definition handle_set_status_led (unique_id : UniqueID) (on_or_off : string)
  : M Controller unit :=
  let on := String.eqb on_or_off "ON" in
  set_status_led unique_id on.

Definition handle_set_message (set_key : string) (unique_id : UniqueID)
    (payload : string) : M Controller unit :=
  (if String.eqb set_key "mode" then handle_set_mode unique_id payload
   else if String.eqb set_key "fan_mode" then handle_set_fan_mode unique_id payload
   else if String.eqb set_key "preset_mode" then
     handle_set_preset_mode unique_id payload
   else if String.eqb set_key "temperature" then
     match float_of_str env payload with
     | None => raise (ValueError "could not convert string to float")
     | Some x => handle_set_temperature unique_id (int_of_float x)
     end
   else if String.eqb set_key "swing_mode" then handle_set_swing unique_id payload
   else if String.eqb set_key "swing_horizontal_mode" then
     handle_set_swing_horizontal unique_id payload
   else if String.eqb set_key "status_led" then
     handle_set_status_led unique_id payload
   else ret tt) ;;
  modify (set_preempt_state_refresh true).

(** Lines 83-86 of controller.py: the text of the payload of a message,
    decoded when the payload is [bytes], [str(payload)] otherwise. *)
Definition payload_text (message_payload : MessagePayload) : Outcome string :=
  match message_payload with
  | Bytes b => decode b
  | NotBytes text => Ret text
  end.

(** [message] is the topic of the message and its payload. *)
Definition handle_message (topic : string) (message_payload : MessagePayload)
  : M Controller unit :=
  do payload <- lift (payload_text message_payload);
  match split "/" topic with
  | [_; unique_id; action; key] =>
      if String.eqb action "set" then handle_set_message key unique_id payload
      else warning "Unknown MQTT action"
  | _ => raise (ValueError "not enough or too many values to unpack (expected 4)")
  end.

(** [message_loop], over the messages that arrive.  The subscription to
    [godaikin/+/set/+] that comes before them is a call of the broker
    client that touches nothing of the controller; it is left out. *)
Definition message_loop (messages : list (string * MessagePayload))
  : M Controller unit :=
  for_each messages (fun message => handle_message (fst message) (snd message)).

(** *** Discovery and state refresh *)

Definition get_mqtt_topics (aircond : Aircond) : M Controller AircondMqttTopics :=
  do cached <- gets (fun self => mqtt_topics_by_unique_id self !! unique_id aircond);
  match cached with
  | Some topics => ret topics
  | None =>
      let topics := from_aircond aircond in
      modify (fun self =>
                set_mqtt_topics_by_unique_id
                  (<[unique_id aircond := topics]> (mqtt_topics_by_unique_id self))
                  self) ;;
      ret topics
  end.

Definition publish_discovery : M Controller unit :=
  do airconds <- get_airconds;
  for_each airconds (fun aircond =>
    do topics <- get_mqtt_topics aircond;
    let discovery_messages := make_discovery_messages env aircond topics in
    for_each discovery_messages (fun msg =>
      mqtt_publish (topic msg) (PayloadDict (payload msg)) 1 true false)).

(** [self.mqtt_topics_by_unique_id[aircond.unique_id]] *)
Definition topics_of (aircond : Aircond) : M Controller AircondMqttTopics :=
  do found <- gets (fun self => mqtt_topics_by_unique_id self !! unique_id aircond);
  match found with
  | Some topics => ret topics
  | None => raise (KeyError (unique_id aircond))
  end.

Definition publish_aircond_state (aircond : Aircond) : M Controller unit :=
  do topics <- topics_of aircond;
  do payload <- lift (aircond_state_payload aircond);
  mqtt_publish (status topics) (PayloadDict payload) 1 true true ;;
  let availability_payload :=
    if is_connected aircond then "online" else "offline" in
  mqtt_publish (availability topics) (PayloadStr availability_payload) 1 true true.

Definition publish_sensor_state (aircond : Aircond) : M Controller unit :=
  do topics <- topics_of aircond;
  modify (fun self => set_energy (reset_energy_if_off aircond (energy self)) self) ;;
  do now <- dt_now;
  do energy_usage <-
    (fun self =>
       let (usage, counter) :=
         accumulate_energy_usage_for_aircond now aircond (energy self) in
       (Ret usage, set_energy counter self));
  mqtt_publish (sensor topics) (PayloadDict (sensor_payload aircond energy_usage))
    1 true true.

Definition refresh_state : M Controller unit :=
  do airconds <- get_airconds;
  for_each airconds (fun aircond =>
    publish_aircond_state aircond ;;
    publish_sensor_state aircond).

(** The first [cycles] turns of the [while True] of [controller_loop]:
    a refresh, then the wait, after which the preemption signal is clear
    (it is cleared when it ended the wait, and was clear when the wait
    timed out). *)
Fixpoint poll_cycles (cycles : nat) : M Controller unit :=
  match cycles with
  | O => ret tt
  | S cycles' =>
      refresh_state ;;
      modify (set_preempt_state_refresh false) ;;
      poll_cycles cycles'
  end.

Definition controller_loop (cycles : nat) : M Controller unit :=
  publish_discovery ;;
  poll_cycles cycles.

Definition refresh_aircond_state : M Controller unit :=
  do airconds <- get_airconds;
  for_each airconds (fun aircond =>
    publish_aircond_state aircond ;;
    publish_sensor_state aircond).

End WithEnv.

End Controller.

(** ** discovery.py *)

Module Discovery.

Import Controller.

(** The enable flags of the shadow state, which only discovery.py reads.
    The functions below take them as [state], next to the device. *)
Record EnableFlags : Type := {
  Ena_Breeze : Z;
  Ena_Ecoplus : Z;
  Ena_LEDOff : Z;
  Ena_LRStep : Z;
  Ena_LRSwing : Z;
  Ena_Silent : Z;
  Ena_Turbo : Z;
  Ena_UDStep : Z
}.

Definition make_preset_modes (state : EnableFlags) : list string :=
  let preset_modes : list string := [] in
  let preset_modes :=
    if truthy (Ena_Turbo state)
    then (preset_modes ++ [AircondPreset.value AircondPreset.BOOST])%list
    else preset_modes in
  let preset_modes :=
    if truthy (Ena_Breeze state)
    then (preset_modes ++ [AircondPreset.value AircondPreset.COMFORT])%list
    else preset_modes in
  let preset_modes :=
    if truthy (Ena_Ecoplus state)
    then (preset_modes ++ [AircondPreset.value AircondPreset.ECO])%list
    else preset_modes in
  let preset_modes :=
    if truthy (Ena_Silent state)
    then (preset_modes ++ [AircondPreset.value AircondPreset.SLEEP])%list
    else preset_modes in
  preset_modes.

Definition make_swing_modes (state : EnableFlags) : list string :=
  let swing_modes := ["Off"; "Auto"] in
  if truthy (Ena_UDStep state)
  then (swing_modes ++ ["Step_1"; "Step_2"; "Step_3"; "Step_4"; "Step_5"])%list
  else swing_modes.

Definition make_swing_horizontal_modes (state : EnableFlags) : option (list string) :=
  if negb (truthy (Ena_LRSwing state)) then None
  else
    let swing_modes := ["Off"; "Auto"] in
    Some (if truthy (Ena_LRStep state)
          then (swing_modes
                ++ ["Step_1"; "Step_2"; "Step_3"; "Step_4"; "Step_5"])%list
          else swing_modes).

Definition strings (l : list string) : JsonValue := JList (map JStr l).

(** The [availability] entry that every discovery payload carries. *)
Definition availability_of (topics : AircondMqttTopics) : JsonValue :=
  JList [JDict [("topic", JStr BRIDGE_AVAILABILITY_TOPIC)];
         JDict [("topic", JStr (availability topics))]].

Definition make_control_discovery_messages
    (aircond : Aircond) (state : EnableFlags) (topics : AircondMqttTopics)
  : list DiscoveryMessage :=
  let payload :=
    [("name", JNull);
     ("object_id", JStr (object_id aircond));
     ("unique_id", JStr (unique_id aircond));
     ("modes", strings HVAC_MODES);
     ("mode_command_topic", JStr (cmd_mode topics));
     ("mode_state_topic", JStr (status topics));
     ("mode_state_template", JStr "{{ value_json.mode }}");
     ("temperature_command_topic", JStr (cmd_temp topics));
     ("temperature_state_topic", JStr (status topics));
     ("temperature_state_template", JStr "{{ value_json.temperature }}");
     ("current_temperature_topic", JStr (status topics));
     ("current_temperature_template",
      JStr "{{ value_json.current_temperature }}");
     ("fan_modes", strings FAN_MODES);
     ("fan_mode_command_topic", JStr (cmd_fan topics));
     ("fan_mode_state_topic", JStr (status topics));
     ("fan_mode_state_template", JStr "{{ value_json.fan_mode }}");
     ("swing_modes", strings (make_swing_modes state));
     ("swing_mode_command_topic", JStr (cmd_swing topics));
     ("swing_mode_state_topic", JStr (status topics));
     ("swing_mode_state_template", JStr "{{ value_json.swing_mode }}");
     ("swing_horizontal_modes",
      match make_swing_horizontal_modes state with
      | Some modes => strings modes
      | None => JNull
      end);
     ("swing_horizontal_mode_command_topic",
      JStr (cmd_swing_horizontal topics));
     ("swing_horizontal_mode_state_topic", JStr (status topics));
     ("swing_horizontal_mode_state_template",
      JStr "{{ value_json.swing_horizontal_mode }}");
     ("preset_modes", strings (make_preset_modes state));
     ("preset_mode_command_topic", JStr (cmd_preset topics));
     ("preset_mode_state_topic", JStr (status topics));
     ("preset_mode_value_template", JStr "{{ value_json.preset_mode }}");
     ("temp_step", JFloat TEMP_STEP_AND_PRECISION);
     ("min_temp", JInt MIN_TEMP);
     ("max_temp", JInt MAX_TEMP);
     ("precision", JFloat TEMP_STEP_AND_PRECISION);
     ("icon", JStr "mdi:air-conditioner");
     ("qos", JInt 0);
     ("retain", JBool false);
     ("availability_mode", JStr "all");
     ("availability", availability_of topics);
     ("device",
      JDict [("identifiers", strings [unique_id aircond]);
             ("manufacturer", JStr "Daikin");
             ("model", JStr "GO DAIKIN");
             ("name", JStr (ACName aircond));
             ("connections",
              JList [JList [JStr "mac"; JStr (mac_address aircond)]])])] in
  [{| topic := discovery topics; payload := payload |}].

(** The rows of the table that [make_sensor_discovery_messages] walks:
    name, field, unit, device class, state class. *)
Definition sensors : list (string * string * string * string * string) :=
  [("Power", "Sta_ODPwrCon", "W", "power", "measurement");
   ("Indoor temperature", "Sta_IDRoomTemp", "°C", "temperature", "measurement");
   ("Outdoor temperature", "Sta_ODAirTemp", "°C", "temperature", "measurement");
   ("Energy", "energy", "kWh", "energy", "total_increasing")].

Definition _normalize_name (sensor_name : string) : string :=
  replace " " "_" (lower sensor_name).

Definition make_sensor_discovery_messages
    (aircond : Aircond) (topics : AircondMqttTopics) : list DiscoveryMessage :=
  map (fun row =>
         match row with
         | (sensor_name, sensor_field, sensor_unit, sensor_class, state_class) =>
             let sensor_norm_name := _normalize_name sensor_name in
             let sensor_discovery_topic :=
               DISCOVERY_PREFIX ++ "/sensor/" ++ unique_id aircond ++ "/"
               ++ sensor_norm_name ++ "/config" in
             let payload :=
               [("name", JStr sensor_name);
                ("unique_id",
                 JStr (unique_id aircond ++ "_" ++ sensor_norm_name));
                ("state_topic", JStr (sensor topics));
                ("value_template",
                 JStr ("{{ value_json." ++ sensor_field ++ " }}"));
                ("state_class", JStr state_class);
                ("unit_of_measurement", JStr sensor_unit);
                ("device_class", JStr sensor_class);
                ("qos", JInt 0);
                ("retain", JBool true);
                ("availability_mode", JStr "all");
                ("availability", availability_of topics);
                ("device",
                 JDict [("identifiers", strings [unique_id aircond])])] in
             {| topic := sensor_discovery_topic; payload := payload |}
         end)
      sensors.

Definition make_configuration_discovery_messages
    (aircond : Aircond) (state : EnableFlags) (topics : AircondMqttTopics)
  : list DiscoveryMessage :=
  if truthy (Ena_LEDOff state) then
    let norm_name := "status_led" in
    let discovery_topic :=
      DISCOVERY_PREFIX ++ "/light/" ++ unique_id aircond ++ "/"
      ++ norm_name ++ "/config" in
    let payload :=
      [("name", JStr "Status LED");
       ("unique_id", JStr (unique_id aircond ++ "_" ++ norm_name));
       ("command_topic", JStr (cmd_status_led topics));
       ("state_topic", JStr (sensor topics));
       ("state_value_template", JStr ("{{ value_json." ++ norm_name ++ " }}"));
       ("qos", JInt 0);
       ("retain", JBool false);
       ("entity_category", JStr "config");
       ("icon", JStr "mdi:lightning-bolt-circle");
       ("availability_mode", JStr "all");
       ("availability", availability_of topics);
       ("device", JDict [("identifiers", strings [unique_id aircond])])] in
    [{| topic := discovery_topic; payload := payload |}]
  else [].

Definition make_discovery_messages
    (aircond : Aircond) (state : EnableFlags) (topics : AircondMqttTopics)
  : list DiscoveryMessage :=
  (make_control_discovery_messages aircond state topics
   ++ make_sensor_discovery_messages aircond topics
   ++ make_configuration_discovery_messages aircond state topics)%list.

End Discovery.

(** * Vocabulary of the properties *)

Import Energy.

(** Hours between two instants, as the specification counts them. *)
Definition elapsed_hours (since now : Z) : Q :=
  (inject_Z (now - since) / inject_Z (3600 * 1000000))%Q.

(** The device is judged actually on: power flag set, reported on, and a
    positive power reading. *)
Definition actually_on (aircond : Aircond) : Prop :=
  Set_OnOff (shadowState aircond) = 1 /\ is_on aircond = true /\
  0 < Sta_ODPwrCon (shadowState aircond).

(** No stored total is negative. *)
Definition energy_nonneg (ec : EnergyCounter) : Prop :=
  forall uid, (0 <= get_energy_usage uid ec)%Q.

(** The states of the counter under a clock that never runs backwards. *)
Inductive reachable : EnergyCounter -> Prop :=
| reachable_init : reachable Energy.init
| reachable_accumulate now aircond ec :
    reachable ec ->
    (forall since,
        energy_accumulated_at_by_unique_id ec !! unique_id aircond = Some since ->
        since <= now) ->
    reachable (snd (accumulate_energy_usage_for_aircond now aircond ec))
| reachable_reset aircond ec :
    reachable ec -> reachable (reset_energy_if_off aircond ec).

(** [accumulate] at each instant of [times] in turn, for one device. *)
Definition accumulate_at_each (times : list Z) (aircond : Aircond)
    (ec : EnergyCounter) : EnergyCounter :=
  foldl (fun ec now => snd (accumulate_energy_usage_for_aircond now aircond ec))
        ec times.

(** A device as the cloud reports it (the example response of types.py),
    with a power reading taken while it runs. *)
Definition bedroom_state : ShadowState :=
  {| Set_Breeze := 0; Set_Ecoplus := 0; Set_Fan := 2; Set_LEDOff := 0;
     Set_LRLvr := 3; Set_Mode := 2; Set_OnOff := 1; Set_Sleep := 0;
     Set_Temp := 26; Set_Turbo := 0; Set_UDLvr := 15; Sta_IDRoomTemp := 28;
     Sta_ODAirTemp := 27; Sta_ODPwrCon := 750;
     eventType := "connected"; key := "" |}.

Definition bedroom : Aircond :=
  {| ACName := "bedroom"; ThingName := "Daikin_4c50dd423066";
     shadowState := bedroom_state |}.

Definition with_state (aircond : Aircond) (state : ShadowState) : Aircond :=
  {| ACName := ACName aircond; ThingName := ThingName aircond;
     shadowState := state |}.

(** The same device switched off. *)
Definition bedroom_off : Aircond :=
  with_state bedroom
    {| Set_Breeze := 0; Set_Ecoplus := 0; Set_Fan := 2; Set_LEDOff := 0;
       Set_LRLvr := 3; Set_Mode := 2; Set_OnOff := 0; Set_Sleep := 0;
       Set_Temp := 26; Set_Turbo := 0; Set_UDLvr := 15; Sta_IDRoomTemp := 28;
       Sta_ODAirTemp := 27; Sta_ODPwrCon := 0;
       eventType := "connected"; key := "" |}.

(** A counter that has seen the bedroom unit once, at instant 0, and
    holds 2.5 kWh for it. *)
Definition counter_in_use : EnergyCounter :=
  {| energy_by_unique_id := {[ unique_id bedroom := (5 # 2)%Q ]};
     energy_accumulated_at_by_unique_id := {[ unique_id bedroom := 0 ]} |}.

(** Two hours, in microseconds. *)
Definition two_hours : Z := 2 * 3600 * 1000000.

(** The counter of a bridge that saw the bedroom unit at instant 0 and,
    running at 750 W, two hours later: it holds 1.5 kWh for it. *)
Definition counter_after_two_hours : EnergyCounter :=
  snd (accumulate_energy_usage_for_aircond two_hours bedroom
         (snd (accumulate_energy_usage_for_aircond 0 bedroom Energy.init))).

Import Controller.

(** The controller after a call, whether the call returned or raised. *)
Definition after {A} (call : M Controller A) (self : Controller) : Controller :=
  snd (call self).

(** The preset that the specification describes: the first flag that is
    set, in the order turbo, comfort, eco, sleep; "none" without one. *)
Definition preset_by_priority (aircond : Aircond) : string :=
  let flags :=
    [(Set_Turbo (shadowState aircond), "boost");
     (Set_Breeze (shadowState aircond), "comfort");
     (Set_Ecoplus (shadowState aircond), "eco");
     (Set_Sleep (shadowState aircond), "sleep")] in
  match List.find (fun flag => negb (fst flag =? 0)) flags with
  | Some flag => snd flag
  | None => "none"
  end.

(** A call leaves one component of the controller as it found it. *)
Definition keeps {A X} (component : Controller -> X) (call : M Controller A) : Prop :=
  forall self, component (snd (call self)) = component self.

(** A serializer for the sample runs: the keys of the object. *)
Definition keys_only (d : JsonObject) : string :=
  String.concat "," (map fst d).

(** A world for the sample runs: the clock gains an hour per reading,
    the broker and the cloud accept every call, and the cloud reports the
    bedroom unit. *)
(** The counter of a bridge that saw the bedroom unit, running at 750 W,
    at the instant [two_hours] and then at instant 0, the clock having
    been set back in between: it holds -1.5 kWh for it. *)
Definition counter_after_clock_set_back : EnergyCounter :=
  snd (accumulate_energy_usage_for_aircond 0 bedroom
         (snd (accumulate_energy_usage_for_aircond two_hours bedroom Energy.init))).

(** The bedroom unit with turbo and eco both set. *)
Definition bedroom_turbo_eco : Aircond :=
  with_state bedroom
    {| Set_Breeze := 0; Set_Ecoplus := 1; Set_Fan := 2; Set_LEDOff := 0;
       Set_LRLvr := 3; Set_Mode := 2; Set_OnOff := 1; Set_Sleep := 0;
       Set_Temp := 26; Set_Turbo := 1; Set_UDLvr := 15; Sta_IDRoomTemp := 28;
       Sta_ODAirTemp := 27; Sta_ODPwrCon := 750;
       eventType := "connected"; key := "" |}.

Definition calm : Controller.Env :=
  {| clock := fun k => Z.of_nat k * 3600 * 1000000;
     broker := fun _ => Ret tt;
     cloud := fun _ => Ret [bedroom];
     json_dumps := keys_only;
     float_of_str := fun _ => None;
     make_discovery_messages := fun _ _ => [] |}.

(** The same world with the broker refusing every publish. *)
Definition broker_down : Controller.Env :=
  {| clock := clock calm;
     broker := fun _ => Raise (MqttError "not connected");
     cloud := cloud calm;
     json_dumps := json_dumps calm;
     float_of_str := float_of_str calm;
     make_discovery_messages := make_discovery_messages calm |}.

(** The controller once discovery has registered the bedroom unit. *)
Definition discovered : Controller :=
  set_airconds_by_unique_id {[ unique_id bedroom := bedroom ]}
    (set_mqtt_topics_by_unique_id
       {[ unique_id bedroom := from_aircond bedroom ]} Controller.init).

(** The bedroom unit running, with the mode code that the comment of
    [ShadowState.Set_Mode] in types.py gives for cooling. *)
Definition bedroom_mode_3 : Aircond :=
  with_state bedroom
    {| Set_Breeze := 0; Set_Ecoplus := 0; Set_Fan := 2; Set_LEDOff := 0;
       Set_LRLvr := 3; Set_Mode := 3; Set_OnOff := 1; Set_Sleep := 0;
       Set_Temp := 26; Set_Turbo := 0; Set_UDLvr := 15; Sta_IDRoomTemp := 28;
       Sta_ODAirTemp := 27; Sta_ODPwrCon := 750;
       eventType := "connected"; key := "" |}.

(** A unit that the cloud reports only after the start of the bridge. *)
Definition study : Aircond :=
  {| ACName := "study"; ThingName := "Daikin_0a1b2c3d4e5f";
     shadowState := bedroom_state |}.

(** A world in which the study unit appears at the second fetch. *)
Definition late_arrival : Controller.Env :=
  {| clock := clock calm;
     broker := broker calm;
     cloud := fun k => match k with
                       | O => Ret [bedroom]
                       | _ => Ret [bedroom; study]
                       end;
     json_dumps := json_dumps calm;
     float_of_str := float_of_str calm;
     make_discovery_messages := make_discovery_messages calm |}.

(** The controller once [get_airconds] has fetched [airconds]. *)
Definition fetched (airconds : list Aircond) (self : Controller) : Controller :=
  set_airconds_by_unique_id
    (foldl (fun m a => <[unique_id a := a]> m) ∅ airconds)
    (set_api_requests
       (api_requests self ++ [gethomepageinfowithsubscription]) self).

(** What a refresh does for one device. *)
Definition publish_both (env : Controller.Env) (aircond : Aircond)
  : M Controller unit :=
  bind (publish_aircond_state env aircond)
       (fun _ => publish_sensor_state env aircond).

(** The bedroom unit switched off and reporting fan code 0, the default
    of [ShadowState.Set_Fan]. *)
Definition bedroom_fan_0 : Aircond :=
  with_state bedroom
    {| Set_Breeze := 0; Set_Ecoplus := 0; Set_Fan := 0; Set_LEDOff := 0;
       Set_LRLvr := 3; Set_Mode := 2; Set_OnOff := 0; Set_Sleep := 0;
       Set_Temp := 26; Set_Turbo := 0; Set_UDLvr := 15; Sta_IDRoomTemp := 28;
       Sta_ODAirTemp := 27; Sta_ODPwrCon := 0;
       eventType := "connected"; key := "" |}.

(** The values of a [mode] command and the keys of a [set] command that
    the handlers know. *)
Definition known_modes : list string := ["off"; "cool"; "dry"; "fan_only"].

Definition known_set_keys : list string :=
  ["mode"; "fan_mode"; "preset_mode"; "temperature"; "swing_mode";
   "swing_horizontal_mode"; "status_led"].

(** An identity provider that grants every exchange a token valid for
    an hour, with a refresh token at the initial exchange only; the clock
    reads 0, 1 and 2 seconds, and 3400 seconds from the fourth reading
    on. *)
Definition provider : Auth.Env :=
  {| Auth.clock := fun k => if (k <? 3)%nat then Z.of_nat k * 1000000
                            else 3400 * 1000000;
     Auth.cognito := fun _ request =>
       Ret (Some {| Auth.AccessToken := "access";
                    Auth.IdToken :=
                      match request with
                      | Auth.USER_PASSWORD_AUTH _ _ => "identity"
                      | Auth.REFRESH_TOKEN_AUTH _ => "identity-renewed"
                      end;
                    Auth.RefreshToken :=
                      match request with
                      | Auth.USER_PASSWORD_AUTH _ _ => Some "refresh"
                      | Auth.REFRESH_TOKEN_AUTH _ => None
                      end;
                    Auth.ExpiresIn := 3600 |}) |}.

(** The client after a call, whether the call returned or raised. *)
Definition client_after {A} (call : M Auth.AuthClient A) (self : Auth.AuthClient)
  : Auth.AuthClient :=
  snd (call self).

(** A client that has read the clock [reads] times and holds [held]. *)
Definition holding (held : Auth.CognitoToken) (reads : nat) : Auth.AuthClient :=
  {| Auth.username := "user"; Auth.password := "secret";
     Auth.token := Some held; Auth.exchanges := [];
     Auth.clock_reads := reads |}.

(** A credential that expires one hour after instant 0. *)
Definition hour_token : Auth.CognitoToken :=
  {| Auth.access_token := "access"; Auth.id_token := "identity";
     Auth.refresh_token := "refresh"; Auth.expires_at := 3600 * 1000000 |}.

(** The client after [n] calls of [get_jwt_token] in a row. *)
Definition repeated_calls (env : Auth.Env) (n : nat) (self : Auth.AuthClient)
  : Auth.AuthClient :=
  Nat.iter n (client_after (Auth.get_jwt_token env)) self.

(** An identity provider whose credentials last one minute. *)
Definition hasty_provider : Auth.Env :=
  {| Auth.clock := fun k => Z.of_nat k * 1000000;
     Auth.cognito := fun _ request =>
       Ret (Some {| Auth.AccessToken := "access";
                    Auth.IdToken := "identity";
                    Auth.RefreshToken :=
                      match request with
                      | Auth.USER_PASSWORD_AUTH _ _ => Some "refresh"
                      | Auth.REFRESH_TOKEN_AUTH _ => None
                      end;
                    Auth.ExpiresIn := 60 |}) |}.

(** An identity provider that grants the initial exchange and answers
    every refresh without a result. *)
Definition revoking_provider : Auth.Env :=
  {| Auth.clock := Auth.clock provider;
     Auth.cognito := fun _ request =>
       match request with
       | Auth.USER_PASSWORD_AUTH _ _ =>
           Ret (Some {| Auth.AccessToken := "access";
                        Auth.IdToken := "identity";
                        Auth.RefreshToken := Some "refresh";
                        Auth.ExpiresIn := 3600 |})
       | Auth.REFRESH_TOKEN_AUTH _ => Ret None
       end |}.

(** How often a sequence of serialized payloads differs from the payload
    before it, [previous] being what comes before the first. *)
Fixpoint changes (previous : option string) (payloads : list string) : nat :=
  match payloads with
  | [] => O
  | s :: rest =>
      ((if bool_decide (previous = Some s) then 0 else 1)
       + changes (Some s) rest)%nat
  end.

(** The controller after a gated publish of each payload in turn on one
    topic. *)
Definition publish_each (env : Controller.Env) (topic : string) (qos : Z)
    (retain : bool) (payloads : list Payload) (self : Controller) : Controller :=
  foldl (fun self p => after (mqtt_publish env topic p qos retain true) self)
        self payloads.

(** A call keeps a property of the controller. *)
Definition maintains {A} (P : Controller -> Prop) (call : M Controller A) : Prop :=
  forall self, P self -> P (snd (call self)).

(** Every call of the broker so far was at QoS 1 and retained. *)
Definition retained_at_qos_1 (self : Controller) : Prop :=
  Forall (fun p => pub_qos p = 1 /\ pub_retain p = true) (published self).

(** The enable flags of the example response of types.py. *)
Definition bedroom_flags : Discovery.EnableFlags :=
  {| Discovery.Ena_Breeze := 1; Discovery.Ena_Ecoplus := 1;
     Discovery.Ena_LEDOff := 1; Discovery.Ena_LRStep := 1;
     Discovery.Ena_LRSwing := 1; Discovery.Ena_Silent := 1;
     Discovery.Ena_Turbo := 1; Discovery.Ena_UDStep := 1 |}.

(** The device that a fetched list gives for a unique id: the last one
    that carries it. *)
Definition latest (uid : UniqueID) (airconds : list Aircond) : option Aircond :=
  List.find (fun a => String.eqb (unique_id a) uid) (rev airconds).

(** A call sends no request to the cloud, or one. *)
Definition sends_at_most_one {A} (call : M Controller A) : Prop :=
  forall self,
    exists sent,
      api_requests (snd (call self)) = (api_requests self ++ sent)%list /\
      (length sent <= 1)%nat.

(** A world in which the cloud refuses every request. *)
Definition cloud_down : Controller.Env :=
  {| clock := clock calm;
     broker := broker calm;
     cloud := fun _ => Raise (ApiError "503");
     json_dumps := json_dumps calm;
     float_of_str := float_of_str calm;
     make_discovery_messages := make_discovery_messages calm |}.

(** [c in s] *)
Fixpoint has_char (c : ascii) (s : string) : bool :=
  match s with
  | EmptyString => false
  | String c' s' => Ascii.eqb c' c || has_char c s'
  end.

(** The broker call of a gated publish, unless the cache holds the
    payload for the topic. *)
Definition unless_cached (cache : gmap string string) (call : MqttPublish)
  : list MqttPublish :=
  if bool_decide (cache !! pub_topic call = Some (pub_payload call)) then []
  else [call].

(** A state publish: QoS 1, retained. *)
Definition state_publish (topic payload : string) : MqttPublish :=
  {| pub_topic := topic; pub_payload := payload; pub_qos := 1; pub_retain := true |}.

(** What discovery does for one device. *)
Definition discover (env : Controller.Env) (aircond : Aircond) : M Controller unit :=
  bind (get_mqtt_topics aircond)
       (fun topics =>
          for_each (make_discovery_messages env aircond topics)
            (fun msg =>
               mqtt_publish env (topic msg) (PayloadDict (payload msg)) 1 true false)).

(** The controller as [publish_sensor_state] leaves the energy counter
    and the clock for a device, before it publishes. *)
Definition metered (env : Controller.Env) (aircond : Aircond) (self : Controller)
  : Controller :=
  set_energy
    (snd (accumulate_energy_usage_for_aircond
            (clock env (clock_reads self)) aircond
            (reset_energy_if_off aircond (energy self))))
    (set_clock_reads (S (clock_reads self))
       (set_energy (reset_energy_if_off aircond (energy self)) self)).

(** The energy that [publish_sensor_state] reports for a device. *)
Definition metered_usage (env : Controller.Env) (aircond : Aircond)
    (self : Controller) : Q :=
  fst (accumulate_energy_usage_for_aircond
         (clock env (clock_reads self)) aircond
         (reset_energy_if_off aircond (energy self))).

(** The template that reads [key] from a JSON payload. *)
Definition template (key : string) : string := "{{ value_json." ++ key ++ " }}".

(** The template entries of the climate document and the keys of the
    status payload they read. *)
Definition control_templates : list (string * string) :=
  [("mode_state_template", "mode");
   ("temperature_state_template", "temperature");
   ("current_temperature_template", "current_temperature");
   ("fan_mode_state_template", "fan_mode");
   ("swing_mode_state_template", "swing_mode");
   ("swing_horizontal_mode_state_template", "swing_horizontal_mode");
   ("preset_mode_value_template", "preset_mode")].

(** A string of twelve characters, and the same in six groups of two
    with colons between. *)
Definition twelve (a b c d e f g h i j k l : ascii) : string :=
  String a (String b (String c (String d (String e (String f (String g
  (String h (String i (String j (String k (String l EmptyString))))))))))).

Definition grouped (a b c d e f g h i j k l : ascii) : string :=
  String a (String b (String ":" (String c (String d (String ":"
  (String e (String f (String ":" (String g (String h (String ":"
  (String i (String j (String ":" (String k (String l EmptyString)))))))))))))))).

(** * Properties *)

(** ** The energy accumulator *)

Section EnergyProperties.

Lemma actually_on_test aircond :
  is_on aircond && (Set_OnOff (shadowState aircond) =? 1)
    && (0 <? Sta_ODPwrCon (shadowState aircond)) = true
  <-> actually_on aircond.
Proof.
  unfold actually_on. rewrite !andb_true_iff, Z.eqb_eq, Z.ltb_lt. tauto.
Qed.

Lemma classic_on aircond : actually_on aircond \/ ~ actually_on aircond.
Proof.
  rewrite <- actually_on_test.
  destruct (is_on aircond && (Set_OnOff (shadowState aircond) =? 1)
            && (0 <? Sta_ODPwrCon (shadowState aircond)));
    [left; reflexivity | right; discriminate].
Qed.

Lemma accumulate_first now aircond ec :
  energy_accumulated_at_by_unique_id ec !! unique_id aircond = None ->
  accumulate_energy_usage_for_aircond now aircond ec =
    (0%Q, {| energy_by_unique_id := energy_by_unique_id ec;
             energy_accumulated_at_by_unique_id :=
               <[unique_id aircond := now]>
                 (energy_accumulated_at_by_unique_id ec) |}).
Proof.
  intros Hnone. unfold accumulate_energy_usage_for_aircond.
  rewrite Hnone. reflexivity.
Qed.

Lemma accumulate_baseline now aircond ec :
  energy_accumulated_at_by_unique_id
    (snd (accumulate_energy_usage_for_aircond now aircond ec))
    !! unique_id aircond = Some now.
Proof.
  unfold accumulate_energy_usage_for_aircond.
  destruct (energy_accumulated_at_by_unique_id ec !! unique_id aircond);
    cbn; apply lookup_insert_eq.
Qed.

Lemma accumulate_on now aircond ec since :
  energy_accumulated_at_by_unique_id ec !! unique_id aircond = Some since ->
  actually_on aircond ->
  let r := accumulate_energy_usage_for_aircond now aircond ec in
  (fst r - get_energy_usage (unique_id aircond) ec ==
     inject_Z (Sta_ODPwrCon (shadowState aircond)) / 1000
     * elapsed_hours since now)%Q /\
  energy_by_unique_id (snd r) !! unique_id aircond = Some (fst r).
Proof.
  intros Hsince Hon. apply actually_on_test in Hon.
  unfold accumulate_energy_usage_for_aircond. rewrite Hsince. cbn zeta.
  rewrite Hon. cbn [fst snd energy_by_unique_id].
  rewrite lookup_insert_eq. split; [|reflexivity].
  unfold get_energy_usage, elapsed_hours, total_seconds.
  rewrite inject_Z_mult. field.
Qed.

Lemma accumulate_not_on now aircond ec since :
  energy_accumulated_at_by_unique_id ec !! unique_id aircond = Some since ->
  ~ actually_on aircond ->
  let r := accumulate_energy_usage_for_aircond now aircond ec in
  (fst r - get_energy_usage (unique_id aircond) ec == 0)%Q /\
  energy_by_unique_id (snd r) !! unique_id aircond = Some (fst r).
Proof.
  intros Hsince Hoff. rewrite <- actually_on_test in Hoff.
  apply not_true_is_false in Hoff.
  unfold accumulate_energy_usage_for_aircond. rewrite Hsince. cbn zeta.
  rewrite Hoff. cbn [fst snd energy_by_unique_id].
  rewrite lookup_insert_eq. split; [|reflexivity].
  unfold get_energy_usage. ring.
Qed.

Lemma Qgtb_false x y : Qgtb x y = false -> (x <= y)%Q.
Proof.
  unfold Qgtb. intros H. apply negb_false_iff in H.
  now apply Qle_bool_iff.
Qed.

Lemma reset_energy_if_off_baseline aircond ec :
  energy_accumulated_at_by_unique_id (reset_energy_if_off aircond ec) =
  energy_accumulated_at_by_unique_id ec.
Proof.
  unfold reset_energy_if_off.
  destruct (negb (is_on aircond) && (Set_OnOff (shadowState aircond) =? 0));
    [|reflexivity].
  destruct (Qgtb _ _); reflexivity.
Qed.

Lemma reset_energy_if_off_zero aircond ec :
  Set_OnOff (shadowState aircond) = 0 ->
  (0 <= get_energy_usage (unique_id aircond) ec)%Q ->
  (get_energy_usage (unique_id aircond) (reset_energy_if_off aircond ec) == 0)%Q.
Proof.
  intros Hoff Hnonneg. unfold reset_energy_if_off, is_on. rewrite Hoff. cbn.
  fold (get_energy_usage (unique_id aircond) ec).
  destruct (Qgtb (get_energy_usage (unique_id aircond) ec) 0) eqn:Hgt.
  - unfold get_energy_usage. cbn. rewrite lookup_insert_eq. reflexivity.
  - apply Qgtb_false in Hgt. now apply Qle_antisym.
Qed.

Lemma off_not_actually_on aircond :
  Set_OnOff (shadowState aircond) = 0 -> ~ actually_on aircond.
Proof. intros Hoff [Hon _]. rewrite Hoff in Hon. discriminate. Qed.

Lemma get_energy_usage_accumulate_other now aircond ec uid :
  uid <> unique_id aircond ->
  get_energy_usage uid (snd (accumulate_energy_usage_for_aircond now aircond ec))
  = get_energy_usage uid ec.
Proof.
  intros Hne. unfold accumulate_energy_usage_for_aircond, get_energy_usage.
  destruct (energy_accumulated_at_by_unique_id ec !! unique_id aircond);
    cbn; [|reflexivity].
  now rewrite lookup_insert_ne.
Qed.

Lemma elapsed_hours_nonneg since now :
  since <= now -> (0 <= elapsed_hours since now)%Q.
Proof.
  intros Hle. unfold elapsed_hours. apply Qle_shift_div_l; [reflexivity|].
  rewrite Qmult_0_l. rewrite <- (Zle_Qle 0). lia.
Qed.

Lemma accumulate_nonneg now aircond ec :
  energy_nonneg ec ->
  (forall since,
      energy_accumulated_at_by_unique_id ec !! unique_id aircond = Some since ->
      since <= now) ->
  energy_nonneg (snd (accumulate_energy_usage_for_aircond now aircond ec)).
Proof.
  intros Hnonneg Hclock uid.
  destruct (decide (uid = unique_id aircond)) as [->|Hne];
    [|rewrite get_energy_usage_accumulate_other by assumption; apply Hnonneg].
  destruct (energy_accumulated_at_by_unique_id ec !! unique_id aircond)
    as [since|] eqn:Hsince.
  - assert (Hstored :
      get_energy_usage (unique_id aircond)
        (snd (accumulate_energy_usage_for_aircond now aircond ec))
      = fst (accumulate_energy_usage_for_aircond now aircond ec)).
    { unfold get_energy_usage.
      destruct (classic_on aircond) as [Hon|Hoff].
      - now rewrite (proj2 (accumulate_on now aircond ec since Hsince Hon)).
      - now rewrite (proj2 (accumulate_not_on now aircond ec since Hsince Hoff)). }
    rewrite Hstored.
    destruct (classic_on aircond) as [Hon|Hoff].
    + pose proof (proj1 (accumulate_on now aircond ec since Hsince Hon)) as Hinc.
      cbn zeta in Hinc.
      assert (0 <= inject_Z (Sta_ODPwrCon (shadowState aircond)) / 1000
                   * elapsed_hours since now)%Q as Hpos.
      { apply Qmult_le_0_compat; [|apply elapsed_hours_nonneg; auto].
        apply Qle_shift_div_l; [reflexivity|]. rewrite Qmult_0_l.
        rewrite <- (Zle_Qle 0). destruct Hon as (_ & _ & Hp). lia. }
      specialize (Hnonneg (unique_id aircond)).
      rewrite <- Hinc in Hpos.
      apply Qle_trans with (get_energy_usage (unique_id aircond) ec); [assumption|].
      apply (Qplus_le_l _ _ (- get_energy_usage (unique_id aircond) ec)).
      rewrite Qplus_opp_r. exact Hpos.
    + pose proof (proj1 (accumulate_not_on now aircond ec since Hsince Hoff)) as Hinc.
      cbn zeta in Hinc. specialize (Hnonneg (unique_id aircond)).
      apply Qle_trans with (get_energy_usage (unique_id aircond) ec); [assumption|].
      apply (Qplus_le_l _ _ (- get_energy_usage (unique_id aircond) ec)).
      rewrite Qplus_opp_r. unfold Qminus in Hinc. rewrite Hinc. apply Qle_refl.
  - rewrite (accumulate_first now aircond ec Hsince). cbn.
    apply (Hnonneg (unique_id aircond)).
Qed.

End EnergyProperties.

Section EnergyClaims.

Lemma reset_energy_if_off_other aircond ec uid :
  uid <> unique_id aircond ->
  get_energy_usage uid (reset_energy_if_off aircond ec) = get_energy_usage uid ec.
Proof.
  intros Hne. unfold reset_energy_if_off.
  destruct (negb (is_on aircond) && (Set_OnOff (shadowState aircond) =? 0));
    [|reflexivity].
  destruct (Qgtb _ _); [|reflexivity].
  unfold get_energy_usage. cbn. now rewrite lookup_insert_ne.
Qed.

Lemma reset_energy_if_off_nonneg aircond ec :
  energy_nonneg ec -> energy_nonneg (reset_energy_if_off aircond ec).
Proof.
  intros Hnonneg uid.
  destruct (decide (uid = unique_id aircond)) as [->|Hne];
    [|rewrite reset_energy_if_off_other by assumption; apply Hnonneg].
  unfold reset_energy_if_off.
  destruct (negb (is_on aircond) && (Set_OnOff (shadowState aircond) =? 0));
    [|apply Hnonneg].
  destruct (Qgtb _ _); [|apply Hnonneg].
  unfold get_energy_usage. cbn. rewrite lookup_insert_eq. apply Qle_refl.
Qed.

(** Under a clock that never runs backwards no total is ever negative. *)
Lemma reachable_energy_nonneg ec : reachable ec -> energy_nonneg ec.
Proof.
  induction 1 as [|now aircond ec _ IH Hclock|aircond ec _ IH].
  - intros uid. unfold get_energy_usage. cbn. rewrite lookup_empty. apply Qle_refl.
  - now apply accumulate_nonneg.
  - now apply reset_energy_if_off_nonneg.
Qed.

(** Over any sequence of accumulations at constant power the total grows
    by the power times the time from the baseline to the last instant. *)
Lemma accumulate_at_each_constant_power times last aircond ec since :
  energy_accumulated_at_by_unique_id ec !! unique_id aircond = Some since ->
  actually_on aircond ->
  (get_energy_usage (unique_id aircond)
     (accumulate_at_each (times ++ [last]) aircond ec)
   - get_energy_usage (unique_id aircond) ec ==
   inject_Z (Sta_ODPwrCon (shadowState aircond)) / 1000
   * elapsed_hours since last)%Q.
Proof.
  intros Hsince Hon. revert ec since Hsince.
  induction times as [|now times IH]; intros ec since Hsince.
  - cbn. destruct (accumulate_on last aircond ec since Hsince Hon) as [Hinc Hst].
    unfold get_energy_usage at 1. rewrite Hst. exact Hinc.
  - cbn [app accumulate_at_each foldl].
    destruct (accumulate_on now aircond ec since Hsince Hon) as [Hinc Hst].
    pose proof (IH _ now (accumulate_baseline now aircond ec)) as Hrest.
    unfold accumulate_at_each in Hrest.
    set (total := get_energy_usage _ (foldl _ _ _)) in *.
    assert (Hmid :
      get_energy_usage (unique_id aircond)
        (snd (accumulate_energy_usage_for_aircond now aircond ec))
      = fst (accumulate_energy_usage_for_aircond now aircond ec)).
    { unfold get_energy_usage. now rewrite Hst. }
    rewrite Hmid in Hrest. cbn zeta in Hinc.
    assert (Hsplit :
      (total - get_energy_usage (unique_id aircond) ec ==
       (total - fst (accumulate_energy_usage_for_aircond now aircond ec))
       + (fst (accumulate_energy_usage_for_aircond now aircond ec)
          - get_energy_usage (unique_id aircond) ec))%Q) by ring.
    rewrite Hsplit, Hrest, Hinc. unfold elapsed_hours.
    replace (last - since) with ((last - now) + (now - since)) by lia.
    rewrite inject_Z_plus. field. discriminate.
Qed.

(** C5.  The very first accumulation for a device returns exactly 0 and
    records the instant as its baseline, leaving the totals alone.  After
    that, an accumulation for a device that is actually on (power flag
    set, reported on, positive power reading P) raises the total by
    P/1000 times the hours since the baseline; one for a device that is
    not actually on raises it by zero; and either way the total returned
    is the total stored and the baseline moves to the instant of the
    call. *)
Theorem accumulate_energy_usage_for_aircond_increment now aircond ec :
  let r := accumulate_energy_usage_for_aircond now aircond ec in
  (energy_accumulated_at_by_unique_id ec !! unique_id aircond = None ->
   fst r = 0%Q /\
   energy_by_unique_id (snd r) = energy_by_unique_id ec) /\
  (forall since,
      energy_accumulated_at_by_unique_id ec !! unique_id aircond = Some since ->
      actually_on aircond ->
      (fst r - get_energy_usage (unique_id aircond) ec ==
         inject_Z (Sta_ODPwrCon (shadowState aircond)) / 1000
         * elapsed_hours since now)%Q /\
      energy_by_unique_id (snd r) !! unique_id aircond = Some (fst r)) /\
  (forall since,
      energy_accumulated_at_by_unique_id ec !! unique_id aircond = Some since ->
      ~ actually_on aircond ->
      (fst r - get_energy_usage (unique_id aircond) ec == 0)%Q /\
      energy_by_unique_id (snd r) !! unique_id aircond = Some (fst r)) /\
  energy_accumulated_at_by_unique_id (snd r) !! unique_id aircond = Some now.
Proof.
  cbn zeta. split; [|split; [|split]].
  - intros Hnone. now rewrite accumulate_first.
  - intros since Hsince Hon. exact (accumulate_on now aircond ec since Hsince Hon).
  - intros since Hsince Hoff.
    exact (accumulate_not_on now aircond ec since Hsince Hoff).
  - apply accumulate_baseline.
Qed.

(** After a reset for a device whose power flag is 0 the total is zero
    and stays zero over the next accumulation, when the total held before
    was not negative. *)
Lemma reset_then_accumulate_nonneg now aircond ec :
  Set_OnOff (shadowState aircond) = 0 ->
  (0 <= get_energy_usage (unique_id aircond) ec)%Q ->
  let ec' := reset_energy_if_off aircond ec in
  let r := accumulate_energy_usage_for_aircond now aircond ec' in
  (get_energy_usage (unique_id aircond) ec' == 0)%Q /\
  (fst r == 0)%Q /\
  (get_energy_usage (unique_id aircond) (snd r) == 0)%Q.
Proof.
  intros Hoff Hnonneg. cbn zeta.
  pose proof (reset_energy_if_off_zero aircond ec Hoff Hnonneg) as Hzero.
  split; [exact Hzero|].
  destruct (energy_accumulated_at_by_unique_id (reset_energy_if_off aircond ec)
              !! unique_id aircond) as [since|] eqn:Hsince.
  - destruct (accumulate_not_on now aircond _ since Hsince
                (off_not_actually_on aircond Hoff)) as [Hinc Hst].
    cbn zeta in Hinc.
    assert (Hret :
      (fst (accumulate_energy_usage_for_aircond now aircond
              (reset_energy_if_off aircond ec)) == 0)%Q).
    { rewrite <- Hzero. apply Qplus_inj_r with
        (z := (- get_energy_usage (unique_id aircond)
                   (reset_energy_if_off aircond ec))%Q).
      rewrite Qplus_opp_r. exact Hinc. }
    split; [exact Hret|]. unfold get_energy_usage at 1. rewrite Hst. exact Hret.
  - rewrite (accumulate_first now aircond _ Hsince). cbn [fst snd].
    split; [reflexivity|]. exact Hzero.
Qed.

Lemma accumulate_energy_usage_for_aircond_increment_witness :
  fst (accumulate_energy_usage_for_aircond 0 bedroom Energy.init) = 0%Q /\
  (fst (accumulate_energy_usage_for_aircond two_hours bedroom counter_in_use)
   - get_energy_usage (unique_id bedroom) counter_in_use ==
   inject_Z 750 / 1000 * elapsed_hours 0 two_hours)%Q /\
  (fst (accumulate_energy_usage_for_aircond two_hours bedroom_off counter_in_use)
   - get_energy_usage (unique_id bedroom_off) counter_in_use == 0)%Q.
Proof.
  split; [|split].
  - apply (accumulate_energy_usage_for_aircond_increment 0 bedroom Energy.init).
    reflexivity.
  - apply (proj1 (proj2 (accumulate_energy_usage_for_aircond_increment
                           two_hours bedroom counter_in_use)) 0).
    + vm_compute. reflexivity.
    + repeat split.
  - apply (proj1 (proj2 (proj2 (accumulate_energy_usage_for_aircond_increment
                                  two_hours bedroom_off counter_in_use))) 0).
    + vm_compute. reflexivity.
    + intros [Hon _]. discriminate Hon.
Defined.

(** For a device whose power flag is 0 the reset and the accumulation
    that follows give zero in every state that accumulations and resets
    reach from the empty counter under a clock that does not run
    backwards. *)
Lemma reset_then_accumulate_reachable now aircond ec :
  reachable ec ->
  Set_OnOff (shadowState aircond) = 0 ->
  let ec' := reset_energy_if_off aircond ec in
  let r := accumulate_energy_usage_for_aircond now aircond ec' in
  (get_energy_usage (unique_id aircond) ec' == 0)%Q /\
  (fst r == 0)%Q /\
  (get_energy_usage (unique_id aircond) (snd r) == 0)%Q.
Proof.
  intros Hreach Hoff.
  apply reset_then_accumulate_nonneg; [exact Hoff|].
  now apply reachable_energy_nonneg.
Qed.

Lemma counter_after_two_hours_reachable : reachable counter_after_two_hours.
Proof.
  unfold counter_after_two_hours.
  apply reachable_accumulate; [apply reachable_accumulate|].
  - apply reachable_init.
  - intros since Hsince. vm_compute in Hsince. discriminate Hsince.
  - intros since Hsince. vm_compute in Hsince. injection Hsince as <-.
    vm_compute. discriminate.
Defined.

(** C6.  For a device whose power flag is 0, by the total that the
    counter holds for it.  When the total is not negative,
    [reset_energy_if_off] leaves it at zero, and the accumulation that
    follows returns zero and stores zero.  When the total is negative (as
    an accumulation leaves it once the clock has gone back while the
    device was on), the test [old_energy > 0] fails: the reset leaves the
    counter as it is, and the accumulation that follows returns and
    stores that negative total, not zero. *)
Theorem reset_energy_if_off_then_accumulate now aircond ec :
  Set_OnOff (shadowState aircond) = 0 ->
  let total := get_energy_usage (unique_id aircond) ec in
  let ec' := reset_energy_if_off aircond ec in
  let r := accumulate_energy_usage_for_aircond now aircond ec' in
  ((0 <= total)%Q ->
   (get_energy_usage (unique_id aircond) ec' == 0)%Q /\
   (fst r == 0)%Q /\
   (get_energy_usage (unique_id aircond) (snd r) == 0)%Q) /\
  ((total < 0)%Q ->
   forall since,
     energy_accumulated_at_by_unique_id ec !! unique_id aircond = Some since ->
     ec' = ec /\
     (fst r == total)%Q /\
     (get_energy_usage (unique_id aircond) (snd r) == total)%Q /\
     ~ (fst r == 0)%Q).
Proof.
  intros Hoff. cbn zeta. split.
  - intros Hnonneg. now apply reset_then_accumulate_nonneg.
  - intros Hneg since Hsince.
    assert (Hsame : reset_energy_if_off aircond ec = ec).
    { unfold reset_energy_if_off, is_on. rewrite Hoff. cbn.
      fold (get_energy_usage (unique_id aircond) ec).
      destruct (Qgtb (get_energy_usage (unique_id aircond) ec) 0) eqn:Hgt;
        [|reflexivity].
      unfold Qgtb in Hgt. apply negb_true_iff in Hgt.
      assert (Hle : Qle_bool (get_energy_usage (unique_id aircond) ec) 0 = true)
        by (apply Qle_bool_iff, Qlt_le_weak, Hneg).
      rewrite Hle in Hgt. discriminate Hgt. }
    rewrite Hsame. split; [reflexivity|].
    destruct (accumulate_not_on now aircond ec since Hsince
                (off_not_actually_on aircond Hoff)) as [Hinc Hst].
    cbn zeta in Hinc.
    assert (Hret :
      (fst (accumulate_energy_usage_for_aircond now aircond ec)
       == get_energy_usage (unique_id aircond) ec)%Q).
    { apply Qplus_inj_r with
        (z := (- get_energy_usage (unique_id aircond) ec)%Q).
      rewrite Qplus_opp_r. exact Hinc. }
    split; [exact Hret|]. split.
    + unfold get_energy_usage at 1. rewrite Hst. exact Hret.
    + intros Hzero. rewrite Hret in Hzero. rewrite Hzero in Hneg.
      now apply (Qlt_irrefl 0).
Qed.

(** The counter after a clock set back, the bedroom unit now off: the
    reset changes nothing, and the accumulation four hours on returns the
    -1.5 kWh that the counter held. *)
Lemma reset_energy_if_off_then_accumulate_witness :
  let total := get_energy_usage (unique_id bedroom_off) counter_after_clock_set_back in
  let ec' := reset_energy_if_off bedroom_off counter_after_clock_set_back in
  let r := accumulate_energy_usage_for_aircond (2 * two_hours) bedroom_off ec' in
  (total == - (3 # 2))%Q /\
  ec' = counter_after_clock_set_back /\
  (fst r == total)%Q /\
  (get_energy_usage (unique_id bedroom_off) (snd r) == total)%Q /\
  ~ (fst r == 0)%Q.
Proof.
  split; [vm_compute; reflexivity|].
  apply (proj2 (reset_energy_if_off_then_accumulate (2 * two_hours) bedroom_off
                  counter_after_clock_set_back eq_refl)) with (since := 0).
  - vm_compute. reflexivity.
  - vm_compute. reflexivity.
Defined.

(** The same counter where the total is not negative: after two hours at
    750 W, the unit now off, the reset and the accumulation give zero. *)
Example reset_energy_if_off_after_two_hours :
  let ec' := reset_energy_if_off bedroom_off counter_after_two_hours in
  let r := accumulate_energy_usage_for_aircond (2 * two_hours) bedroom_off ec' in
  (get_energy_usage (unique_id bedroom_off) ec' == 0)%Q /\
  (fst r == 0)%Q /\
  (get_energy_usage (unique_id bedroom_off) (snd r) == 0)%Q.
Proof.
  apply (reset_then_accumulate_reachable (2 * two_hours) bedroom_off
           counter_after_two_hours).
  - exact counter_after_two_hours_reachable.
  - reflexivity.
Qed.

(** The same on values: 2.5 kWh held, the unit off; after the reset the
    stored total is 0 and the accumulation two hours later returns 0. *)
Example reset_energy_if_off_example :
  get_energy_usage (unique_id bedroom_off) counter_in_use = (5 # 2)%Q /\
  get_energy_usage (unique_id bedroom_off)
    (reset_energy_if_off bedroom_off counter_in_use) = 0%Q /\
  Qred (fst (accumulate_energy_usage_for_aircond two_hours bedroom_off
               (reset_energy_if_off bedroom_off counter_in_use))) = 0%Q /\
  Qred (fst (accumulate_energy_usage_for_aircond two_hours bedroom
               counter_in_use)) = 4%Q.
Proof. vm_compute. repeat split. Qed.

Example counter_after_two_hours_total :
  Qred (get_energy_usage (unique_id bedroom) counter_after_two_hours) = (3 # 2)%Q.
Proof. vm_compute. reflexivity. Qed.

End EnergyClaims.

(** ** The change-gated publisher *)

Section PublisherProperties.

Variable env : Controller.Env.

Lemma mqtt_publish_ungated topic payload qos retain :
  mqtt_publish env topic payload qos retain false =
  mqtt_client_publish env topic (payload_str env payload) qos retain.
Proof. reflexivity. Qed.

Lemma mqtt_publish_unchanged topic payload qos retain self :
  payload_cache_by_topic self !! topic = Some (payload_str env payload) ->
  mqtt_publish env topic payload qos retain true self = (Ret tt, self).
Proof.
  intros Hhit. unfold mqtt_publish, bind, gets. cbn.
  rewrite bool_decide_eq_true_2 by exact Hhit. reflexivity.
Qed.

Lemma mqtt_publish_changed topic payload qos retain self :
  payload_cache_by_topic self !! topic <> Some (payload_str env payload) ->
  mqtt_publish env topic payload qos retain true self =
  mqtt_client_publish env topic (payload_str env payload) qos retain
    (set_payload_cache_by_topic
       (<[topic := payload_str env payload]> (payload_cache_by_topic self)) self).
Proof.
  intros Hmiss. unfold mqtt_publish, bind, gets, modify. cbn.
  rewrite bool_decide_eq_false_2 by exact Hmiss. reflexivity.
Qed.

(** What a gated publish does to the cache and to the broker, by cases on
    the cache entry of the topic. *)
Lemma mqtt_publish_gated_after topic payload qos retain self :
  let s := payload_str env payload in
  let self' := after (mqtt_publish env topic payload qos retain true) self in
  payload_cache_by_topic self' = <[topic := s]> (payload_cache_by_topic self) /\
  published self' =
    (published self ++
      (if bool_decide (payload_cache_by_topic self !! topic = Some s) then []
       else [{| pub_topic := topic; pub_payload := s;
                pub_qos := qos; pub_retain := retain |}]))%list.
Proof.
  cbn zeta. unfold after. case_bool_decide as Hhit.
  - rewrite mqtt_publish_unchanged by exact Hhit. cbn.
    rewrite insert_id by exact Hhit. now rewrite app_nil_r.
  - rewrite mqtt_publish_changed by exact Hhit. cbn. split; reflexivity.
Qed.

Lemma mqtt_publish_keeps {X} (component : Controller -> X)
    topic payload qos retain only_if_changed :
  (forall m self, component (set_payload_cache_by_topic m self) = component self) ->
  (forall l self, component (set_published l self) = component self) ->
  keeps component (mqtt_publish env topic payload qos retain only_if_changed).
Proof.
  intros Hcache Hpub self. destruct only_if_changed.
  - destruct (decide (payload_cache_by_topic self !! topic
                      = Some (payload_str env payload))) as [Hhit|Hmiss].
    + now rewrite mqtt_publish_unchanged.
    + rewrite mqtt_publish_changed by exact Hmiss. cbn.
      now rewrite Hpub, Hcache.
  - rewrite mqtt_publish_ungated. cbn. apply Hpub.
Qed.

(** C7.  On one topic, with [only_if_changed] true and a payload that
    the cache does not hold for the topic: publishing it twice calls the
    broker exactly once, and publishing it and then a payload that
    serializes differently calls the broker exactly twice.  With
    [only_if_changed] false every call is the bare broker call: one
    transmission, the cache neither read nor written.  The cache is keyed
    by topic: a gated publish leaves the entries of the other topics as
    they were, so a suppressed publish on one topic does not keep a
    changed payload on another topic from being sent. *)
Theorem mqtt_publish_transmissions topic p1 p2 qos retain self :
  let s1 := payload_str env p1 in
  let s2 := payload_str env p2 in
  let sent topic s :=
    {| pub_topic := topic; pub_payload := s; pub_qos := qos; pub_retain := retain |} in
  let gated topic p := mqtt_publish env topic p qos retain true in
  (payload_cache_by_topic self !! topic <> Some s1 ->
   s2 = s1 ->
   published (after (gated topic p2) (after (gated topic p1) self)) =
   (published self ++ [sent topic s1])%list) /\
  (payload_cache_by_topic self !! topic <> Some s1 ->
   s2 <> s1 ->
   published (after (gated topic p2) (after (gated topic p1) self)) =
   (published self ++ [sent topic s1; sent topic s2])%list) /\
  (mqtt_publish env topic p1 qos retain false self =
     (broker env (length (published self)),
      set_published ((published self ++ [sent topic s1])%list) self)) /\
  (forall other,
      other <> topic ->
      payload_cache_by_topic (after (gated topic p1) self) !! other =
      payload_cache_by_topic self !! other) /\
  (forall other,
      other <> topic ->
      payload_cache_by_topic self !! topic = Some s1 ->
      payload_cache_by_topic self !! other <> Some s2 ->
      published (after (gated other p2) (after (gated topic p1) self)) =
      (published self ++ [sent other s2])%list).
Proof.
  cbn zeta.
  pose proof (mqtt_publish_gated_after topic p1 qos retain self) as [Hc1 Hp1].
  cbn zeta in Hc1, Hp1.
  split; [|split; [|split; [|split]]].
  - intros Hmiss Hsame.
    destruct (mqtt_publish_gated_after topic p2 qos retain
                (after (mqtt_publish env topic p1 qos retain true) self))
      as [_ Hp2].
    rewrite Hp2, Hp1, Hc1, lookup_insert_eq, Hsame.
    rewrite bool_decide_eq_false_2 by exact Hmiss.
    rewrite bool_decide_eq_true_2 by reflexivity.
    now rewrite app_nil_r.
  - intros Hmiss Hdiff.
    destruct (mqtt_publish_gated_after topic p2 qos retain
                (after (mqtt_publish env topic p1 qos retain true) self))
      as [_ Hp2].
    rewrite Hp2, Hp1, Hc1, lookup_insert_eq.
    rewrite bool_decide_eq_false_2 by exact Hmiss.
    rewrite bool_decide_eq_false_2 by congruence.
    now rewrite <- app_assoc.
  - reflexivity.
  - intros other Hne. rewrite Hc1. now apply lookup_insert_ne.
  - intros other Hne Hhit Hmiss.
    destruct (mqtt_publish_gated_after other p2 qos retain
                (after (mqtt_publish env topic p1 qos retain true) self))
      as [_ Hp2].
    rewrite Hp2, Hp1, Hc1, lookup_insert_ne by congruence.
    rewrite bool_decide_eq_true_2 by exact Hhit.
    rewrite bool_decide_eq_false_2 by exact Hmiss.
    now rewrite app_nil_r.
Qed.

(** C3, as the code has it.  With [only_if_changed] true and a payload
    that differs from the cache entry of the topic (or no entry), the
    cache is set to the new payload first and the broker is called after
    that, once: whatever the broker call does, return or raise, the cache
    holds the new payload when [mqtt_publish] is left. *)
Theorem mqtt_publish_caches_before_transmitting topic payload qos retain self :
  payload_cache_by_topic self !! topic <> Some (payload_str env payload) ->
  let s := payload_str env payload in
  let cached := set_payload_cache_by_topic
                  (<[topic := s]> (payload_cache_by_topic self)) self in
  mqtt_publish env topic payload qos retain true self =
    mqtt_client_publish env topic s qos retain cached /\
  fst (mqtt_publish env topic payload qos retain true self) =
    broker env (length (published self)) /\
  payload_cache_by_topic (after (mqtt_publish env topic payload qos retain true) self)
    !! topic = Some s.
Proof.
  intros Hmiss. cbn zeta. unfold after.
  rewrite mqtt_publish_changed by exact Hmiss. cbn.
  rewrite lookup_insert_eq. repeat split.
Qed.

End PublisherProperties.

Lemma mqtt_publish_transmissions_witness :
  let gated topic p := mqtt_publish calm topic (PayloadStr p) 1 true true in
  let status := "godaikin/ac1/status" in
  let sensor := "godaikin/ac1/sensor" in
  let published_once := after (gated status "a") Controller.init in
  length (published (after (gated status "a") published_once)) = 1%nat /\
  length (published (after (gated status "b") published_once)) = 2%nat /\
  payload_cache_by_topic published_once !! sensor = None /\
  published (after (gated sensor "b") (after (gated status "a") published_once)) =
    (published published_once
     ++ [{| pub_topic := sensor; pub_payload := "b";
            pub_qos := 1; pub_retain := true |}])%list.
Proof.
  cbn zeta.
  pose proof (mqtt_publish_transmissions calm "godaikin/ac1/status"
                (PayloadStr "a") (PayloadStr "a") 1 true Controller.init) as Hsame.
  pose proof (mqtt_publish_transmissions calm "godaikin/ac1/status"
                (PayloadStr "a") (PayloadStr "b") 1 true Controller.init) as Hdiff.
  pose proof (mqtt_publish_transmissions calm "godaikin/ac1/status"
                (PayloadStr "a") (PayloadStr "b") 1 true
                (after (mqtt_publish calm "godaikin/ac1/status" (PayloadStr "a")
                          1 true true) Controller.init)) as Hother.
  cbn zeta in Hsame, Hdiff, Hother. split; [|split; [|split]].
  - rewrite (proj1 Hsame); [reflexivity | vm_compute; discriminate | reflexivity].
  - rewrite (proj1 (proj2 Hdiff));
      [reflexivity | vm_compute; discriminate | discriminate].
  - rewrite (proj1 (proj2 (proj2 (proj2 Hdiff))) "godaikin/ac1/sensor");
      [reflexivity | discriminate].
  - apply (proj2 (proj2 (proj2 (proj2 Hother))) "godaikin/ac1/sensor");
      [discriminate | vm_compute; reflexivity | vm_compute; discriminate].
Defined.

(** C3, as the specification states it, fails: the broker refuses the
    publish, and the cache entry of the topic has changed all the same. *)
Lemma mqtt_publish_failed_transmission_changes_cache :
  let r := mqtt_publish broker_down "godaikin/ac1/status" (PayloadStr "cool")
             1 true true Controller.init in
  fst r = Raise (MqttError "not connected") /\
  payload_cache_by_topic Controller.init !! "godaikin/ac1/status" = None /\
  payload_cache_by_topic (snd r) !! "godaikin/ac1/status" = Some "cool" /\
  ~ (payload_cache_by_topic (snd r) !! "godaikin/ac1/status" =
     payload_cache_by_topic Controller.init !! "godaikin/ac1/status").
Proof. vm_compute. repeat split. discriminate. Qed.

Lemma mqtt_publish_caches_before_transmitting_witness :
  payload_cache_by_topic
    (after (mqtt_publish broker_down "godaikin/ac1/status" (PayloadStr "cool")
              1 true true) Controller.init)
    !! "godaikin/ac1/status" = Some "cool".
Proof.
  apply (mqtt_publish_caches_before_transmitting broker_down
           "godaikin/ac1/status" (PayloadStr "cool") 1 true Controller.init).
  vm_compute. discriminate.
Defined.

(** ** Calls that leave a component of the controller alone *)

Section Keeps.

Context {X : Type} (component : Controller -> X).

Lemma keeps_ret {A} (a : A) : keeps component (ret a).
Proof. intros self. reflexivity. Qed.

Lemma keeps_raise {A} e : keeps component (raise (A := A) e).
Proof. intros self. reflexivity. Qed.

Lemma keeps_lift {A} (o : Outcome A) : keeps component (lift o).
Proof. intros self. reflexivity. Qed.

Lemma keeps_gets {A} (f : Controller -> A) : keeps component (gets f).
Proof. intros self. reflexivity. Qed.

Lemma keeps_modify (f : Controller -> Controller) :
  (forall self, component (f self) = component self) ->
  keeps component (modify f).
Proof. intros Hf self. apply Hf. Qed.

Lemma keeps_bind {A B} (c : M Controller A) (k : A -> M Controller B) :
  keeps component c -> (forall a, keeps component (k a)) ->
  keeps component (bind c k).
Proof.
  intros Hc Hk self. unfold bind. specialize (Hc self).
  destruct (c self) as [[a|e] self']; cbn in *.
  - now rewrite Hk.
  - exact Hc.
Qed.

Lemma keeps_for_each {A} (xs : list A) (body : A -> M Controller unit) :
  (forall x, keeps component (body x)) -> keeps component (for_each xs body).
Proof.
  intros Hbody. induction xs as [|x xs IH]; cbn [for_each].
  - apply keeps_ret.
  - apply keeps_bind; [apply Hbody | intros _; exact IH].
Qed.

End Keeps.

(** ** The derived payloads *)

Section PayloadProperties.

Variable env : Controller.Env.

Lemma truthy_false n : truthy n = false <-> n = 0.
Proof.
  unfold truthy. rewrite negb_false_iff. apply Z.eqb_eq.
Qed.

Lemma truthy_true n : truthy n = true <-> n <> 0.
Proof.
  unfold truthy. rewrite negb_true_iff. apply Z.eqb_neq.
Qed.

Lemma preset_mode_by_priority aircond :
  preset_mode aircond = preset_by_priority aircond.
Proof.
  unfold preset_mode, preset_by_priority, truthy. cbn.
  repeat (destruct (_ =? 0); cbn; try reflexivity).
Qed.

Lemma aircond_state_payload_preset aircond payload :
  aircond_state_payload aircond = Ret payload ->
  field "preset_mode" payload = Some (JStr (preset_mode aircond)).
Proof.
  unfold aircond_state_payload. intros Hpayload.
  destruct (if negb (is_on aircond) then _ else _); [|discriminate].
  destruct (FanSpeed.of_value _); [|discriminate].
  destruct (AircondSwing.of_value _); [|discriminate].
  destruct (AircondSwing.of_value _); [|discriminate].
  injection Hpayload as <-. reflexivity.
Qed.

(** A status payload is built for every device whose codes the
    enumerations know: the mode code when the power flag is 1, the fan
    code and the two swing codes always. *)
Lemma aircond_state_payload_built aircond :
  let state := shadowState aircond in
  (Set_OnOff state <> 1 \/ exists m, AircondMode.value m = Set_Mode state) ->
  (exists f, FanSpeed.value f = Set_Fan state) ->
  (exists s, AircondSwing.value s = Set_UDLvr state) ->
  (exists s, AircondSwing.value s = Set_LRLvr state) ->
  exists payload, aircond_state_payload aircond = Ret payload.
Proof.
  cbn zeta. intros Hmode [f Hfan] [vertical Hvertical] [horizontal Hhorizontal].
  unfold aircond_state_payload, is_on.
  rewrite <- Hfan, <- Hvertical, <- Hhorizontal.
  assert (Hf : FanSpeed.of_value (FanSpeed.value f) = Ret f) by now destruct f.
  assert (Hv : AircondSwing.of_value (AircondSwing.value vertical) = Ret vertical)
    by now destruct vertical.
  assert (Hh : AircondSwing.of_value (AircondSwing.value horizontal) = Ret horizontal)
    by now destruct horizontal.
  rewrite Hf, Hv, Hh.
  destruct (Set_OnOff (shadowState aircond) =? 1) eqn:Hon; cbn [negb].
  - apply Z.eqb_eq in Hon. destruct Hmode as [Hoff | [m Hm]]; [now destruct Hoff|].
    rewrite <- Hm.
    assert (Hmember : AircondMode.of_value (AircondMode.value m) = Ret m)
      by now destruct m.
    rewrite Hmember. eexists. reflexivity.
  - eexists. reflexivity.
Qed.

(** What [publish_aircond_state] sends first, for a device with topics
    in the map and a status payload that the cache does not hold: the
    status payload, on the status topic. *)
Lemma publish_aircond_state_sends_status aircond payload self topics :
  aircond_state_payload aircond = Ret payload ->
  mqtt_topics_by_unique_id self !! unique_id aircond = Some topics ->
  payload_cache_by_topic self !! status topics <> Some (json_dumps env payload) ->
  published (after (publish_aircond_state env aircond) self)
    !! length (published self)
  = Some {| pub_topic := status topics; pub_payload := json_dumps env payload;
            pub_qos := 1; pub_retain := true |}.
Proof.
  intros Hpayload Htopics Hmiss. unfold after, publish_aircond_state.
  unfold bind at 1. unfold topics_of, bind at 1, gets. cbn [fst snd].
  rewrite Htopics. unfold ret. unfold bind at 1. unfold lift. rewrite Hpayload.
  unfold bind.
  rewrite (mqtt_publish_changed env (status topics) (PayloadDict payload) 1 true
             self Hmiss).
  unfold mqtt_client_publish.
  cbn [payload_str published set_payload_cache_by_topic].
  destruct (broker env (length (published self))) as [[]|e]; cbv beta iota.
  - match goal with
    | |- context [mqtt_publish env ?t ?p 1 true true ?s] =>
        pose proof (proj2 (mqtt_publish_gated_after env t p 1 true s)) as Hnext;
        unfold after in Hnext;
        destruct (mqtt_publish env t p 1 true true s) as [outcome self']
    end.
    cbn [snd] in *. rewrite Hnext. cbn [published set_published
      set_payload_cache_by_topic].
    rewrite <- app_assoc. now apply list_lookup_middle.
  - cbn [snd published set_published]. now apply list_lookup_middle.
Qed.

(** When the enumerations do not know a code of the device, nothing is
    sent at all. *)
Lemma publish_aircond_state_sends_nothing aircond e self :
  aircond_state_payload aircond = Raise e ->
  published (after (publish_aircond_state env aircond) self) = published self.
Proof.
  intros Hraise. unfold after, publish_aircond_state.
  unfold bind at 1. unfold topics_of, bind at 1, gets. cbn [fst snd].
  destruct (mqtt_topics_by_unique_id self !! unique_id aircond) as [topics|];
    [|reflexivity].
  unfold ret. unfold bind at 1. unfold lift. now rewrite Hraise.
Qed.

(** C9.  The preset of the status payload is the one of the first flag
    that is set in the order turbo, comfort (breeze), eco, sleep, and
    "none" when no flag is set; with turbo and eco both set it is
    "boost".  The payload is built for every device whose mode, fan and
    swing codes the enumerations know, and [publish_aircond_state] then
    sends it on the status topic, unless the cache holds it already; for
    a device with a code that they do not know no payload is built and
    nothing is sent. *)
Theorem preset_mode_priority aircond :
  let flags := shadowState aircond in
  (forall payload,
      aircond_state_payload aircond = Ret payload ->
      field "preset_mode" payload = Some (JStr (preset_by_priority aircond))) /\
  ((Set_OnOff flags <> 1 \/ exists m, AircondMode.value m = Set_Mode flags) ->
   (exists f, FanSpeed.value f = Set_Fan flags) ->
   (exists s, AircondSwing.value s = Set_UDLvr flags) ->
   (exists s, AircondSwing.value s = Set_LRLvr flags) ->
   exists payload,
     aircond_state_payload aircond = Ret payload /\
     field "preset_mode" payload = Some (JStr (preset_by_priority aircond)) /\
     forall self topics,
       mqtt_topics_by_unique_id self !! unique_id aircond = Some topics ->
       payload_cache_by_topic self !! status topics
         <> Some (json_dumps env payload) ->
       published (after (publish_aircond_state env aircond) self)
         !! length (published self)
       = Some {| pub_topic := status topics;
                 pub_payload := json_dumps env payload;
                 pub_qos := 1; pub_retain := true |}) /\
  (forall e self,
      aircond_state_payload aircond = Raise e ->
      published (after (publish_aircond_state env aircond) self)
      = published self) /\
  preset_mode aircond = preset_by_priority aircond /\
  (Set_Turbo flags <> 0 -> preset_mode aircond = "boost") /\
  (Set_Turbo flags = 0 -> Set_Breeze flags <> 0 ->
   preset_mode aircond = "comfort") /\
  (Set_Turbo flags = 0 -> Set_Breeze flags = 0 -> Set_Ecoplus flags <> 0 ->
   preset_mode aircond = "eco") /\
  (Set_Turbo flags = 0 -> Set_Breeze flags = 0 -> Set_Ecoplus flags = 0 ->
   Set_Sleep flags <> 0 -> preset_mode aircond = "sleep") /\
  (Set_Turbo flags = 0 -> Set_Breeze flags = 0 -> Set_Ecoplus flags = 0 ->
   Set_Sleep flags = 0 -> preset_mode aircond = "none") /\
  (Set_Turbo flags = 1 -> Set_Ecoplus flags = 1 ->
   preset_mode aircond = "boost" /\ preset_mode aircond <> "eco").
Proof.
  cbn zeta.
  split; [|split; [|split]].
  - intros payload Hpayload. rewrite <- preset_mode_by_priority.
    now apply aircond_state_payload_preset.
  - intros Hmode Hfan Hvertical Hhorizontal.
    destruct (aircond_state_payload_built aircond Hmode Hfan Hvertical Hhorizontal)
      as [payload Hpayload].
    exists payload. split; [exact Hpayload|]. split.
    + rewrite <- preset_mode_by_priority.
      now apply aircond_state_payload_preset.
    + intros self topics Htopics Hmiss.
      now apply publish_aircond_state_sends_status.
  - intros e self Hraise. now apply (publish_aircond_state_sends_nothing aircond e).
  - unfold preset_mode.
    split; [|split; [|split; [|split; [|split; [|split]]]]].
    + apply preset_mode_by_priority.
    + intros Ht. apply truthy_true in Ht. now rewrite Ht.
    + intros Ht Hb. apply truthy_false in Ht. apply truthy_true in Hb.
      now rewrite Ht, Hb.
    + intros Ht Hb He. apply truthy_false in Ht, Hb. apply truthy_true in He.
      now rewrite Ht, Hb, He.
    + intros Ht Hb He Hs. apply truthy_false in Ht, Hb, He. apply truthy_true in Hs.
      now rewrite Ht, Hb, He, Hs.
    + intros Ht Hb He Hs. apply truthy_false in Ht, Hb, He, Hs.
      now rewrite Ht, Hb, He, Hs.
    + intros Ht He. rewrite Ht. cbn. split; [reflexivity | discriminate].
Qed.

(** C8.  The power of the sensor payload is the raw reading when the
    three signals agree that the device is on (power flag 1, reported on,
    raw reading positive) and 0 when any of them disagrees; so it differs
    from 0 exactly when the three agree, and it is 0 for power flag 1,
    reported on and a raw reading of 0. *)
Theorem power_w_conservative aircond energy_usage :
  let raw := Sta_ODPwrCon (shadowState aircond) in
  field "Sta_ODPwrCon" (sensor_payload aircond energy_usage)
    = Some (JInt (power_w aircond)) /\
  (actually_on aircond -> power_w aircond = raw) /\
  (~ actually_on aircond -> power_w aircond = 0) /\
  (power_w aircond <> 0 <-> actually_on aircond) /\
  (Set_OnOff (shadowState aircond) = 1 -> is_on aircond = true -> raw = 0 ->
   power_w aircond = 0).
Proof.
  cbn zeta. unfold power_w, actually_on, is_on.
  split; [reflexivity|].
  destruct (Set_OnOff (shadowState aircond) =? 1) eqn:Hflag; cbn.
  - apply Z.eqb_eq in Hflag.
    destruct (0 <? Sta_ODPwrCon (shadowState aircond)) eqn:Hdraw; cbn.
    + apply Z.ltb_lt in Hdraw. repeat split; try tauto; try lia.
    + apply Z.ltb_ge in Hdraw. repeat split; try tauto; try lia.
  - apply Z.eqb_neq in Hflag. repeat split; try tauto; try lia.
Qed.

End PayloadProperties.

(** The bedroom unit with turbo and eco both set, once discovered: the
    payload is built, its preset is "boost", and it is the first thing
    that [publish_aircond_state] sends. *)
Lemma preset_mode_priority_witness :
  exists payload,
    aircond_state_payload bedroom_turbo_eco = Ret payload /\
    field "preset_mode" payload = Some (JStr "boost") /\
    published (after (publish_aircond_state calm bedroom_turbo_eco) discovered)
      !! 0%nat
    = Some {| pub_topic := "godaikin/daikin_4c50dd423066/status";
              pub_payload := json_dumps calm payload;
              pub_qos := 1; pub_retain := true |}.
Proof.
  destruct (proj1 (proj2 (preset_mode_priority calm bedroom_turbo_eco)))
    as [payload [Hpayload [Hpreset Hsent]]].
  - right. exists AircondMode.FAN_ONLY. reflexivity.
  - exists FanSpeed.LOW. reflexivity.
  - exists AircondSwing.AUTO. reflexivity.
  - exists AircondSwing.STEP_3. reflexivity.
  - exists payload. split; [exact Hpayload|]. split; [exact Hpreset|].
    apply (Hsent discovered (from_aircond bedroom)); [reflexivity|].
    discriminate.
Defined.

Lemma power_w_conservative_witness :
  power_w bedroom = 750 /\ power_w bedroom_off = 0.
Proof.
  split.
  - apply (proj1 (proj2 (power_w_conservative bedroom 0%Q))). repeat split.
  - apply (proj1 (proj2 (proj2 (power_w_conservative bedroom_off 0%Q)))).
    intros [Hon _]. discriminate Hon.
Defined.

(** ** The topics map and the state refresh *)

Section TopicsProperties.

Variable env : Controller.Env.

Create HintDb keeps_topics discriminated.

Ltac keeps_topics :=
  repeat first
    [ solve [auto 1 with keeps_topics nocore]
    | apply keeps_ret | apply keeps_raise | apply keeps_lift | apply keeps_gets
    | apply keeps_bind | apply keeps_for_each
    | apply keeps_modify; intros; reflexivity
    | apply mqtt_publish_keeps; intros; reflexivity
    | match goal with
      | |- forall _, _ => intro
      | |- keeps _ (match ?x with _ => _ end) => destruct x
      end ].

Lemma keeps_topics_api_request request :
  keeps mqtt_topics_by_unique_id (_api_request env request).
Proof. intros self. reflexivity. Qed.

Lemma keeps_topics_dt_now : keeps mqtt_topics_by_unique_id (dt_now env).
Proof. intros self. reflexivity. Qed.

Lemma keeps_topics_get_airconds : keeps mqtt_topics_by_unique_id (get_airconds env).
Proof.
  unfold get_airconds. keeps_topics.
Qed.
#[local] Hint Resolve keeps_topics_get_airconds : keeps_topics.
#[local] Hint Resolve keeps_topics_dt_now : keeps_topics.
#[local] Hint Resolve keeps_topics_api_request : keeps_topics.

Lemma keeps_topics_set_desired_state unique_id state :
  keeps mqtt_topics_by_unique_id (_set_desired_state env unique_id state).
Proof.
  unfold _set_desired_state. keeps_topics.
Qed.
#[local] Hint Resolve keeps_topics_set_desired_state : keeps_topics.

Lemma keeps_topics_handle_set_message set_key unique_id payload :
  keeps mqtt_topics_by_unique_id (handle_set_message env set_key unique_id payload).
Proof.
  unfold handle_set_message, handle_set_mode, handle_set_fan_mode,
    handle_set_preset_mode, handle_set_temperature, handle_set_swing,
    handle_set_swing_horizontal, handle_set_status_led, set_mode, set_preset,
    set_fan_mode, set_swing, set_temperature, turn_off, set_status_led, warning.
  keeps_topics.
Qed.
#[local] Hint Resolve keeps_topics_handle_set_message : keeps_topics.

Lemma keeps_topics_handle_message topic payload :
  keeps mqtt_topics_by_unique_id (handle_message env topic payload).
Proof.
  unfold handle_message, warning. keeps_topics.
Qed.
#[local] Hint Resolve keeps_topics_handle_message : keeps_topics.

Lemma keeps_topics_publish_aircond_state aircond :
  keeps mqtt_topics_by_unique_id (publish_aircond_state env aircond).
Proof. unfold publish_aircond_state, topics_of. keeps_topics. Qed.

Lemma keeps_topics_publish_sensor_state aircond :
  keeps mqtt_topics_by_unique_id (publish_sensor_state env aircond).
Proof.
  unfold publish_sensor_state, topics_of. keeps_topics.
  intros self. destruct (accumulate_energy_usage_for_aircond _ _ _). reflexivity.
Qed.
#[local] Hint Resolve keeps_topics_publish_sensor_state : keeps_topics.
#[local] Hint Resolve keeps_topics_publish_aircond_state : keeps_topics.

Lemma keeps_topics_refresh_state :
  keeps mqtt_topics_by_unique_id (refresh_state env).
Proof.
  unfold refresh_state. keeps_topics.
Qed.
#[local] Hint Resolve keeps_topics_refresh_state : keeps_topics.

Lemma keeps_topics_poll_cycles cycles :
  keeps mqtt_topics_by_unique_id (poll_cycles env cycles).
Proof.
  induction cycles as [|cycles IH]; cbn [poll_cycles].
  - apply keeps_ret.
  - apply keeps_bind; [apply keeps_topics_refresh_state|]. intros _.
    apply keeps_bind; [apply keeps_modify; intros; reflexivity|].
    intros _. exact IH.
Qed.

Lemma keeps_topics_message_loop messages :
  keeps mqtt_topics_by_unique_id (message_loop env messages).
Proof.
  unfold message_loop. apply keeps_for_each. intros message.
  apply keeps_topics_handle_message.
Qed.

Lemma topics_of_absent aircond self :
  mqtt_topics_by_unique_id self !! unique_id aircond = None ->
  topics_of aircond self = (Raise (KeyError (unique_id aircond)), self).
Proof. intros Habsent. unfold topics_of, bind, gets. cbn. now rewrite Habsent. Qed.

Lemma publish_aircond_state_absent aircond self :
  mqtt_topics_by_unique_id self !! unique_id aircond = None ->
  publish_aircond_state env aircond self =
    (Raise (KeyError (unique_id aircond)), self).
Proof.
  intros Habsent. unfold publish_aircond_state, bind at 1.
  now rewrite topics_of_absent.
Qed.

Lemma publish_sensor_state_absent aircond self :
  mqtt_topics_by_unique_id self !! unique_id aircond = None ->
  publish_sensor_state env aircond self =
    (Raise (KeyError (unique_id aircond)), self).
Proof.
  intros Habsent. unfold publish_sensor_state, bind at 1.
  now rewrite topics_of_absent.
Qed.

Lemma refresh_state_fetched airconds self :
  cloud env (length (api_requests self)) = Ret airconds ->
  refresh_state env self =
  for_each airconds (publish_both env) (fetched airconds self).
Proof.
  intros Hcloud. unfold refresh_state, get_airconds.
  unfold bind at 1. unfold bind at 1. unfold _api_request.
  rewrite Hcloud. reflexivity.
Qed.

Lemma publish_both_absent aircond self :
  mqtt_topics_by_unique_id self !! unique_id aircond = None ->
  publish_both env aircond self = (Raise (KeyError (unique_id aircond)), self).
Proof.
  intros Habsent. unfold publish_both, bind.
  now rewrite publish_aircond_state_absent.
Qed.

Lemma keeps_topics_publish_both aircond :
  keeps mqtt_topics_by_unique_id (publish_both env aircond).
Proof. unfold publish_both. keeps_topics. Qed.

(** A refresh over devices of which one has no topics does not complete. *)
Lemma refresh_devices_raises aircond airconds self :
  In aircond airconds ->
  mqtt_topics_by_unique_id self !! unique_id aircond = None ->
  exists e, fst (for_each airconds (publish_both env) self) = Raise e.
Proof.
  revert self. induction airconds as [|first rest IH]; intros self Hin Habsent.
  - destruct Hin.
  - cbn [for_each]. unfold bind.
    destruct Hin as [->|Hin].
    + rewrite publish_both_absent by exact Habsent. eexists. reflexivity.
    + pose proof (keeps_topics_publish_both first self) as Hkeeps.
      destruct (publish_both env first self) as [[[]|e] self'].
      * apply IH; [exact Hin|]. cbn in Hkeeps. now rewrite Hkeeps.
      * eexists. reflexivity.
Qed.

Lemma poll_cycles_raises cycles self e :
  fst (refresh_state env self) = Raise e ->
  poll_cycles env (S cycles) self = (Raise e, snd (refresh_state env self)).
Proof.
  intros Hraise. cbn [poll_cycles]. unfold bind at 1.
  destruct (refresh_state env self) as [[[]|e'] self']; cbn in *.
  - discriminate.
  - congruence.
Qed.

Lemma get_mqtt_topics_registers aircond self :
  mqtt_topics_by_unique_id self !! unique_id aircond = None ->
  get_mqtt_topics aircond self =
    (Ret (from_aircond aircond),
     set_mqtt_topics_by_unique_id
       (<[unique_id aircond := from_aircond aircond]>
          (mqtt_topics_by_unique_id self)) self).
Proof.
  intros Habsent. unfold get_mqtt_topics, bind, gets. cbn. now rewrite Habsent.
Qed.

(** C10.  For a device whose unique id has no entry in the topics map,
    [publish_aircond_state] and [publish_sensor_state] raise [KeyError]
    at the lookup and leave the controller untouched: nothing is
    published.  A refresh whose fetched list holds such a device raises,
    and so does the poll cycle around it; when the device comes first the
    exception is that [KeyError] and the cycle has published nothing.
    The map itself is written by [get_mqtt_topics] alone: the refresh, the
    poll cycles and the handling of inbound messages leave it as it is. *)
Theorem publish_requires_discovered_topics aircond self :
  mqtt_topics_by_unique_id self !! unique_id aircond = None ->
  publish_aircond_state env aircond self =
    (Raise (KeyError (unique_id aircond)), self) /\
  publish_sensor_state env aircond self =
    (Raise (KeyError (unique_id aircond)), self) /\
  (forall airconds,
      cloud env (length (api_requests self)) = Ret airconds ->
      In aircond airconds ->
      exists e, fst (refresh_state env self) = Raise e /\
                forall cycles,
                  fst (poll_cycles env (S cycles) self) = Raise e) /\
  (forall rest cycles,
      cloud env (length (api_requests self)) = Ret (aircond :: rest) ->
      fst (poll_cycles env (S cycles) self) = Raise (KeyError (unique_id aircond)) /\
      published (after (poll_cycles env (S cycles)) self) = published self) /\
  fst (get_mqtt_topics aircond self) = Ret (from_aircond aircond) /\
  mqtt_topics_by_unique_id (after (get_mqtt_topics aircond) self)
    !! unique_id aircond = Some (from_aircond aircond) /\
  (forall cycles messages,
      mqtt_topics_by_unique_id (after (poll_cycles env cycles) self)
        !! unique_id aircond = None /\
      mqtt_topics_by_unique_id (after (message_loop env messages) self)
        !! unique_id aircond = None).
Proof.
  intros Habsent.
  split; [now apply publish_aircond_state_absent|].
  split; [now apply publish_sensor_state_absent|].
  split; [|split; [|split; [|split]]].
  - intros airconds Hcloud Hin.
    destruct (refresh_devices_raises aircond airconds (fetched airconds self)
                Hin Habsent) as [e He].
    rewrite <- (refresh_state_fetched airconds self Hcloud) in He.
    exists e. split; [exact He|]. intros cycles.
    now rewrite (poll_cycles_raises cycles self e He).
  - intros rest cycles Hcloud.
    assert (Hrefresh :
      refresh_state env self =
      (Raise (KeyError (unique_id aircond)), fetched (aircond :: rest) self)).
    { rewrite (refresh_state_fetched _ self Hcloud). cbn [for_each].
      unfold bind. now rewrite publish_both_absent. }
    unfold after.
    rewrite (poll_cycles_raises cycles self (KeyError (unique_id aircond)))
      by now rewrite Hrefresh.
    rewrite Hrefresh. split; reflexivity.
  - now rewrite get_mqtt_topics_registers.
  - unfold after. rewrite get_mqtt_topics_registers by exact Habsent. cbn.
    apply lookup_insert_eq.
  - intros cycles messages. unfold after.
    now rewrite keeps_topics_poll_cycles, keeps_topics_message_loop.
Qed.

End TopicsProperties.

Lemma publish_requires_discovered_topics_witness :
  let started := after (publish_discovery late_arrival) Controller.init in
  publish_aircond_state late_arrival study started =
    (Raise (KeyError (unique_id study)), started) /\
  publish_sensor_state late_arrival study started =
    (Raise (KeyError (unique_id study)), started) /\
  exists e, fst (refresh_state late_arrival started) = Raise e /\
            forall cycles,
              fst (poll_cycles late_arrival (S cycles) started) = Raise e.
Proof.
  cbn zeta.
  pose proof (publish_requires_discovered_topics late_arrival study
                (after (publish_discovery late_arrival) Controller.init))
    as Hstudy.
  assert (Habsent :
    mqtt_topics_by_unique_id
      (after (publish_discovery late_arrival) Controller.init)
      !! unique_id study = None) by (vm_compute; reflexivity).
  specialize (Hstudy Habsent).
  split; [exact (proj1 Hstudy)|]. split; [exact (proj1 (proj2 Hstudy))|].
  apply (proj1 (proj2 (proj2 Hstudy)) [bedroom; study]).
  - vm_compute. reflexivity.
  - right. left. reflexivity.
Defined.

(** The bridge starts while the cloud knows the bedroom unit only; the
    study unit is in the list of the first refresh, which raises. *)
Example controller_loop_late_arrival :
  fst (controller_loop late_arrival 1 Controller.init)
  = Raise (KeyError "daikin_0a1b2c3d4e5f").
Proof. vm_compute. reflexivity. Qed.

(** ** Vendor codes outside the enumerations *)

Section UnknownCodes.

Variable env : Controller.Env.

Lemma aircond_state_payload_unknown_mode aircond :
  is_on aircond = true ->
  AircondMode.value2member (Set_Mode (shadowState aircond)) = None ->
  aircond_state_payload aircond = Raise (ValueError "is not a valid AircondMode").
Proof.
  intros Hon Hunknown. unfold aircond_state_payload, AircondMode.of_value.
  now rewrite Hon, Hunknown.
Qed.

Lemma publish_aircond_state_raises aircond self topics e :
  mqtt_topics_by_unique_id self !! unique_id aircond = Some topics ->
  aircond_state_payload aircond = Raise e ->
  publish_aircond_state env aircond self = (Raise e, self).
Proof.
  intros Htopics Hpayload.
  unfold publish_aircond_state, topics_of, bind, gets, lift. cbn.
  now rewrite Htopics, Hpayload.
Qed.

(** With the power flag on, a mode code that is no member of
    [AircondMode] makes [publish_aircond_state] raise [ValueError] before
    anything is published. *)
Lemma publish_aircond_state_unknown_mode aircond self topics :
  mqtt_topics_by_unique_id self !! unique_id aircond = Some topics ->
  is_on aircond = true ->
  AircondMode.value2member (Set_Mode (shadowState aircond)) = None ->
  publish_aircond_state env aircond self =
    (Raise (ValueError "is not a valid AircondMode"), self).
Proof.
  intros Htopics Hon Hunknown.
  apply (publish_aircond_state_raises aircond self topics); [exact Htopics|].
  now apply aircond_state_payload_unknown_mode.
Qed.

End UnknownCodes.

(** C2, on the code.  The bedroom unit is discovered and running and
    reports mode code 3: the [mode] property of [Aircond] answers
    "Unknown", [publish_aircond_state] raises [ValueError] and publishes
    nothing.  The same unit switched off with fan code 0 raises as well. *)
Theorem publish_aircond_state_crashes_on_unknown_code :
  is_on bedroom_mode_3 = true /\
  mode bedroom_mode_3 = "Unknown" /\
  publish_aircond_state calm bedroom_mode_3 discovered =
    (Raise (ValueError "is not a valid AircondMode"), discovered) /\
  is_on bedroom_fan_0 = false /\
  publish_aircond_state calm bedroom_fan_0 discovered =
    (Raise (ValueError "is not a valid FanSpeed"), discovered).
Proof.
  split; [reflexivity|]. split; [reflexivity|].
  split; [|split; [reflexivity|]].
  - apply (publish_aircond_state_unknown_mode calm bedroom_mode_3 discovered
             (from_aircond bedroom)); vm_compute; reflexivity.
  - apply (publish_aircond_state_raises calm bedroom_fan_0 discovered
             (from_aircond bedroom)); vm_compute; reflexivity.
Qed.

(** ** Inbound commands *)

Section CommandProperties.

Variable env : Controller.Env.

Lemma eqb_not_in (x y : string) (known : list string) :
  ~ In x known -> In y known -> String.eqb x y = false.
Proof.
  intros Hout Hin. apply String.eqb_neq. intros ->. now apply Hout.
Qed.

Lemma handle_set_mode_unknown unique_id mode self :
  ~ In mode known_modes ->
  handle_set_mode env unique_id mode self =
    (Ret tt, set_warnings (warnings self ++ ["Unknown mode"]) self).
Proof.
  intros Hunknown. unfold handle_set_mode.
  rewrite !(eqb_not_in mode _ known_modes Hunknown) by (cbn; tauto).
  reflexivity.
Qed.

Lemma handle_set_message_unknown_key set_key unique_id payload self :
  ~ In set_key known_set_keys ->
  handle_set_message env set_key unique_id payload self =
    (Ret tt, set_preempt_state_refresh true self).
Proof.
  intros Hunknown. unfold handle_set_message.
  rewrite !(eqb_not_in set_key _ known_set_keys Hunknown) by (cbn; tauto).
  reflexivity.
Qed.

Lemma handle_set_message_unknown_mode unique_id mode self :
  ~ In mode known_modes ->
  handle_set_message env "mode" unique_id mode self =
    (Ret tt,
     set_preempt_state_refresh true
       (set_warnings (warnings self ++ ["Unknown mode"]) self)).
Proof.
  intros Hunknown. unfold handle_set_message, bind.
  change (String.eqb "mode" "mode") with true. cbv iota.
  rewrite handle_set_mode_unknown by exact Hunknown. reflexivity.
Qed.

Lemma handle_set_fan_mode_unknown unique_id fan_mode self :
  FanSpeed.of_name (upper fan_mode) = Raise (KeyError (upper fan_mode)) ->
  handle_set_message env "fan_mode" unique_id fan_mode self =
    (Raise (KeyError (upper fan_mode)), self).
Proof.
  intros Hunknown. unfold handle_set_message, bind.
  change (String.eqb "fan_mode" "mode") with false.
  change (String.eqb "fan_mode" "fan_mode") with true. cbv iota.
  unfold handle_set_fan_mode, bind, lift. now rewrite Hunknown.
Qed.

Lemma handle_set_swing_unknown horizontal unique_id swing self :
  AircondSwing.of_name (upper swing) = Raise (KeyError (upper swing)) ->
  handle_set_message env
    (if horizontal : bool then "swing_horizontal_mode" else "swing_mode")
    unique_id swing self =
    (Raise (KeyError (upper swing)), self).
Proof.
  intros Hunknown. unfold handle_set_message.
  destruct horizontal;
    repeat match goal with
           | |- context [String.eqb ?a ?b] =>
               let v := eval vm_compute in (String.eqb a b) in
               change (String.eqb a b) with v
           end;
    cbv iota;
    unfold handle_set_swing_horizontal, handle_set_swing, bind, lift;
    now rewrite Hunknown.
Qed.

Lemma fan_of_name_unknown n :
  (forall f, FanSpeed.name f <> n) ->
  FanSpeed.of_name n = Raise (KeyError n).
Proof.
  intros Hunknown. unfold FanSpeed.of_name.
  destruct (List.find _ FanSpeed.members) as [f|] eqn:Hfind; [|reflexivity].
  apply List.find_some in Hfind. destruct Hfind as [_ Hname].
  apply String.eqb_eq in Hname. now destruct (Hunknown f).
Qed.

Lemma swing_of_name_unknown n :
  (forall s, AircondSwing.name s <> n) ->
  AircondSwing.of_name n = Raise (KeyError n).
Proof.
  intros Hunknown. unfold AircondSwing.of_name.
  destruct (List.find _ AircondSwing.members) as [f|] eqn:Hfind; [|reflexivity].
  apply List.find_some in Hfind. destruct Hfind as [_ Hname].
  apply String.eqb_eq in Hname. now destruct (Hunknown f).
Qed.

Lemma preset_of_value_unknown v :
  (forall p, AircondPreset.value p <> v) ->
  AircondPreset.of_value v = Raise (ValueError "is not a valid AircondPreset").
Proof.
  intros Hunknown. unfold AircondPreset.of_value.
  destruct (List.find _ AircondPreset.members) as [p|] eqn:Hfind; [|reflexivity].
  apply List.find_some in Hfind. destruct Hfind as [_ Hvalue].
  apply String.eqb_eq in Hvalue. now destruct (Hunknown p).
Qed.

(** A message whose payload has a text, on a topic of four parts with
    the action [set], is handled as the [set] command of its key. *)
Lemma handle_message_set topic prefix unique_id key message payload self :
  split "/" topic = [prefix; unique_id; "set"; key] ->
  payload_text message = Ret payload ->
  handle_message env topic message self =
  handle_set_message env key unique_id payload self.
Proof.
  intros Hsplit Htext. unfold handle_message.
  unfold bind at 1. unfold lift. rewrite Htext, Hsplit. reflexivity.
Qed.

(** C1.  What the handling of an inbound message does with a message it
    cannot use.
    - Payload bytes that are not UTF-8 raise [UnicodeDecodeError], and
      the controller is as before.
    - An action other than [set] is logged as a warning and ignored: no
      error, the preemption signal is not set.
    - A [set] with an unknown key is ignored: no error, and the
      preemption signal is set.
    - A [set] of [mode] with a string that is no mode is logged as a
      warning and ignored: no error, no request to the cloud, and the
      preemption signal is set.
    - A [set] of [preset_mode] with a string that is no preset is logged
      as a warning and handled as the preset "none".
    - A [set] of [fan_mode], [swing_mode] or [swing_horizontal_mode] with
      a name that is no member is not guarded as the two before it are:
      [KeyError] leaves the handler, nothing is logged, and the
      preemption signal is not set. *)
Theorem handle_message_malformed topic message self :
  (forall e,
      payload_text message = Raise e ->
      handle_message env topic message self = (Raise e, self)) /\
  (forall prefix unique_id action key payload,
      split "/" topic = [prefix; unique_id; action; key] ->
      payload_text message = Ret payload ->
      (action <> "set" ->
       handle_message env topic message self =
         (Ret tt, set_warnings (warnings self ++ ["Unknown MQTT action"]) self)) /\
      (action = "set" -> ~ In key known_set_keys ->
       handle_message env topic message self =
         (Ret tt, set_preempt_state_refresh true self)) /\
      (action = "set" -> key = "mode" -> ~ In payload known_modes ->
       handle_message env topic message self =
         (Ret tt,
          set_preempt_state_refresh true
            (set_warnings (warnings self ++ ["Unknown mode"]) self))) /\
      (action = "set" -> key = "preset_mode" ->
       (forall p, AircondPreset.value p <> payload) ->
       handle_message env topic message self =
         (warning "Unknown preset mode" ;;
          set_preset env unique_id AircondPreset.NONE ;;
          modify (set_preempt_state_refresh true))%py self) /\
      (action = "set" -> key = "fan_mode" ->
       (forall f, FanSpeed.name f <> upper payload) ->
       handle_message env topic message self =
         (Raise (KeyError (upper payload)), self)) /\
      (action = "set" -> key = "swing_mode" \/ key = "swing_horizontal_mode" ->
       (forall s, AircondSwing.name s <> upper payload) ->
       handle_message env topic message self =
         (Raise (KeyError (upper payload)), self))).
Proof.
  split.
  { intros e Htext. unfold handle_message. unfold bind at 1. unfold lift.
    now rewrite Htext. }
  intros prefix unique_id action key payload Hsplit Htext.
  split; [|split; [|split; [|split; [|split]]]].
  - intros Hother. apply String.eqb_neq in Hother.
    unfold handle_message. unfold bind at 1. unfold lift.
    now rewrite Htext, Hsplit, Hother.
  - intros -> Hunknown. rewrite (handle_message_set _ _ _ _ _ _ _ Hsplit Htext).
    now apply handle_set_message_unknown_key.
  - intros -> -> Hunknown. rewrite (handle_message_set _ _ _ _ _ _ _ Hsplit Htext).
    now apply handle_set_message_unknown_mode.
  - intros -> -> Hunknown. rewrite (handle_message_set _ _ _ _ _ _ _ Hsplit Htext).
    unfold handle_set_message.
    change (String.eqb "preset_mode" "mode") with false.
    change (String.eqb "preset_mode" "fan_mode") with false.
    change (String.eqb "preset_mode" "preset_mode") with true. cbv iota.
    unfold handle_set_preset_mode.
    rewrite (preset_of_value_unknown _ Hunknown).
    unfold bind, warning, modify, ret. reflexivity.
  - intros -> -> Hunknown. rewrite (handle_message_set _ _ _ _ _ _ _ Hsplit Htext).
    apply handle_set_fan_mode_unknown. now apply fan_of_name_unknown.
  - intros -> Hkey Hunknown.
    rewrite (handle_message_set _ _ _ _ _ _ _ Hsplit Htext).
    apply swing_of_name_unknown in Hunknown.
    destruct Hkey as [-> | ->].
    + exact (handle_set_swing_unknown false unique_id payload self Hunknown).
    + exact (handle_set_swing_unknown true unique_id payload self Hunknown).
Qed.

End CommandProperties.

(** [decode] on values: ASCII text, a two-byte and a three-byte
    character (C3 A9, E2 82 AC) are text; a lone FF, a lone continuation
    byte, a lead byte with its continuation missing, the overlong C0 80,
    the surrogate ED A0 80 and F4 90 80 80, beyond the last code point,
    are not. *)
Example decode_samples :
  let bytes codes := string_of_list_ascii (map ascii_of_N codes) in
  let is_text codes := decode (bytes codes) = Ret (bytes codes) in
  let is_refused codes :=
    exists what, decode (bytes codes) = Raise (UnicodeDecodeError what) in
  decode "cool" = Ret "cool" /\
  is_text [195; 169]%N /\
  is_text [226; 130; 172]%N /\
  is_text [240; 159; 152; 128]%N /\
  is_refused [255]%N /\
  is_refused [128]%N /\
  is_refused [195]%N /\
  is_refused [192; 128]%N /\
  is_refused [237; 160; 128]%N /\
  is_refused [244; 144; 128; 128]%N.
Proof.
  cbv zeta. repeat split; try reflexivity; eexists; vm_compute; reflexivity.
Qed.

(** At the message that C1 fails on: [fan_mode] set to "turbo", as the
    broker delivers it to a controller that has discovered its device.
    [KeyError] leaves [handle_message], and so the message loop; the
    preemption signal stays clear and nothing is logged. *)
Lemma handle_message_malformed_witness :
  payload_text (Bytes "turbo") = Ret "turbo" /\
  handle_message calm "godaikin/daikin_4c50dd423066/set/fan_mode" (Bytes "turbo")
    discovered =
    (Raise (KeyError "TURBO"), discovered) /\
  message_loop calm
    [("godaikin/daikin_4c50dd423066/set/fan_mode", Bytes "turbo");
     ("godaikin/daikin_4c50dd423066/set/mode", Bytes "cool")] discovered =
    (Raise (KeyError "TURBO"), discovered) /\
  preempt_state_refresh discovered = false.
Proof.
  assert (Hraised :
    handle_message calm "godaikin/daikin_4c50dd423066/set/fan_mode"
      (Bytes "turbo") discovered = (Raise (KeyError "TURBO"), discovered)).
  { refine (proj1 (proj2 (proj2 (proj2 (proj2
      (proj2 (handle_message_malformed calm
                "godaikin/daikin_4c50dd423066/set/fan_mode" (Bytes "turbo")
                discovered)
         "godaikin" "daikin_4c50dd423066" "set" "fan_mode" "turbo"
         eq_refl eq_refl))))) eq_refl eq_refl _).
    intros f. destruct f; discriminate. }
  split; [reflexivity|]. split; [exact Hraised|]. split; [|reflexivity].
  unfold message_loop. cbn [for_each fst snd]. unfold bind at 1.
  now rewrite Hraised.
Defined.

(** The messages of C1 one by one, on the same controller: the unknown
    mode and the unknown preset are warned about and the signal is set,
    the unknown action is warned about and the signal is not set, the
    unknown fan and swing names and the bytes that are no text raise. *)
Example handle_message_samples :
  let handled key payload :=
    handle_message calm ("godaikin/daikin_4c50dd423066/set/" ++ key) (Bytes payload)
      discovered in
  let signal r := preempt_state_refresh (snd r) in
  let logged (r : Outcome unit * Controller) := warnings (snd r) in
  (fst (handled "mode" "heat"), signal (handled "mode" "heat"),
   logged (handled "mode" "heat")) = (Ret tt, true, ["Unknown mode"]) /\
  (signal (handled "preset_mode" "party"), logged (handled "preset_mode" "party"))
    = (true, ["Unknown preset mode"]) /\
  (let r := handle_message calm "godaikin/daikin_4c50dd423066/get/mode"
              (Bytes "cool") discovered in
   (fst r, signal r, logged r) = (Ret tt, false, ["Unknown MQTT action"])) /\
  (fst (handled "fan_mode" "turbo"), signal (handled "fan_mode" "turbo"),
   logged (handled "fan_mode" "turbo")) = (Raise (KeyError "TURBO"), false, []) /\
  (fst (handled "swing_mode" "wide"), signal (handled "swing_mode" "wide"))
    = (Raise (KeyError "WIDE"), false) /\
  (exists e,
      handled "mode" (String (ascii_of_N 255) "") = (Raise (UnicodeDecodeError e), discovered)).
Proof. vm_compute. repeat split. eexists. reflexivity. Qed.

(** ** The credential manager *)

Section CredentialProperties.

Variable env : Auth.Env.

Lemma initial_exchanges_app log log' :
  Auth.initial_exchanges (log ++ log') =
  (Auth.initial_exchanges log + Auth.initial_exchanges log')%nat.
Proof.
  unfold Auth.initial_exchanges. now rewrite List.filter_app, length_app.
Qed.

(** A call with a credential held and its expiry, less the buffer, still
    ahead of the clock: no exchange, the held identity token. *)
Lemma get_jwt_token_valid self held :
  Auth.token self = Some held ->
  Auth.clock env (Auth.clock_reads self)
    < Auth.expires_at held - Auth.EXPIRY_BUFFER ->
  fst (Auth.get_jwt_token env self) = Ret (Auth.id_token held) /\
  Auth.exchanges (client_after (Auth.get_jwt_token env) self) = Auth.exchanges self /\
  Auth.token (client_after (Auth.get_jwt_token env) self) = Some held.
Proof.
  intros Hheld Hvalid.
  unfold client_after, Auth.get_jwt_token, bind, gets, ret, Auth.dt_now. cbn.
  rewrite Hheld. cbn.
  destruct (Z.leb_spec (Auth.expires_at held)
              (Auth.clock env (Auth.clock_reads self) + Auth.EXPIRY_BUFFER));
    [lia|].
  cbn. rewrite Hheld. repeat split.
Qed.

(** A call with a credential held whose expiry, less the buffer, is at
    or behind the clock: one refresh exchange with the held refresh
    token. *)
Lemma get_jwt_token_expired self held :
  Auth.token self = Some held ->
  Auth.expires_at held - Auth.EXPIRY_BUFFER
    <= Auth.clock env (Auth.clock_reads self) ->
  let request := Auth.REFRESH_TOKEN_AUTH (Auth.refresh_token held) in
  let answer := Auth.cognito env (length (Auth.exchanges self)) request in
  let self' := client_after (Auth.get_jwt_token env) self in
  Auth.exchanges self' = (Auth.exchanges self ++ [request])%list /\
  (forall auth,
      answer = Ret (Some auth) ->
      fst (Auth.get_jwt_token env self) = Ret (Auth.IdToken auth) /\
      Auth.token self' =
        Some {| Auth.access_token := Auth.AccessToken auth;
                Auth.id_token := Auth.IdToken auth;
                Auth.refresh_token := Auth.refresh_token held;
                Auth.expires_at :=
                  Auth.clock env (S (Auth.clock_reads self))
                  + Auth.ExpiresIn auth * 1000000 |}) /\
  (answer = Ret None ->
   (exists what, fst (Auth.get_jwt_token env self) = Raise (AuthError what)) /\
   Auth.token self' = Some held) /\
  (forall e,
      answer = Raise e ->
      fst (Auth.get_jwt_token env self) = Raise e /\
      Auth.token self' = Some held).
Proof.
  intros Hheld Hexpired. cbn zeta.
  unfold client_after, Auth.get_jwt_token, Auth.refresh_jwt_token,
    Auth.initiate_auth, bind, gets, ret, raise, modify, Auth.dt_now. cbn.
  rewrite Hheld. cbn.
  destruct (Z.leb_spec (Auth.expires_at held)
              (Auth.clock env (Auth.clock_reads self) + Auth.EXPIRY_BUFFER));
    [|lia].
  cbn.
  destruct (Auth.cognito env (length (Auth.exchanges self))
              (Auth.REFRESH_TOKEN_AUTH (Auth.refresh_token held)))
    as [[auth|]|e]; cbn; rewrite ?Hheld.
  - split; [reflexivity|]. split; [|split]; [|discriminate|discriminate].
    intros auth' [= <-]. split; reflexivity.
  - split; [reflexivity|]. split; [|split]; [discriminate| |discriminate].
    intros _. split; [eexists|]; reflexivity.
  - split; [reflexivity|]. split; [|split]; [discriminate|discriminate|].
    intros e' [= <-]. split; reflexivity.
Qed.

(** The first call: the initial exchange comes first, and whatever
    follows it in the same call is no initial exchange. *)
Lemma get_jwt_token_first self :
  Auth.token self = None ->
  exists rest,
    Auth.exchanges (client_after (Auth.get_jwt_token env) self) =
      (Auth.exchanges self
       ++ Auth.USER_PASSWORD_AUTH (Auth.username self) (Auth.password self)
       :: rest)%list /\
    Auth.initial_exchanges rest = 0%nat.
Proof.
  intros Hnone.
  unfold client_after, Auth.get_jwt_token, Auth.init_cognito_token,
    Auth.refresh_jwt_token, Auth.initiate_auth, bind, gets, ret, raise, modify,
    Auth.dt_now.
  cbn. rewrite Hnone. cbn.
  destruct (Auth.cognito env (length (Auth.exchanges self)) _) as [[auth|]|e];
    cbn; [|exists []; split; reflexivity ..].
  destruct (Auth.RefreshToken auth) as [refresh|]; cbn;
    [|exists []; split; reflexivity].
  destruct (_ <=? _); cbn; [|exists []; split; reflexivity].
  destruct (Auth.cognito env _ _) as [[auth'|]|e']; cbn;
    (eexists; split; [rewrite <- app_assoc; reflexivity | reflexivity]).
Qed.

(** The first call when the provider grants a credential that is valid
    beyond the buffer: the initial exchange is the only one, and the
    identity token granted is returned and held. *)
Lemma get_jwt_token_first_granted self auth refresh :
  Auth.token self = None ->
  Auth.cognito env (length (Auth.exchanges self))
    (Auth.USER_PASSWORD_AUTH (Auth.username self) (Auth.password self))
  = Ret (Some auth) ->
  Auth.RefreshToken auth = Some refresh ->
  Auth.clock env (S (Auth.clock_reads self)) + Auth.EXPIRY_BUFFER
    < Auth.clock env (Auth.clock_reads self) + Auth.ExpiresIn auth * 1000000 ->
  fst (Auth.get_jwt_token env self) = Ret (Auth.IdToken auth) /\
  Auth.exchanges (client_after (Auth.get_jwt_token env) self) =
    (Auth.exchanges self
     ++ [Auth.USER_PASSWORD_AUTH (Auth.username self) (Auth.password self)])%list /\
  Auth.token (client_after (Auth.get_jwt_token env) self) =
    Some {| Auth.access_token := Auth.AccessToken auth;
            Auth.id_token := Auth.IdToken auth;
            Auth.refresh_token := refresh;
            Auth.expires_at :=
              Auth.clock env (Auth.clock_reads self)
              + Auth.ExpiresIn auth * 1000000 |}.
Proof.
  intros Hnone Hanswer Hrefresh Hvalid.
  unfold client_after, Auth.get_jwt_token, Auth.init_cognito_token,
    Auth.initiate_auth, bind, gets, ret, raise, modify, Auth.dt_now.
  cbn. rewrite Hnone. cbn. rewrite Hanswer. cbn. rewrite Hrefresh. cbn.
  destruct (Z.leb_spec
              (Auth.clock env (Auth.clock_reads self)
               + Auth.ExpiresIn auth * 1000000)
              (Auth.clock env (S (Auth.clock_reads self)) + Auth.EXPIRY_BUFFER));
    [lia|].
  cbn. repeat split.
Qed.

(** C4.  With no credential held, [get_jwt_token] performs exactly one
    initial exchange, with the configured user name and password; when
    the credential granted is valid beyond the buffer that is the only
    exchange of the call, and the identity token granted is returned.
    With a credential held whose expiry less the buffer is still after
    the clock, it performs no exchange and returns the held identity token.
    With a credential held whose expiry less the buffer is at or before
    the clock, it performs exactly one exchange, a refresh that sends the
    held refresh token; when the provider grants it, the identity token
    of the answer is returned and the credential that replaces the held
    one keeps the held refresh token. *)
Theorem get_jwt_token_exchanges self :
  let self' := client_after (Auth.get_jwt_token env) self in
  (Auth.token self = None ->
   Auth.initial_exchanges (Auth.exchanges self') =
     S (Auth.initial_exchanges (Auth.exchanges self)) /\
   exists rest,
     Auth.exchanges self' =
       (Auth.exchanges self
        ++ Auth.USER_PASSWORD_AUTH (Auth.username self) (Auth.password self)
        :: rest)%list /\
     Auth.initial_exchanges rest = 0%nat) /\
  (forall auth refresh,
      Auth.token self = None ->
      Auth.cognito env (length (Auth.exchanges self))
        (Auth.USER_PASSWORD_AUTH (Auth.username self) (Auth.password self))
      = Ret (Some auth) ->
      Auth.RefreshToken auth = Some refresh ->
      Auth.clock env (S (Auth.clock_reads self)) + Auth.EXPIRY_BUFFER
        < Auth.clock env (Auth.clock_reads self) + Auth.ExpiresIn auth * 1000000 ->
      fst (Auth.get_jwt_token env self) = Ret (Auth.IdToken auth) /\
      Auth.exchanges self' =
        (Auth.exchanges self
         ++ [Auth.USER_PASSWORD_AUTH (Auth.username self) (Auth.password self)])%list) /\
  (forall held,
      Auth.token self = Some held ->
      Auth.clock env (Auth.clock_reads self)
        < Auth.expires_at held - Auth.EXPIRY_BUFFER ->
      fst (Auth.get_jwt_token env self) = Ret (Auth.id_token held) /\
      Auth.exchanges self' = Auth.exchanges self /\
      Auth.token self' = Some held) /\
  (forall held,
      Auth.token self = Some held ->
      Auth.expires_at held - Auth.EXPIRY_BUFFER
        <= Auth.clock env (Auth.clock_reads self) ->
      Auth.exchanges self' =
        (Auth.exchanges self
         ++ [Auth.REFRESH_TOKEN_AUTH (Auth.refresh_token held)])%list /\
      forall auth,
        Auth.cognito env (length (Auth.exchanges self))
          (Auth.REFRESH_TOKEN_AUTH (Auth.refresh_token held)) = Ret (Some auth) ->
        fst (Auth.get_jwt_token env self) = Ret (Auth.IdToken auth) /\
        exists renewed,
          Auth.token self' = Some renewed /\
          Auth.id_token renewed = Auth.IdToken auth /\
          Auth.refresh_token renewed = Auth.refresh_token held).
Proof.
  cbn zeta. split; [|split; [|split]].
  - intros Hnone. destruct (get_jwt_token_first self Hnone) as [rest [Hlog Hrest]].
    split; [|exists rest; split; assumption].
    rewrite Hlog, initial_exchanges_app.
    change (Auth.initial_exchanges (Auth.USER_PASSWORD_AUTH _ _ :: rest))
      with (S (Auth.initial_exchanges rest)).
    rewrite Hrest. lia.
  - intros auth refresh Hnone Hanswer Hrefresh Hvalid.
    destruct (get_jwt_token_first_granted self auth refresh
                Hnone Hanswer Hrefresh Hvalid) as [Hret [Hlog _]].
    split; assumption.
  - intros held Hheld Hvalid. now apply get_jwt_token_valid.
  - intros held Hheld Hexpired.
    destruct (get_jwt_token_expired self held Hheld Hexpired)
      as [Hlog [Hgranted _]].
    split; [exact Hlog|]. intros auth Hanswer.
    destruct (Hgranted auth Hanswer) as [Hret Htoken].
    split; [exact Hret|]. eexists. split; [exact Htoken|]. split; reflexivity.
Qed.

End CredentialProperties.

Lemma get_jwt_token_exchanges_witness :
  Auth.initial_exchanges
    (Auth.exchanges
       (client_after (Auth.get_jwt_token provider) (Auth.init "user" "secret")))
  = 1%nat /\
  Auth.exchanges
    (client_after (Auth.get_jwt_token provider) (Auth.init "user" "secret"))
  = [Auth.USER_PASSWORD_AUTH "user" "secret"] /\
  fst (Auth.get_jwt_token provider (holding hour_token 2)) = Ret "identity" /\
  Auth.exchanges (client_after (Auth.get_jwt_token provider) (holding hour_token 3))
  = [Auth.REFRESH_TOKEN_AUTH "refresh"].
Proof.
  split; [|split; [|split]].
  - apply (proj1 (get_jwt_token_exchanges provider (Auth.init "user" "secret"))).
    reflexivity.
  - eapply (proj1 (proj2 (get_jwt_token_exchanges provider
                            (Auth.init "user" "secret"))));
      [reflexivity | reflexivity | reflexivity | vm_compute; reflexivity].
  - apply (proj1 (proj2 (proj2 (get_jwt_token_exchanges provider
                                  (holding hour_token 2))))
             hour_token); [reflexivity | vm_compute; reflexivity].
  - apply (proj2 (proj2 (proj2 (get_jwt_token_exchanges provider
                                  (holding hour_token 3))))
             hour_token); [reflexivity | vm_compute; discriminate].
Defined.

(** Three calls in a row on a fresh client: the first at second 0, the
    second at second 2, the third at second 3400, inside the buffer of a
    credential that expires at second 3600.  Two exchanges in all. *)
Example get_jwt_token_three_calls :
  let first := Auth.get_jwt_token provider (Auth.init "user" "secret") in
  let second := Auth.get_jwt_token provider (snd first) in
  let third := Auth.get_jwt_token provider (snd second) in
  fst first = Ret "identity" /\
  Auth.exchanges (snd first) = [Auth.USER_PASSWORD_AUTH "user" "secret"] /\
  fst second = Ret "identity" /\
  Auth.exchanges (snd second) = [Auth.USER_PASSWORD_AUTH "user" "secret"] /\
  fst third = Ret "identity-renewed" /\
  Auth.exchanges (snd third) =
    [Auth.USER_PASSWORD_AUTH "user" "secret"; Auth.REFRESH_TOKEN_AUTH "refresh"].
Proof. vm_compute. repeat split. Qed.

(** * Further properties of the code *)

(** ** energy.py *)

Section EnergyFurther.

(** X1.  The counter keeps its devices apart: an accumulation or a reset
    for one device leaves the total and the baseline of every other
    device as they were. *)
Theorem energy_counter_per_device now aircond ec uid :
  uid <> unique_id aircond ->
  let accumulated := snd (accumulate_energy_usage_for_aircond now aircond ec) in
  let reset := reset_energy_if_off aircond ec in
  get_energy_usage uid accumulated = get_energy_usage uid ec /\
  energy_accumulated_at_by_unique_id accumulated !! uid =
    energy_accumulated_at_by_unique_id ec !! uid /\
  get_energy_usage uid reset = get_energy_usage uid ec /\
  energy_accumulated_at_by_unique_id reset !! uid =
    energy_accumulated_at_by_unique_id ec !! uid.
Proof.
  intros Hne. cbn zeta.
  split; [now apply get_energy_usage_accumulate_other|].
  split; [|split; [now apply reset_energy_if_off_other|
                   now rewrite reset_energy_if_off_baseline]].
  unfold accumulate_energy_usage_for_aircond.
  destruct (energy_accumulated_at_by_unique_id ec !! unique_id aircond);
    cbn; now rewrite lookup_insert_ne.
Qed.

Lemma energy_counter_per_device_witness :
  get_energy_usage (unique_id bedroom)
    (snd (accumulate_energy_usage_for_aircond two_hours study counter_in_use))
  = get_energy_usage (unique_id bedroom) counter_in_use.
Proof.
  apply (energy_counter_per_device two_hours study counter_in_use
           (unique_id bedroom)).
  vm_compute. discriminate.
Defined.

Lemma accumulate_stored now aircond ec since :
  energy_accumulated_at_by_unique_id ec !! unique_id aircond = Some since ->
  get_energy_usage (unique_id aircond)
    (snd (accumulate_energy_usage_for_aircond now aircond ec))
  = fst (accumulate_energy_usage_for_aircond now aircond ec).
Proof.
  intros Hsince. unfold get_energy_usage.
  destruct (classic_on aircond) as [Hon|Hoff].
  - now rewrite (proj2 (accumulate_on now aircond ec since Hsince Hon)).
  - now rewrite (proj2 (accumulate_not_on now aircond ec since Hsince Hoff)).
Qed.

Lemma Qle_of_difference x y d : (x - y == d)%Q -> (0 <= d)%Q -> (y <= x)%Q.
Proof.
  intros Hdiff Hpos. rewrite <- Hdiff in Hpos.
  apply (Qplus_le_l _ _ (- y)). rewrite Qplus_opp_r. exact Hpos.
Qed.

Lemma Qlt_of_difference x y d : (x - y == d)%Q -> (d < 0)%Q -> (x < y)%Q.
Proof.
  intros Hdiff Hneg. rewrite <- Hdiff in Hneg.
  apply (Qplus_lt_l _ _ (- y)). rewrite Qplus_opp_r. exact Hneg.
Qed.

(** X2.  An accumulation never lowers a total when the clock has not
    gone back behind the baseline of the device.  When it has, and the
    device is actually on, the accumulation lowers the total. *)
Theorem accumulate_follows_the_clock now aircond ec :
  let total := get_energy_usage (unique_id aircond) in
  let ec' := snd (accumulate_energy_usage_for_aircond now aircond ec) in
  ((forall since,
       energy_accumulated_at_by_unique_id ec !! unique_id aircond = Some since ->
       since <= now) ->
   (total ec <= total ec')%Q) /\
  (forall since,
      energy_accumulated_at_by_unique_id ec !! unique_id aircond = Some since ->
      now < since -> actually_on aircond ->
      (total ec' < total ec)%Q).
Proof.
  cbn zeta. split.
  - intros Hclock.
    destruct (energy_accumulated_at_by_unique_id ec !! unique_id aircond)
      as [since|] eqn:Hsince.
    + rewrite (accumulate_stored now aircond ec since Hsince).
      destruct (classic_on aircond) as [Hon|Hoff].
      * eapply Qle_of_difference;
          [exact (proj1 (accumulate_on now aircond ec since Hsince Hon))|].
        apply Qmult_le_0_compat;
          [|apply elapsed_hours_nonneg; now apply Hclock].
        apply Qle_shift_div_l; [reflexivity|]. rewrite Qmult_0_l.
        rewrite <- (Zle_Qle 0). destruct Hon as (_ & _ & Hp). lia.
      * eapply Qle_of_difference;
          [exact (proj1 (accumulate_not_on now aircond ec since Hsince Hoff))|].
        apply Qle_refl.
    + rewrite (accumulate_first now aircond ec Hsince). cbn. apply Qle_refl.
  - intros since Hsince Hback Hon.
    rewrite (accumulate_stored now aircond ec since Hsince).
    eapply Qlt_of_difference;
      [exact (proj1 (accumulate_on now aircond ec since Hsince Hon))|].
    destruct Hon as (_ & _ & Hp).
    unfold elapsed_hours, Qdiv.
    assert (Hflip :
      (inject_Z (Sta_ODPwrCon (shadowState aircond)) * / 1000
       * (inject_Z (now - since) * / inject_Z (3600 * 1000000)) ==
       - (inject_Z (Sta_ODPwrCon (shadowState aircond) * (since - now))
          * / inject_Z (1000 * (3600 * 1000000))))%Q).
    { rewrite !inject_Z_mult.
      replace (now - since) with (- (since - now)) by lia.
      rewrite inject_Z_opp. field. }
    rewrite Hflip. apply (Qopp_lt_compat 0). apply Qmult_lt_0_compat.
    + rewrite <- (Zlt_Qlt 0). nia.
    + reflexivity.
Qed.

Lemma accumulate_follows_the_clock_witness :
  (get_energy_usage (unique_id bedroom) counter_in_use <=
   get_energy_usage (unique_id bedroom)
     (snd (accumulate_energy_usage_for_aircond two_hours bedroom counter_in_use)))%Q /\
  (get_energy_usage (unique_id bedroom)
     (snd (accumulate_energy_usage_for_aircond (- two_hours) bedroom counter_in_use))
   < get_energy_usage (unique_id bedroom) counter_in_use)%Q.
Proof.
  split.
  - apply (proj1 (accumulate_follows_the_clock two_hours bedroom counter_in_use)).
    intros since Hsince. vm_compute in Hsince. injection Hsince as <-.
    vm_compute. discriminate.
  - apply (proj2 (accumulate_follows_the_clock (- two_hours) bedroom
                    counter_in_use) 0).
    + vm_compute. reflexivity.
    + vm_compute. reflexivity.
    + repeat split.
Defined.

Lemma accumulate_at_each_not_on times last aircond ec since :
  energy_accumulated_at_by_unique_id ec !! unique_id aircond = Some since ->
  ~ actually_on aircond ->
  (get_energy_usage (unique_id aircond)
     (accumulate_at_each (times ++ [last]) aircond ec)
   - get_energy_usage (unique_id aircond) ec == 0)%Q.
Proof.
  intros Hsince Hoff. revert ec since Hsince.
  induction times as [|now times IH]; intros ec since Hsince.
  - cbn. rewrite (accumulate_stored last aircond ec since Hsince).
    exact (proj1 (accumulate_not_on last aircond ec since Hsince Hoff)).
  - cbn [app accumulate_at_each foldl].
    pose proof (IH _ now (accumulate_baseline now aircond ec)) as Hrest.
    unfold accumulate_at_each in Hrest.
    rewrite (accumulate_stored now aircond ec since Hsince) in Hrest.
    pose proof (proj1 (accumulate_not_on now aircond ec since Hsince Hoff))
      as Hstep.
    cbn zeta in Hstep.
    set (total := get_energy_usage _ (foldl _ _ _)) in *.
    assert (Hsplit :
      (total - get_energy_usage (unique_id aircond) ec ==
       (total - fst (accumulate_energy_usage_for_aircond now aircond ec))
       + (fst (accumulate_energy_usage_for_aircond now aircond ec)
          - get_energy_usage (unique_id aircond) ec))%Q) by ring.
    rewrite Hsplit, Hrest, Hstep. reflexivity.
Qed.

(** X3.  Over any sequence of accumulations for a device that has a
    baseline, whatever the instants in between: at constant power P the
    total grows by P/1000 times the hours from the baseline to the last
    instant when the device is actually on, and by nothing when it is
    not; and the baseline ends on the last instant. *)
Theorem accumulate_over_a_sequence times last aircond ec since :
  energy_accumulated_at_by_unique_id ec !! unique_id aircond = Some since ->
  let ec' := accumulate_at_each (times ++ [last]) aircond ec in
  let growth := (get_energy_usage (unique_id aircond) ec'
                 - get_energy_usage (unique_id aircond) ec)%Q in
  (actually_on aircond ->
   (growth == inject_Z (Sta_ODPwrCon (shadowState aircond)) / 1000
              * elapsed_hours since last)%Q) /\
  (~ actually_on aircond -> (growth == 0)%Q) /\
  energy_accumulated_at_by_unique_id ec' !! unique_id aircond = Some last.
Proof.
  intros Hsince. cbn zeta. split; [|split].
  - intros Hon. now apply accumulate_at_each_constant_power.
  - intros Hoff. now apply (accumulate_at_each_not_on times last aircond ec since).
  - unfold accumulate_at_each. rewrite foldl_app. cbn [foldl].
    apply accumulate_baseline.
Qed.

Lemma accumulate_over_a_sequence_witness :
  (get_energy_usage (unique_id bedroom)
     (accumulate_at_each ([3600000000%Z; 5400000000%Z] ++ [two_hours]) bedroom
        counter_in_use)
   - get_energy_usage (unique_id bedroom) counter_in_use ==
   inject_Z 750 / 1000 * elapsed_hours 0 two_hours)%Q.
Proof.
  apply (accumulate_over_a_sequence [3600000000; 5400000000]%Z two_hours
           bedroom counter_in_use 0).
  - vm_compute. reflexivity.
  - repeat split.
Defined.

(** X4.  [reset_energy_if_off] changes nothing for a device whose power
    flag is not 0, never moves a baseline, never raises a total, and
    doing it twice is doing it once. *)
Theorem reset_energy_if_off_cautious aircond ec :
  (Set_OnOff (shadowState aircond) <> 0 -> reset_energy_if_off aircond ec = ec) /\
  energy_accumulated_at_by_unique_id (reset_energy_if_off aircond ec) =
    energy_accumulated_at_by_unique_id ec /\
  (forall uid,
      (get_energy_usage uid (reset_energy_if_off aircond ec)
       <= get_energy_usage uid ec)%Q) /\
  reset_energy_if_off aircond (reset_energy_if_off aircond ec) =
    reset_energy_if_off aircond ec.
Proof.
  split; [|split; [apply reset_energy_if_off_baseline|split]].
  - intros Hon. unfold reset_energy_if_off.
    apply Z.eqb_neq in Hon. rewrite Hon. now rewrite andb_false_r.
  - intros uid. unfold reset_energy_if_off.
    destruct (negb (is_on aircond) && (Set_OnOff (shadowState aircond) =? 0));
      [|apply Qle_refl].
    destruct (Qgtb _ _) eqn:Hgt; [|apply Qle_refl].
    destruct (decide (uid = unique_id aircond)) as [->|Hne].
    + unfold get_energy_usage at 1. cbn. rewrite lookup_insert_eq. cbn.
      unfold Qgtb in Hgt. apply negb_true_iff in Hgt.
      apply Qlt_le_weak. apply Qnot_le_lt. intros Hle.
      apply Qle_bool_iff in Hle. unfold get_energy_usage in Hle. congruence.
    + unfold get_energy_usage. cbn. rewrite lookup_insert_ne by congruence.
      apply Qle_refl.
  - unfold reset_energy_if_off.
    destruct (negb (is_on aircond) && (Set_OnOff (shadowState aircond) =? 0))
      eqn:Hoff; rewrite ?Hoff; [|reflexivity].
    destruct (Qgtb (default 0%Q (energy_by_unique_id ec !! unique_id aircond)) 0)
      eqn:Hgt; cbn; rewrite ?Hoff.
    + rewrite lookup_insert_eq. cbn. reflexivity.
    + now rewrite Hgt.
Qed.

Lemma reset_energy_if_off_cautious_witness :
  reset_energy_if_off bedroom counter_in_use = counter_in_use.
Proof.
  apply (proj1 (reset_energy_if_off_cautious bedroom counter_in_use)).
  discriminate.
Defined.

End EnergyFurther.

(** ** auth.py *)

Section CredentialFurther.

Variable env : Auth.Env.

Lemma get_jwt_token_keeps_refresh_token self held :
  Auth.token self = Some held ->
  exists current,
    Auth.token (client_after (Auth.get_jwt_token env) self) = Some current /\
    Auth.refresh_token current = Auth.refresh_token held.
Proof.
  intros Hheld.
  destruct (Z.lt_ge_cases (Auth.clock env (Auth.clock_reads self))
              (Auth.expires_at held - Auth.EXPIRY_BUFFER)) as [Hvalid|Hexpired].
  - destruct (get_jwt_token_valid env self held Hheld Hvalid) as (_ & _ & Hsame).
    exists held. split; [exact Hsame | reflexivity].
  - destruct (get_jwt_token_expired env self held Hheld Hexpired)
      as (_ & Hgranted & Hnone & Hraise).
    destruct (Auth.cognito env (length (Auth.exchanges self))
                (Auth.REFRESH_TOKEN_AUTH (Auth.refresh_token held)))
      as [[auth|]|e].
    + destruct (Hgranted auth eq_refl) as [_ Htoken].
      eexists. split; [exact Htoken | reflexivity].
    + destruct (Hnone eq_refl) as [_ Htoken].
      exists held. split; [exact Htoken | reflexivity].
    + destruct (Hraise e eq_refl) as [_ Htoken].
      exists held. split; [exact Htoken | reflexivity].
Qed.

(** X5.  Once a credential is held, the refresh token never changes:
    after any number of further calls, whatever the clock reads and
    whatever the provider answers, a credential is held and its refresh
    token is the one held at the start. *)
Theorem refresh_token_never_changes n self held :
  Auth.token self = Some held ->
  exists current,
    Auth.token (repeated_calls env n self) = Some current /\
    Auth.refresh_token current = Auth.refresh_token held.
Proof.
  intros Hheld. induction n as [|n [middle [Hmiddle Hsame]]].
  - exists held. split; [exact Hheld | reflexivity].
  - destruct (get_jwt_token_keeps_refresh_token (repeated_calls env n self)
                middle Hmiddle) as [current [Hcurrent Hkept]].
    exists current. split; [exact Hcurrent | congruence].
Qed.

(** X6.  What [get_jwt_token] returns is the identity token of the
    credential that the client holds when the call is left. *)
Theorem get_jwt_token_returns_held_identity self identity :
  fst (Auth.get_jwt_token env self) = Ret identity ->
  exists current,
    Auth.token (client_after (Auth.get_jwt_token env) self) = Some current /\
    Auth.id_token current = identity.
Proof.
  unfold client_after, Auth.get_jwt_token, Auth.init_cognito_token,
    Auth.refresh_jwt_token, Auth.initiate_auth, bind, gets, ret, raise, modify,
    Auth.dt_now.
  cbn. destruct (Auth.token self) as [held|] eqn:Hheld; cbn.
  - destruct (_ <=? _); cbn.
    + destruct (Auth.cognito env _ _) as [[auth|]|e]; cbn;
        intros [= <-] || discriminate.
      eexists. split; reflexivity.
    + rewrite Hheld. intros [= <-]. eexists. split; reflexivity.
  - destruct (Auth.cognito env _ _) as [[auth|]|e]; cbn; try discriminate.
    destruct (Auth.RefreshToken auth) as [refresh|]; cbn; try discriminate.
    destruct (_ <=? _); cbn.
    + destruct (Auth.cognito env _ _) as [[auth'|]|e']; cbn;
        intros [= <-] || discriminate.
      eexists. split; reflexivity.
    + intros [= <-]. eexists. split; reflexivity.
Qed.

(** X7.  A call that raises while a credential is held leaves that
    credential in place and has made no initial exchange: a failed
    refresh does not fall back on the user name and password.  A first
    call that the provider does not grant leaves the client without a
    credential, after that one initial exchange. *)
Theorem get_jwt_token_failure self :
  let self' := client_after (Auth.get_jwt_token env) self in
  (forall held e,
      Auth.token self = Some held ->
      fst (Auth.get_jwt_token env self) = Raise e ->
      Auth.token self' = Some held /\
      Auth.exchanges self' =
        (Auth.exchanges self
         ++ [Auth.REFRESH_TOKEN_AUTH (Auth.refresh_token held)])%list /\
      Auth.initial_exchanges (Auth.exchanges self') =
        Auth.initial_exchanges (Auth.exchanges self)) /\
  (Auth.token self = None ->
   (forall auth,
       Auth.cognito env (length (Auth.exchanges self))
         (Auth.USER_PASSWORD_AUTH (Auth.username self) (Auth.password self))
       <> Ret (Some auth)) ->
   (exists e, fst (Auth.get_jwt_token env self) = Raise e) /\
   Auth.token self' = None /\
   Auth.exchanges self' =
     (Auth.exchanges self
      ++ [Auth.USER_PASSWORD_AUTH (Auth.username self) (Auth.password self)])%list).
Proof.
  cbn zeta. split.
  - intros held e Hheld Hraise.
    destruct (Z.lt_ge_cases (Auth.clock env (Auth.clock_reads self))
                (Auth.expires_at held - Auth.EXPIRY_BUFFER)) as [Hvalid|Hexpired].
    + destruct (get_jwt_token_valid env self held Hheld Hvalid) as (Hret & _).
      congruence.
    + destruct (get_jwt_token_expired env self held Hheld Hexpired)
        as (Hlog & Hgranted & Hnone & Hfail).
      assert (Hkept :
        Auth.token (client_after (Auth.get_jwt_token env) self) = Some held).
      { destruct (Auth.cognito env (length (Auth.exchanges self))
                    (Auth.REFRESH_TOKEN_AUTH (Auth.refresh_token held)))
          as [[auth|]|e'].
        - destruct (Hgranted auth eq_refl) as [Hret _]. congruence.
        - exact (proj2 (Hnone eq_refl)).
        - exact (proj2 (Hfail e' eq_refl)). }
      split; [exact Hkept|]. split; [exact Hlog|].
      rewrite Hlog, initial_exchanges_app. cbn. lia.
  - intros Hnone Hrefused.
    unfold client_after, Auth.get_jwt_token, Auth.init_cognito_token,
      Auth.initiate_auth, bind, gets, ret, raise, modify, Auth.dt_now.
    cbn. rewrite Hnone. cbn.
    destruct (Auth.cognito env (length (Auth.exchanges self)) _)
      as [[auth|]|e] eqn:Hanswer; cbn.
    + now destruct (Hrefused auth).
    + split; [eexists; reflexivity|]. split; [exact Hnone | reflexivity].
    + split; [eexists; reflexivity|]. split; [exact Hnone | reflexivity].
Qed.

(** X8.  A first call that is granted a credential whose lifetime does
    not exceed the buffer refreshes it in the same call, when the clock
    does not run backwards in between: two exchanges, the initial one and
    a refresh with the refresh token just granted. *)
Theorem get_jwt_token_short_lived self auth refresh :
  Auth.token self = None ->
  Auth.cognito env (length (Auth.exchanges self))
    (Auth.USER_PASSWORD_AUTH (Auth.username self) (Auth.password self))
  = Ret (Some auth) ->
  Auth.RefreshToken auth = Some refresh ->
  Auth.ExpiresIn auth * 1000000 <= Auth.EXPIRY_BUFFER ->
  Auth.clock env (Auth.clock_reads self)
    <= Auth.clock env (S (Auth.clock_reads self)) ->
  Auth.exchanges (client_after (Auth.get_jwt_token env) self) =
    (Auth.exchanges self
     ++ [Auth.USER_PASSWORD_AUTH (Auth.username self) (Auth.password self);
         Auth.REFRESH_TOKEN_AUTH refresh])%list.
Proof.
  intros Hnone Hanswer Hrefresh Hshort Hclock.
  unfold client_after, Auth.get_jwt_token, Auth.init_cognito_token,
    Auth.refresh_jwt_token, Auth.initiate_auth, bind, gets, ret, raise, modify,
    Auth.dt_now.
  cbn. rewrite Hnone. cbn. rewrite Hanswer. cbn. rewrite Hrefresh. cbn.
  destruct (Z.leb_spec
              (Auth.clock env (Auth.clock_reads self)
               + Auth.ExpiresIn auth * 1000000)
              (Auth.clock env (S (Auth.clock_reads self)) + Auth.EXPIRY_BUFFER));
    [|lia].
  cbn. destruct (Auth.cognito env (length (_ ++ _)) _) as [[auth'|]|e']; cbn;
    now rewrite <- app_assoc.
Qed.

End CredentialFurther.

Lemma refresh_token_never_changes_witness :
  exists current,
    Auth.token (repeated_calls provider 5 (holding hour_token 0)) = Some current /\
    Auth.refresh_token current = "refresh".
Proof.
  apply (refresh_token_never_changes provider 5 (holding hour_token 0) hour_token).
  reflexivity.
Defined.

Lemma get_jwt_token_returns_held_identity_witness :
  exists current,
    Auth.token (client_after (Auth.get_jwt_token provider) (holding hour_token 3))
    = Some current /\
    Auth.id_token current = "identity-renewed".
Proof.
  apply (get_jwt_token_returns_held_identity provider (holding hour_token 3)).
  vm_compute. reflexivity.
Defined.

Lemma get_jwt_token_failure_witness :
  Auth.token (client_after (Auth.get_jwt_token revoking_provider)
                (holding hour_token 3)) = Some hour_token /\
  Auth.initial_exchanges
    (Auth.exchanges (client_after (Auth.get_jwt_token revoking_provider)
                       (holding hour_token 3))) = 0%nat.
Proof.
  destruct (proj1 (get_jwt_token_failure revoking_provider (holding hour_token 3))
              hour_token
              (AuthError "Did not receive AuthenticationResult (refresh failed or unhandled challenge).")
              eq_refl) as (Htoken & _ & Hcount).
  - vm_compute. reflexivity.
  - split; [exact Htoken | exact Hcount].
Defined.

Lemma get_jwt_token_short_lived_witness :
  Auth.exchanges
    (client_after (Auth.get_jwt_token hasty_provider) (Auth.init "user" "secret"))
  = [Auth.USER_PASSWORD_AUTH "user" "secret"; Auth.REFRESH_TOKEN_AUTH "refresh"].
Proof.
  eapply (get_jwt_token_short_lived hasty_provider (Auth.init "user" "secret"));
    [reflexivity | reflexivity | reflexivity
    | vm_compute; discriminate | vm_compute; discriminate].
Defined.

(** ** controller.py: publishing *)

Ltac keeps_any :=
  repeat first
    [ apply keeps_ret | apply keeps_raise | apply keeps_lift | apply keeps_gets
    | apply mqtt_publish_keeps; intros; reflexivity
    | apply keeps_bind | apply keeps_for_each
    | match goal with
      | |- forall _, _ => intro
      | |- keeps _ (match ?x with _ => _ end) => destruct x
      end
    | solve [intros ?; reflexivity] ].

Section PublishingFurther.

Variable env : Controller.Env.

(** X9.  Over any sequence of gated publishes on one topic, the broker is
    called once for each payload that differs from the one before it (the
    cache entry, before the first), and the cache ends on the last
    payload. *)
Theorem publish_each_transmits_changes topic qos retain payloads self :
  let self' := publish_each env topic qos retain payloads self in
  length (published self') =
    (length (published self)
     + changes (payload_cache_by_topic self !! topic)
         (map (payload_str env) payloads))%nat /\
  payload_cache_by_topic self' !! topic =
    match last (map (payload_str env) payloads) with
    | Some s => Some s
    | None => payload_cache_by_topic self !! topic
    end.
Proof.
  cbn zeta. revert self.
  induction payloads as [|payload payloads IH]; intros self.
  - cbn. split; [lia | reflexivity].
  - cbn [publish_each foldl map changes].
    destruct (mqtt_publish_gated_after env topic payload qos retain self)
      as [Hcache Hpublished].
    cbn zeta in Hcache, Hpublished.
    destruct (IH (after (mqtt_publish env topic payload qos retain true) self))
      as [Hcount Hlast].
    unfold publish_each in Hcount, Hlast.
    rewrite Hcount, Hlast, Hpublished, Hcache, lookup_insert_eq, length_app.
    split.
    + case_bool_decide; cbn; lia.
    + destruct (map (payload_str env) payloads) as [|s rest] eqn:Hrest;
        [reflexivity|].
      change (last (payload_str env payload :: s :: rest)) with (last (s :: rest)).
      destruct (last (s :: rest)) eqn:Hsome; [reflexivity|].
      apply last_None in Hsome. discriminate.
Qed.

Lemma maintains_of_keeps {A} (Q : list MqttPublish -> Prop) (call : M Controller A) :
  keeps published call -> maintains (fun self => Q (published self)) call.
Proof. intros Hkeeps self HQ. now rewrite Hkeeps. Qed.

Lemma maintains_bind {A B} P (c : M Controller A) (k : A -> M Controller B) :
  maintains P c -> (forall a, maintains P (k a)) -> maintains P (bind c k).
Proof.
  intros Hc Hk self HP. unfold bind. specialize (Hc self HP).
  destruct (c self) as [[a|e] self']; cbn in *.
  - now apply Hk.
  - exact Hc.
Qed.

Lemma maintains_for_each {A} P (xs : list A) (body : A -> M Controller unit) :
  (forall x, maintains P (body x)) -> maintains P (for_each xs body).
Proof.
  intros Hbody. induction xs as [|x xs IH]; cbn [for_each].
  - intros self HP. exact HP.
  - apply maintains_bind; [apply Hbody | intros _; exact IH].
Qed.

Lemma retained_mqtt_publish topic payload only_if_changed :
  maintains retained_at_qos_1 (mqtt_publish env topic payload 1 true only_if_changed).
Proof.
  intros self Hretained. unfold retained_at_qos_1 in *.
  destruct only_if_changed.
  - destruct (mqtt_publish_gated_after env topic payload 1 true self)
      as [_ Hpublished].
    unfold after in Hpublished. rewrite Hpublished.
    apply Forall_app. split; [exact Hretained|].
    case_bool_decide; repeat constructor.
  - rewrite mqtt_publish_ungated. cbn.
    apply Forall_app. split; [exact Hretained|]. repeat constructor.
Qed.

Lemma retained_of_keeps {A} (call : M Controller A) :
  keeps published call -> maintains retained_at_qos_1 call.
Proof.
  intros Hkeeps. exact (maintains_of_keeps _ call Hkeeps).
Qed.

Lemma keeps_published_handle_message topic payload :
  keeps published (handle_message env topic payload).
Proof.
  unfold handle_message, handle_set_message, handle_set_mode, handle_set_fan_mode,
    handle_set_preset_mode, handle_set_temperature, handle_set_swing,
    handle_set_swing_horizontal, handle_set_status_led, set_mode, set_preset,
    set_fan_mode, set_swing, set_temperature, turn_off, set_status_led,
    _set_desired_state, warning.
  keeps_any.
Qed.

Lemma retained_publish_both aircond :
  maintains retained_at_qos_1 (publish_both env aircond).
Proof.
  unfold publish_both. apply maintains_bind.
  - unfold publish_aircond_state.
    apply maintains_bind;
      [apply retained_of_keeps; unfold topics_of; keeps_any|].
    intros topics.
    apply maintains_bind; [apply retained_of_keeps; keeps_any|].
    intros payload.
    apply maintains_bind; [apply retained_mqtt_publish|].
    intros _. apply retained_mqtt_publish.
  - intros _. unfold publish_sensor_state.
    apply maintains_bind;
      [apply retained_of_keeps; unfold topics_of; keeps_any|].
    intros topics.
    apply maintains_bind; [apply retained_of_keeps; keeps_any|].
    intros _.
    apply maintains_bind; [apply retained_of_keeps; keeps_any|].
    intros now.
    apply maintains_bind; [|intros usage; apply retained_mqtt_publish].
    apply retained_of_keeps. intros self.
    destruct (accumulate_energy_usage_for_aircond _ _ _). reflexivity.
Qed.

Lemma retained_refresh_state : maintains retained_at_qos_1 (refresh_state env).
Proof.
  unfold refresh_state.
  apply maintains_bind;
    [apply retained_of_keeps; unfold get_airconds; keeps_any|].
  intros airconds. apply maintains_for_each. apply retained_publish_both.
Qed.

Lemma retained_poll_cycles cycles :
  maintains retained_at_qos_1 (poll_cycles env cycles).
Proof.
  induction cycles as [|cycles IH]; cbn [poll_cycles].
  - intros self HP. exact HP.
  - apply maintains_bind; [apply retained_refresh_state|]. intros _.
    apply maintains_bind; [|intros _; exact IH].
    apply retained_of_keeps. keeps_any.
Qed.

Lemma retained_publish_discovery :
  maintains retained_at_qos_1 (publish_discovery env).
Proof.
  unfold publish_discovery.
  apply maintains_bind;
    [apply retained_of_keeps; unfold get_airconds; keeps_any|].
  intros airconds. apply maintains_for_each. intros aircond.
  apply maintains_bind;
    [apply retained_of_keeps; unfold get_mqtt_topics; keeps_any|].
  intros topics. apply maintains_for_each. intros msg.
  apply retained_mqtt_publish.
Qed.

(** X10.  Every call of the broker that the bridge makes is at QoS 1 and
    retained: the announcements of the bridge, the discovery documents,
    the state of the devices; and the handling of inbound messages calls
    the broker not at all. *)
Theorem publishes_retained_at_qos_1 cycles messages self :
  retained_at_qos_1 self ->
  retained_at_qos_1 (after (publish_bridge_availability env) self) /\
  retained_at_qos_1 (after (publish_bridge_offline env) self) /\
  retained_at_qos_1 (after (controller_loop env cycles) self) /\
  retained_at_qos_1 (after (refresh_aircond_state env) self) /\
  published (after (message_loop env messages) self) = published self.
Proof.
  intros Hretained. unfold after.
  split; [now apply retained_mqtt_publish|].
  split; [now apply retained_mqtt_publish|].
  split; [|split].
  - unfold controller_loop.
    apply maintains_bind; [apply retained_publish_discovery | | exact Hretained].
    intros _. apply retained_poll_cycles.
  - now apply retained_refresh_state.
  - unfold message_loop. apply keeps_for_each. intros message.
    apply keeps_published_handle_message.
Qed.

End PublishingFurther.

Lemma publishes_retained_at_qos_1_witness :
  retained_at_qos_1 (after (controller_loop calm 2) Controller.init).
Proof.
  apply (publishes_retained_at_qos_1 calm 2 [] Controller.init). constructor.
Defined.

(** ** types.py and controller.py: codes, names and payloads *)

Section CodesFurther.

Variable env : Controller.Env.

Lemma mode_of_value_code v m :
  AircondMode.of_value v = Ret m -> AircondMode.value m = v.
Proof.
  unfold AircondMode.of_value, AircondMode.value2member.
  destruct (List.find _ _) as [m'|] eqn:Hfind; [|discriminate].
  intros [= <-]. apply List.find_some in Hfind as [_ Hcode].
  now apply Z.eqb_eq.
Qed.

Lemma fan_of_value_code v f :
  FanSpeed.of_value v = Ret f -> FanSpeed.value f = v.
Proof.
  unfold FanSpeed.of_value.
  destruct (List.find _ _) as [f'|] eqn:Hfind; [|discriminate].
  intros [= <-]. apply List.find_some in Hfind as [_ Hcode].
  now apply Z.eqb_eq.
Qed.

Lemma swing_of_value_code v s :
  AircondSwing.of_value v = Ret s -> AircondSwing.value s = v.
Proof.
  unfold AircondSwing.of_value.
  destruct (List.find _ _) as [s'|] eqn:Hfind; [|discriminate].
  intros [= <-]. apply List.find_some in Hfind as [_ Hcode].
  now apply Z.eqb_eq.
Qed.

(** X12.  Each enumeration decodes exactly its own codes: the code of a
    member decodes to that member, and a code that decodes to a member is
    the code of that member. *)
Theorem enumeration_codes_round_trip :
  (forall m, AircondMode.of_value (AircondMode.value m) = Ret m) /\
  (forall v m, AircondMode.of_value v = Ret m -> AircondMode.value m = v) /\
  (forall f, FanSpeed.of_value (FanSpeed.value f) = Ret f) /\
  (forall v f, FanSpeed.of_value v = Ret f -> FanSpeed.value f = v) /\
  (forall s, AircondSwing.of_value (AircondSwing.value s) = Ret s) /\
  (forall v s, AircondSwing.of_value v = Ret s -> AircondSwing.value s = v) /\
  (forall p, AircondPreset.of_value (AircondPreset.value p) = Ret p) /\
  (forall v p, AircondPreset.of_value v = Ret p -> AircondPreset.value p = v).
Proof.
  repeat split.
  - intros []; reflexivity.
  - apply mode_of_value_code.
  - intros []; reflexivity.
  - apply fan_of_value_code.
  - intros []; reflexivity.
  - apply swing_of_value_code.
  - intros []; reflexivity.
  - intros v p. unfold AircondPreset.of_value.
    destruct (List.find _ _) as [p'|] eqn:Hfind; [|discriminate].
    intros [= <-]. apply List.find_some in Hfind as [_ Hcode].
    now apply String.eqb_eq.
Qed.

(** X13.  When [publish_aircond_state] has a status payload to send, the
    payload reports the codes of the device: the mode is "off" exactly
    when the power flag is not 1 and otherwise the lower-case name of the
    member with the mode code, so always one of [HVAC_MODES]; the fan
    mode is the lower-case name of the member with the fan code, one of
    [FAN_MODES] or "unknown" (fan code 1); the two temperatures are the
    target and the room temperature unchanged. *)
Theorem aircond_state_payload_reports_codes aircond payload :
  aircond_state_payload aircond = Ret payload ->
  let state := shadowState aircond in
  (exists mode,
      field "mode" payload = Some (JStr mode) /\
      In mode HVAC_MODES /\
      (mode = "off" <-> Set_OnOff state <> 1) /\
      (Set_OnOff state = 1 ->
       exists m, AircondMode.value m = Set_Mode state /\
                 mode = lower (AircondMode.name m))) /\
  (exists f,
      FanSpeed.value f = Set_Fan state /\
      field "fan_mode" payload = Some (JStr (lower (FanSpeed.name f))) /\
      (In (lower (FanSpeed.name f)) FAN_MODES \/ Set_Fan state = 1)) /\
  (exists vertical horizontal,
      AircondSwing.value vertical = Set_UDLvr state /\
      AircondSwing.value horizontal = Set_LRLvr state /\
      field "swing_mode" payload
        = Some (JStr (title (AircondSwing.name vertical))) /\
      field "swing_horizontal_mode" payload
        = Some (JStr (title (AircondSwing.name horizontal)))) /\
  field "temperature" payload = Some (JInt (Set_Temp state)) /\
  field "current_temperature" payload = Some (JInt (Sta_IDRoomTemp state)).
Proof.
  intros Hpayload. cbn zeta.
  pose proof mode_of_value_code as Hmode.
  pose proof fan_of_value_code as Hfan.
  pose proof swing_of_value_code as Hswing.
  unfold aircond_state_payload, is_on in Hpayload.
  destruct (FanSpeed.of_value _) as [f|] eqn:Hf;
    [|destruct (if negb _ then _ else _); discriminate].
  destruct (AircondSwing.of_value (Set_UDLvr _)) as [vertical|] eqn:Hv;
    [|destruct (if negb _ then _ else _); discriminate].
  destruct (AircondSwing.of_value (Set_LRLvr _)) as [horizontal|] eqn:Hh;
    [|destruct (if negb _ then _ else _); discriminate].
  apply Hfan in Hf. apply Hswing in Hv, Hh.
  split; [|split; [|split; [|split]]].
  - destruct (Set_OnOff (shadowState aircond) =? 1) eqn:Hon; cbn in Hpayload.
    + apply Z.eqb_eq in Hon.
      destruct (AircondMode.of_value _) as [m|] eqn:Hm; [|discriminate].
      apply Hmode in Hm. injection Hpayload as <-.
      exists (lower (AircondMode.name m)). split; [reflexivity|].
      split; [destruct m; cbn; tauto|].
      split; [|intros _; exists m; split; [exact Hm | reflexivity]].
      split; [destruct m; discriminate | intros Hoff; contradiction].
    + apply Z.eqb_neq in Hon. injection Hpayload as <-.
      exists "off". split; [reflexivity|]. split; [cbn; tauto|].
      split; [tauto | intros Hflag; contradiction].
  - exists f. split; [exact Hf|]. split.
    + destruct (if negb _ then _ else _); [|discriminate].
      injection Hpayload as <-. reflexivity.
    + destruct f; cbn; try tauto. right. now rewrite <- Hf.
  - exists vertical, horizontal. split; [exact Hv|]. split; [exact Hh|].
    destruct (if negb _ then _ else _); [|discriminate].
    injection Hpayload as <-. split; reflexivity.
  - destruct (if negb _ then _ else _); [|discriminate].
    injection Hpayload as <-. reflexivity.
  - destruct (if negb _ then _ else _); [|discriminate].
    injection Hpayload as <-. reflexivity.
Qed.

(** X14.  What the status payload shows can be sent back as a command:
    the handler of each command takes the string that the status payload
    uses for a member and issues the request for that same member. *)
Theorem status_strings_are_commands unique_id :
  (forall m,
      handle_set_mode env unique_id (lower (AircondMode.name m)) =
      set_mode env unique_id m) /\
  handle_set_mode env unique_id "off" = turn_off env unique_id /\
  (forall f,
      handle_set_fan_mode env unique_id (lower (FanSpeed.name f)) =
      set_fan_mode env unique_id f) /\
  (forall s,
      handle_set_swing env unique_id (title (AircondSwing.name s)) =
      set_swing env unique_id s false) /\
  (forall s,
      handle_set_swing_horizontal env unique_id (title (AircondSwing.name s)) =
      set_swing env unique_id s true) /\
  (forall p,
      handle_set_preset_mode env unique_id (AircondPreset.value p) =
      set_preset env unique_id p).
Proof.
  split; [|split; [reflexivity|]]; repeat split; intros []; reflexivity.
Qed.

(** X15.  Every option that the discovery document offers is one the
    command handlers take: each offered swing position is the title-case
    name of a member that the swing handler finds, each offered fan mode
    the lower-case name of a member that the fan handler finds, each
    offered preset the value of a preset other than "none". *)
Theorem offered_options_are_accepted state :
  (forall option,
      In option (Discovery.make_swing_modes state) ->
      exists s, AircondSwing.of_name (upper option) = Ret s /\
                title (AircondSwing.name s) = option) /\
  (forall options option,
      Discovery.make_swing_horizontal_modes state = Some options ->
      In option options ->
      exists s, AircondSwing.of_name (upper option) = Ret s /\
                title (AircondSwing.name s) = option) /\
  (forall option,
      In option FAN_MODES ->
      exists f, FanSpeed.of_name (upper option) = Ret f /\
                lower (FanSpeed.name f) = option) /\
  (forall option,
      In option (Discovery.make_preset_modes state) ->
      exists p, AircondPreset.of_value option = Ret p /\
                p <> AircondPreset.NONE).
Proof.
  split; [|split; [|split]].
  - intros option. unfold Discovery.make_swing_modes.
    destruct (truthy _); cbn;
      intros Hin; repeat (destruct Hin as [<-|Hin]; [eexists; split; reflexivity|]);
      destruct Hin.
  - intros options option. unfold Discovery.make_swing_horizontal_modes.
    destruct (negb _); [discriminate|]. intros [= <-].
    destruct (truthy _); cbn;
      intros Hin; repeat (destruct Hin as [<-|Hin]; [eexists; split; reflexivity|]);
      destruct Hin.
  - intros option. cbn.
    intros Hin; repeat (destruct Hin as [<-|Hin]; [eexists; split; reflexivity|]);
      destruct Hin.
  - intros option. unfold Discovery.make_preset_modes.
    destruct (truthy (Discovery.Ena_Turbo state)),
      (truthy (Discovery.Ena_Breeze state)),
      (truthy (Discovery.Ena_Ecoplus state)),
      (truthy (Discovery.Ena_Silent state)); cbn;
      intros Hin;
      repeat (destruct Hin as [<-|Hin];
              [eexists; split; [reflexivity | discriminate]|]);
      destruct Hin.
Qed.

End CodesFurther.

Lemma enumeration_codes_round_trip_witness :
  AircondMode.value AircondMode.DRY = 4 /\
  FanSpeed.value FanSpeed.AUTO = 128.
Proof.
  destruct enumeration_codes_round_trip as (_ & Hmode & _ & Hfan & _).
  split; [apply Hmode | apply Hfan]; reflexivity.
Defined.

Lemma aircond_state_payload_reports_codes_witness :
  field "temperature"
    [("mode", JStr "fan_only"); ("temperature", JInt 26);
     ("current_temperature", JInt 28); ("fan_mode", JStr "low");
     ("swing_mode", JStr "Auto"); ("swing_horizontal_mode", JStr "Step_3");
     ("preset_mode", JStr "none")]
  = Some (JInt (Set_Temp (shadowState bedroom))).
Proof.
  apply (aircond_state_payload_reports_codes bedroom). reflexivity.
Defined.

Lemma offered_options_are_accepted_witness :
  exists s, AircondSwing.of_name (upper "Step_4") = Ret s /\
            title (AircondSwing.name s) = "Step_4".
Proof.
  apply (proj1 (offered_options_are_accepted bedroom_flags)).
  cbn. tauto.
Defined.

(** ** api.py and controller.py: commands *)

Ltac eval_tests :=
  repeat match goal with
         | |- context [String.eqb (String ?c ?s) ?b] =>
             let v := eval vm_compute in (String.eqb (String c s) b) in
             change (String.eqb (String c s) b) with v; cbv iota
         end.

Section CommandsFurther.

Variable env : Controller.Env.

Lemma find_app {A} (p : A -> bool) (l l' : list A) :
  List.find p (l ++ l') =
  match List.find p l with
  | Some x => Some x
  | None => List.find p l'
  end.
Proof.
  induction l as [|x l IH]; cbn; [reflexivity|].
  destruct (p x); [reflexivity | exact IH].
Qed.

Lemma lookup_fetched airconds (m : gmap UniqueID Aircond) uid :
  foldl (fun m a => <[unique_id a := a]> m) m airconds !! uid =
  match latest uid airconds with
  | Some a => Some a
  | None => m !! uid
  end.
Proof.
  revert m. induction airconds as [|a airconds IH]; intros m; [reflexivity|].
  cbn [foldl]. rewrite IH. unfold latest. cbn [rev]. rewrite find_app.
  destruct (List.find _ (rev airconds)); [reflexivity|]. cbn.
  destruct (String.eqb_spec (unique_id a) uid) as [<-|Hne].
  - apply lookup_insert_eq.
  - now apply lookup_insert_ne.
Qed.

Lemma latest_unique_id uid airconds a :
  latest uid airconds = Some a -> In a airconds /\ unique_id a = uid.
Proof.
  unfold latest. intros Hfind. apply List.find_some in Hfind as [Hin Hid].
  split; [now apply in_rev | now apply String.eqb_eq].
Qed.

(** X16.  [get_airconds] replaces the table of known devices by the
    fetched list: a unique id is known afterwards exactly when a fetched
    device carries it, and it then stands for the last such device;
    devices known before and not fetched again are forgotten.  When the
    request fails, the table stays as it was. *)
Theorem get_airconds_replaces_the_table self :
  (forall airconds,
      cloud env (length (api_requests self)) = Ret airconds ->
      fst (get_airconds env self) = Ret airconds /\
      (forall uid,
          airconds_by_unique_id (after (get_airconds env) self) !! uid =
          latest uid airconds) /\
      (forall aircond,
          In aircond airconds ->
          exists known,
            airconds_by_unique_id (after (get_airconds env) self)
              !! unique_id aircond = Some known /\
            In known airconds /\ unique_id known = unique_id aircond) /\
      (forall uid,
          (forall aircond, In aircond airconds -> unique_id aircond <> uid) ->
          airconds_by_unique_id (after (get_airconds env) self) !! uid = None)) /\
  (forall e,
      cloud env (length (api_requests self)) = Raise e ->
      fst (get_airconds env self) = Raise e /\
      airconds_by_unique_id (after (get_airconds env) self) =
        airconds_by_unique_id self).
Proof.
  split.
  - intros airconds Hcloud.
    assert (Hrun : get_airconds env self = (Ret airconds, fetched airconds self)).
    { unfold get_airconds, bind, _api_request. now rewrite Hcloud. }
    unfold after. rewrite Hrun. cbn [fst snd].
    assert (Htable : forall uid,
      airconds_by_unique_id (fetched airconds self) !! uid = latest uid airconds).
    { intros uid. cbn. rewrite lookup_fetched, lookup_empty.
      now destruct (latest uid airconds). }
    split; [reflexivity|]. split; [exact Htable|]. split.
    + intros aircond Hin. rewrite Htable.
      destruct (latest (unique_id aircond) airconds) as [known|] eqn:Hlatest.
      * apply latest_unique_id in Hlatest as [Hknown Hid].
        exists known. repeat split; assumption.
      * unfold latest in Hlatest. apply in_rev in Hin.
        pose proof (List.find_none _ _ Hlatest aircond Hin) as Hno.
        cbv beta in Hno. now rewrite String.eqb_refl in Hno.
    + intros uid Hfresh. rewrite Htable.
      destruct (latest uid airconds) as [known|] eqn:Hlatest; [|reflexivity].
      apply latest_unique_id in Hlatest as [Hknown Hid].
      now destruct (Hfresh known Hknown).
  - intros e Hcloud. unfold after, get_airconds, bind, _api_request.
    rewrite Hcloud. split; reflexivity.
Qed.

Lemma set_desired_state_unknown unique_id state self :
  airconds_by_unique_id self !! unique_id = None ->
  _set_desired_state env unique_id state self = (Raise (KeyError unique_id), self).
Proof.
  intros Hunknown. unfold _set_desired_state, bind, gets. cbn.
  now rewrite Hunknown.
Qed.

Lemma bind_raises {A B} (c : M Controller A) (k : A -> M Controller B) self e self' :
  c self = (Raise e, self') -> bind c k self = (Raise e, self').
Proof. intros Hc. unfold bind. now rewrite Hc. Qed.

Lemma fan_of_name_member f n :
  FanSpeed.name f = n -> FanSpeed.of_name n = Ret f.
Proof. intros <-. now destruct f. Qed.

Lemma swing_of_name_member s n :
  AircondSwing.name s = n -> AircondSwing.of_name n = Ret s.
Proof. intros <-. now destruct s. Qed.

(** No command for an unknown device sends a request. *)
Lemma command_for_unknown_device_sends_nothing set_key unique_id payload self :
  airconds_by_unique_id self !! unique_id = None ->
  api_requests (snd (handle_set_message env set_key unique_id payload self))
  = api_requests self.
Proof.
  intros Hunknown.
  pose proof (fun state => set_desired_state_unknown unique_id state self Hunknown)
    as Hrefused.
  unfold handle_set_message, bind.
  repeat match goal with
         | |- context [if String.eqb set_key ?k then _ else _] =>
             destruct (String.eqb set_key k)
         end.
  - unfold handle_set_mode, turn_off, set_mode, warning, modify.
    repeat match goal with
           | |- context [if String.eqb payload ?k then _ else _] =>
               destruct (String.eqb payload k)
           end;
      rewrite ?Hrefused; reflexivity.
  - unfold handle_set_fan_mode, bind, lift, set_fan_mode.
    destruct (FanSpeed.of_name (upper payload)); rewrite ?Hrefused; reflexivity.
  - unfold handle_set_preset_mode, bind, warning, modify, ret.
    destruct (AircondPreset.of_value payload) as [preset|[]]; cbv beta iota;
      try reflexivity.
    + destruct preset; unfold set_preset; rewrite Hrefused; reflexivity.
    + unfold set_preset. rewrite set_desired_state_unknown by exact Hunknown.
      reflexivity.
  - destruct (float_of_str env payload); [|reflexivity].
    unfold handle_set_temperature, set_temperature. now rewrite Hrefused.
  - unfold handle_set_swing, bind, lift, set_swing.
    destruct (AircondSwing.of_name (upper payload)); rewrite ?Hrefused; reflexivity.
  - unfold handle_set_swing_horizontal, bind, lift, set_swing.
    destruct (AircondSwing.of_name (upper payload)); rewrite ?Hrefused; reflexivity.
  - unfold handle_set_status_led, set_status_led.
    destruct (String.eqb payload "ON"); rewrite Hrefused; reflexivity.
  - reflexivity.
Qed.

(** X17.  A command for a device that the API client does not know (it
    was in no fetched list, or no list was fetched yet), whatever its key
    and payload: no request is sent.  A command whose value the handler
    takes (a known mode, the name of a fan speed or of a swing position,
    a number for the temperature, the value of a preset, anything for the
    status light) raises [KeyError] for the unique id and leaves the
    controller exactly as it was, the preemption signal not set.  A
    payload that is no preset does the same after a warning.  A fan or
    swing name that is no member raises [KeyError] for that name, a
    temperature that is no number raises [ValueError], both with the
    controller as it was.  Only a mode that is not known and a key that
    is not known return, and set the preemption signal. *)
Theorem command_for_unknown_device set_key unique_id payload self :
  airconds_by_unique_id self !! unique_id = None ->
  let r := handle_set_message env set_key unique_id payload self in
  let refused := (Raise (KeyError unique_id), self) in
  api_requests (snd r) = api_requests self /\
  (forall state, _set_desired_state env unique_id state self = refused) /\
  (set_key = "mode" ->
   (In payload known_modes -> r = refused) /\
   (~ In payload known_modes ->
    r = (Ret tt,
         set_preempt_state_refresh true
           (set_warnings (warnings self ++ ["Unknown mode"]) self)))) /\
  (set_key = "fan_mode" ->
   ((exists f, FanSpeed.name f = upper payload) -> r = refused) /\
   ((forall f, FanSpeed.name f <> upper payload) ->
    r = (Raise (KeyError (upper payload)), self))) /\
  (set_key = "swing_mode" \/ set_key = "swing_horizontal_mode" ->
   ((exists s, AircondSwing.name s = upper payload) -> r = refused) /\
   ((forall s, AircondSwing.name s <> upper payload) ->
    r = (Raise (KeyError (upper payload)), self))) /\
  (set_key = "temperature" ->
   (forall x, float_of_str env payload = Some x -> r = refused) /\
   (float_of_str env payload = None ->
    r = (Raise (ValueError "could not convert string to float"), self))) /\
  (set_key = "preset_mode" ->
   ((exists p, AircondPreset.value p = payload) -> r = refused) /\
   ((forall p, AircondPreset.value p <> payload) ->
    r = (Raise (KeyError unique_id),
         set_warnings (warnings self ++ ["Unknown preset mode"]) self))) /\
  (set_key = "status_led" -> r = refused) /\
  (~ In set_key known_set_keys ->
   r = (Ret tt, set_preempt_state_refresh true self)).
Proof.
  intros Hunknown. cbn zeta.
  pose proof (fun state => set_desired_state_unknown unique_id state self Hunknown)
    as Hrefused.
  split; [now apply command_for_unknown_device_sends_nothing|].
  split; [exact Hrefused|].
  split; [|split; [|split; [|split; [|split; [|split]]]]].
  - intros ->. split.
    + intros Hin. apply bind_raises. eval_tests. unfold handle_set_mode.
      cbn in Hin. destruct Hin as [<-|[<-|[<-|[<-|[]]]]]; eval_tests;
        apply Hrefused.
    + intros Hout. now apply handle_set_message_unknown_mode.
  - intros ->. split.
    + intros [f Hf]. apply bind_raises. eval_tests.
      unfold handle_set_fan_mode, bind, lift.
      rewrite (fan_of_name_member f _ Hf). apply Hrefused.
    + intros Hout. apply handle_set_fan_mode_unknown.
      now apply fan_of_name_unknown.
  - intros Hkey. split.
    + intros [s Hs]. apply bind_raises.
      destruct Hkey as [-> | ->]; eval_tests.
      * unfold handle_set_swing, bind, lift.
        rewrite (swing_of_name_member s _ Hs). apply Hrefused.
      * unfold handle_set_swing_horizontal, bind, lift.
        rewrite (swing_of_name_member s _ Hs). apply Hrefused.
    + intros Hout. apply swing_of_name_unknown in Hout.
      destruct Hkey as [-> | ->].
      * exact (handle_set_swing_unknown env false unique_id payload self Hout).
      * exact (handle_set_swing_unknown env true unique_id payload self Hout).
  - intros ->. split.
    + intros x Hx. apply bind_raises. eval_tests. rewrite Hx. apply Hrefused.
    + intros Hnone. apply bind_raises. eval_tests. now rewrite Hnone.
  - intros ->. split.
    + intros [p <-]. apply bind_raises. eval_tests.
      destruct p; exact (Hrefused _).
    + intros Hout. apply bind_raises. eval_tests.
      unfold handle_set_preset_mode.
      rewrite (preset_of_value_unknown _ Hout).
      unfold bind, warning, modify, ret, set_preset.
      now rewrite set_desired_state_unknown by exact Hunknown.
  - intros ->. apply bind_raises. eval_tests.
    unfold handle_set_status_led, set_status_led.
    destruct (String.eqb payload "ON"); apply Hrefused.
  - intros Hout. now apply handle_set_message_unknown_key.
Qed.

Lemma sends_of_keeps {A} (call : M Controller A) :
  keeps api_requests call -> sends_at_most_one call.
Proof.
  intros Hkeeps self. exists []. rewrite Hkeeps, app_nil_r. split; [reflexivity|].
  cbn. lia.
Qed.

Lemma sends_after_keeps {A B} (c : M Controller A) (k : A -> M Controller B) :
  keeps api_requests c -> (forall a, sends_at_most_one (k a)) ->
  sends_at_most_one (bind c k).
Proof.
  intros Hc Hk self. unfold bind. specialize (Hc self).
  destruct (c self) as [[a|e] self']; cbn in *.
  - destruct (Hk a self') as [sent [Hsent Hlen]].
    exists sent. rewrite Hsent, Hc. split; [reflexivity | exact Hlen].
  - exists []. rewrite Hc, app_nil_r. split; [reflexivity | cbn; lia].
Qed.

Lemma sends_before_keeps {A B} (c : M Controller A) (k : A -> M Controller B) :
  sends_at_most_one c -> (forall a, keeps api_requests (k a)) ->
  sends_at_most_one (bind c k).
Proof.
  intros Hc Hk self. unfold bind. destruct (Hc self) as [sent [Hsent Hlen]].
  destruct (c self) as [[a|e] self']; cbn in *.
  - exists sent. rewrite Hk, Hsent. split; [reflexivity | exact Hlen].
  - exists sent. split; assumption.
Qed.

Lemma sends_set_desired_state unique_id state :
  sends_at_most_one (_set_desired_state env unique_id state).
Proof.
  unfold _set_desired_state. apply sends_after_keeps; [keeps_any|].
  intros [aircond|]; [|apply sends_of_keeps; keeps_any].
  apply sends_before_keeps; [|keeps_any].
  intros self. eexists. split; [reflexivity | cbn; lia].
Qed.

Lemma sends_dispatch set_key unique_id payload :
  sends_at_most_one
    (if String.eqb set_key "mode" then handle_set_mode env unique_id payload
     else if String.eqb set_key "fan_mode" then
       handle_set_fan_mode env unique_id payload
     else if String.eqb set_key "preset_mode" then
       handle_set_preset_mode env unique_id payload
     else if String.eqb set_key "temperature" then
       match float_of_str env payload with
       | None => raise (ValueError "could not convert string to float")
       | Some x => handle_set_temperature env unique_id (int_of_float x)
       end
     else if String.eqb set_key "swing_mode" then
       handle_set_swing env unique_id payload
     else if String.eqb set_key "swing_horizontal_mode" then
       handle_set_swing_horizontal env unique_id payload
     else if String.eqb set_key "status_led" then
       handle_set_status_led env unique_id payload
     else ret tt).
Proof.
  unfold handle_set_mode, handle_set_fan_mode, handle_set_preset_mode,
    handle_set_temperature, handle_set_swing, handle_set_swing_horizontal,
    handle_set_status_led, set_mode, set_preset, set_fan_mode, set_swing,
    set_temperature, turn_off, set_status_led, warning.
  repeat first
    [ apply sends_set_desired_state
    | apply sends_after_keeps; [solve [keeps_any]|]
    | match goal with
      | |- forall _, _ => intro
      | |- sends_at_most_one (match ?x with _ => _ end) => destruct x
      end
    | apply sends_of_keeps; solve [keeps_any] ].
Qed.

(** X18.  Whatever the key and the payload, the handling of a [set]
    command sets the preemption signal exactly when it returns, leaves
    the signal as it was when it raises, sends at most one request to the
    cloud, and touches neither the broker, nor the publish cache, nor the
    energy counter, nor the topics map. *)
Theorem handle_set_message_effects set_key unique_id payload self :
  let r := handle_set_message env set_key unique_id payload self in
  (fst r = Ret tt -> preempt_state_refresh (snd r) = true) /\
  (forall e, fst r = Raise e ->
             preempt_state_refresh (snd r) = preempt_state_refresh self) /\
  (exists sent,
      api_requests (snd r) = (api_requests self ++ sent)%list /\
      (length sent <= 1)%nat) /\
  published (snd r) = published self /\
  payload_cache_by_topic (snd r) = payload_cache_by_topic self /\
  energy (snd r) = energy self /\
  mqtt_topics_by_unique_id (snd r) = mqtt_topics_by_unique_id self.
Proof.
  cbn zeta.
  assert (Hkeeps : forall X (component : Controller -> X),
    (forall b self, component (set_preempt_state_refresh b self) = component self) ->
    (forall l self, component (set_api_requests l self) = component self) ->
    (forall l self, component (set_warnings l self) = component self) ->
    keeps component (handle_set_message env set_key unique_id payload)).
  { intros X component Hpreempt Hrequests Hwarnings.
    unfold handle_set_message, handle_set_mode, handle_set_fan_mode,
      handle_set_preset_mode, handle_set_temperature, handle_set_swing,
      handle_set_swing_horizontal, handle_set_status_led, set_mode, set_preset,
      set_fan_mode, set_swing, set_temperature, turn_off, set_status_led,
      _set_desired_state, _api_request, warning.
    repeat first
      [ apply keeps_ret | apply keeps_raise | apply keeps_lift | apply keeps_gets
      | apply keeps_bind
      | match goal with
        | |- forall _, _ => intro
        | |- keeps _ (match ?x with _ => _ end) => destruct x
        | |- keeps _ (modify _) => apply keeps_modify; intros; cbv beta; auto
        | |- keeps _ (fun self => (_, set_api_requests _ self)) =>
            intros ?; cbn [snd]; apply Hrequests
        end ]. }
  split; [|split; [|split; [|split; [|split; [|split]]]]].
  - unfold handle_set_message, bind.
    destruct (_ self) as [[[]|e] self']; [reflexivity | discriminate].
  - intros e. unfold handle_set_message.
    match goal with
    | |- context [bind ?d _] =>
        assert (Hdispatch : keeps preempt_state_refresh d)
    end.
    { unfold handle_set_mode, handle_set_fan_mode,
        handle_set_preset_mode, handle_set_temperature, handle_set_swing,
        handle_set_swing_horizontal, handle_set_status_led, set_mode, set_preset,
        set_fan_mode, set_swing, set_temperature, turn_off, set_status_led,
        _set_desired_state, warning.
      keeps_any. }
    unfold bind. specialize (Hdispatch self).
    destruct (_ self) as [[[]|e'] self']; [discriminate|].
    intros _. exact Hdispatch.
  - unfold handle_set_message.
    apply (sends_before_keeps _ _ (sends_dispatch set_key unique_id payload)).
    intros _. keeps_any.
  - apply Hkeeps; reflexivity.
  - apply Hkeeps; reflexivity.
  - apply Hkeeps; reflexivity.
  - apply Hkeeps; reflexivity.
Qed.

End CommandsFurther.

Lemma get_airconds_replaces_the_table_witness :
  airconds_by_unique_id (after (get_airconds late_arrival) discovered)
    !! unique_id study = None /\
  airconds_by_unique_id (after (get_airconds cloud_down) discovered) =
    airconds_by_unique_id discovered.
Proof.
  split.
  - apply (proj1 (get_airconds_replaces_the_table late_arrival discovered)
             [bedroom]); [reflexivity|].
    intros aircond [<-|[]]. vm_compute. discriminate.
  - apply (proj2 (get_airconds_replaces_the_table cloud_down discovered)
             (ApiError "503")).
    reflexivity.
Defined.

Lemma command_for_unknown_device_witness :
  handle_set_message calm "mode" (unique_id study) "cool" discovered =
    (Raise (KeyError (unique_id study)), discovered) /\
  handle_set_message calm "mode" (unique_id study) "heat" discovered =
    (Ret tt,
     set_preempt_state_refresh true (set_warnings ["Unknown mode"] discovered)) /\
  handle_set_message calm "temperature" (unique_id study) "warm" discovered =
    (Raise (ValueError "could not convert string to float"), discovered).
Proof.
  split; [|split].
  - apply (proj1 (proj1 (proj2 (proj2
             (command_for_unknown_device calm "mode" (unique_id study) "cool"
                discovered eq_refl))) eq_refl)).
    cbn. tauto.
  - apply (proj2 (proj1 (proj2 (proj2
             (command_for_unknown_device calm "mode" (unique_id study) "heat"
                discovered eq_refl))) eq_refl)).
    cbn. intros H. repeat (destruct H as [H|H]; [discriminate H|]). exact H.
  - apply (proj2 (proj1 (proj2 (proj2 (proj2 (proj2 (proj2
             (command_for_unknown_device calm "temperature" (unique_id study)
                "warm" discovered eq_refl)))))) eq_refl)).
    reflexivity.
Defined.

Lemma handle_set_message_effects_witness :
  preempt_state_refresh
    (snd (handle_set_message calm "mode" (unique_id bedroom) "cool" discovered))
  = true /\
  preempt_state_refresh
    (snd (handle_set_message cloud_down "mode" (unique_id bedroom) "cool"
            discovered))
  = preempt_state_refresh discovered.
Proof.
  split.
  - apply (handle_set_message_effects calm "mode" (unique_id bedroom) "cool"
             discovered).
    vm_compute. reflexivity.
  - apply (proj1 (proj2 (handle_set_message_effects cloud_down "mode"
                           (unique_id bedroom) "cool" discovered))
             (ApiError "503")).
    vm_compute. reflexivity.
Defined.

(** ** types.py and controller.py: topics *)

Section TopicsFurther.

Variable env : Controller.Env.

Lemma list_ascii_of_string_app (a b : string) :
  list_ascii_of_string (a ++ b) =
  (list_ascii_of_string a ++ list_ascii_of_string b)%list.
Proof. induction a as [|c a IH]; simpl; [reflexivity | now f_equal]. Qed.

Lemma list_ascii_of_string_inj (a b : string) :
  list_ascii_of_string a = list_ascii_of_string b -> a = b.
Proof.
  intros Heq. rewrite <- (string_of_list_ascii_of_string a),
    <- (string_of_list_ascii_of_string b). now rewrite Heq.
Qed.

Lemma append_inj_r (a b tail : string) : a ++ tail = b ++ tail -> a = b.
Proof.
  intros Heq. apply (f_equal list_ascii_of_string) in Heq.
  rewrite !list_ascii_of_string_app in Heq.
  apply app_inv_tail in Heq. now apply list_ascii_of_string_inj.
Qed.

Lemma append_last (a tail : string) c :
  last (list_ascii_of_string tail) = Some c ->
  last (list_ascii_of_string (a ++ tail)) = Some c.
Proof.
  intros Hlast. now rewrite list_ascii_of_string_app, last_app, Hlast.
Qed.

Lemma append_last_differs (a b tail tail' : string) c c' :
  last (list_ascii_of_string tail) = Some c ->
  last (list_ascii_of_string tail') = Some c' ->
  c <> c' -> a ++ tail <> b ++ tail'.
Proof.
  intros Hc Hc' Hne Heq.
  pose proof (append_last a tail c Hc) as Hleft.
  rewrite Heq, (append_last b tail' c' Hc') in Hleft. congruence.
Qed.

Lemma from_aircond_of_unique_id a b :
  unique_id a = unique_id b -> from_aircond a = from_aircond b.
Proof. intros Hsame. unfold from_aircond. now rewrite Hsame. Qed.

Lemma status_topic a :
  status (from_aircond a) = "godaikin/" ++ (unique_id a ++ "/status").
Proof. reflexivity. Qed.

Lemma sensor_topic a :
  sensor (from_aircond a) = "godaikin/" ++ (unique_id a ++ "/sensor").
Proof. reflexivity. Qed.

Lemma availability_topic a :
  availability (from_aircond a) =
  "godaikin/" ++ (unique_id a ++ "/availability").
Proof. reflexivity. Qed.

(** X19.  The topics of the devices do not collide: two devices share a
    status, sensor or availability topic only when they share the unique
    id, and no status topic is a sensor or an availability topic, nor a
    sensor topic an availability topic, of any device.  The one overlap
    is with the bridge: the availability topic of a device is the one of
    the bridge exactly when its unique id is "bridge". *)
Theorem topics_do_not_collide a b :
  (status (from_aircond a) = status (from_aircond b) ->
   unique_id a = unique_id b) /\
  (sensor (from_aircond a) = sensor (from_aircond b) ->
   unique_id a = unique_id b) /\
  (availability (from_aircond a) = availability (from_aircond b) ->
   unique_id a = unique_id b) /\
  status (from_aircond a) <> sensor (from_aircond b) /\
  status (from_aircond a) <> availability (from_aircond b) /\
  sensor (from_aircond a) <> availability (from_aircond b) /\
  status (from_aircond a) <> BRIDGE_AVAILABILITY_TOPIC /\
  sensor (from_aircond a) <> BRIDGE_AVAILABILITY_TOPIC /\
  (availability (from_aircond a) = BRIDGE_AVAILABILITY_TOPIC <->
   unique_id a = "bridge").
Proof.
  rewrite !status_topic, !sensor_topic, !availability_topic.
  change BRIDGE_AVAILABILITY_TOPIC with ("godaikin/" ++ ("bridge" ++ "/availability")).
  repeat split.
  - intros Heq. apply String.app_inj in Heq. now apply append_inj_r in Heq.
  - intros Heq. apply String.app_inj in Heq. now apply append_inj_r in Heq.
  - intros Heq. apply String.app_inj in Heq. now apply append_inj_r in Heq.
  - intros Heq. apply String.app_inj in Heq. revert Heq.
    now apply (append_last_differs _ _ _ _ "s" "r")%char.
  - intros Heq. apply String.app_inj in Heq. revert Heq.
    now apply (append_last_differs _ _ _ _ "s" "y")%char.
  - intros Heq. apply String.app_inj in Heq. revert Heq.
    now apply (append_last_differs _ _ _ _ "r" "y")%char.
  - intros Heq. apply String.app_inj in Heq. revert Heq.
    now apply (append_last_differs _ _ _ _ "s" "y")%char.
  - intros Heq. apply String.app_inj in Heq. revert Heq.
    now apply (append_last_differs _ _ _ _ "r" "y")%char.
  - intros Heq. apply String.app_inj in Heq. now apply append_inj_r in Heq.
  - intros Heq. now rewrite Heq.
Qed.

Lemma rev_app_rev_app (a b c : string) :
  String.rev_app (String.rev_app a b) c = String.rev_app b (a ++ c).
Proof.
  revert b c. induction a as [|x a IH]; intros b c; [reflexivity|].
  simpl. rewrite IH. reflexivity.
Qed.

Lemma append_empty_r (a : string) : a ++ "" = a.
Proof.
  induction a as [|x a IH]; [reflexivity|].
  change (String x (a ++ "") = String x a). now f_equal.
Qed.

Lemma rev_rev_app (a : string) : String.rev (String.rev_app a "") = a.
Proof.
  unfold String.rev. rewrite rev_app_rev_app. simpl. apply append_empty_r.
Qed.

Lemma split_from_free sep piece (a rest : string) :
  has_char sep a = false ->
  split_from sep piece (a ++ rest) = split_from sep (String.rev_app a piece) rest.
Proof.
  revert piece. induction a as [|c a IH]; intros piece Hfree; [reflexivity|].
  cbn [has_char] in Hfree. apply orb_false_iff in Hfree as [Hc Hfree].
  change (split_from sep piece (String c (a ++ rest)) =
          split_from sep (String.rev_app a (String c piece)) rest).
  cbn [split_from]. rewrite Hc. now apply IH.
Qed.

Lemma split_from_free_end sep piece (a : string) :
  has_char sep a = false ->
  split_from sep piece a = [String.rev (String.rev_app a piece)].
Proof.
  revert piece. induction a as [|c a IH]; intros piece Hfree; [reflexivity|].
  cbn [has_char] in Hfree. apply orb_false_iff in Hfree as [Hc Hfree].
  cbn [split_from]. rewrite Hc. now apply IH.
Qed.

(** The four parts of a command topic of a device whose unique id holds
    no slash. *)
Lemma split_command_topic uid key :
  has_char "/" uid = false ->
  has_char "/" key = false ->
  split "/" ("godaikin/" ++ (uid ++ ("/set/" ++ key))) =
  ["godaikin"; uid; "set"; key].
Proof.
  intros Huid Hkey. unfold split.
  change (split_from "/" "" ("godaikin/" ++ (uid ++ ("/set/" ++ key))))
    with ("godaikin" :: split_from "/" "" (uid ++ ("/set/" ++ key))).
  rewrite (split_from_free "/" "" uid _ Huid).
  change (split_from "/" (String.rev_app uid "") ("/set/" ++ key))
    with (String.rev (String.rev_app uid "") :: "set" :: split_from "/" "" key).
  rewrite rev_rev_app, (split_from_free_end "/" "" key Hkey), rev_rev_app.
  reflexivity.
Qed.

(** X20.  The command topics that discovery hands out lead back to the
    device: for a device whose unique id holds no slash, a message on any
    of its seven command topics, with a payload that has a text (bytes
    that are UTF-8, or a payload of another type), is handled as the
    [set] command of that key for that unique id and that text. *)
Theorem command_topics_lead_back aircond message payload :
  has_char "/" (unique_id aircond) = false ->
  payload_text message = Ret payload ->
  let topics := from_aircond aircond in
  let handled key := handle_set_message env key (unique_id aircond) payload in
  handle_message env (cmd_mode topics) message = handled "mode" /\
  handle_message env (cmd_temp topics) message = handled "temperature" /\
  handle_message env (cmd_fan topics) message = handled "fan_mode" /\
  handle_message env (cmd_swing topics) message = handled "swing_mode" /\
  handle_message env (cmd_swing_horizontal topics) message
    = handled "swing_horizontal_mode" /\
  handle_message env (cmd_preset topics) message = handled "preset_mode" /\
  handle_message env (cmd_status_led topics) message = handled "status_led".
Proof.
  intros Hfree Htext. cbn zeta.
  assert (Hroute : forall key,
    has_char "/" key = false ->
    handle_message env ("godaikin/" ++ (unique_id aircond ++ ("/set/" ++ key)))
      message
    = handle_set_message env key (unique_id aircond) payload).
  { intros key Hkey. unfold handle_message, bind, lift.
    now rewrite Htext, (split_command_topic _ key Hfree Hkey). }
  split; [exact (Hroute "mode" eq_refl)|].
  split; [exact (Hroute "temperature" eq_refl)|].
  split; [exact (Hroute "fan_mode" eq_refl)|].
  split; [exact (Hroute "swing_mode" eq_refl)|].
  split; [exact (Hroute "swing_horizontal_mode" eq_refl)|].
  split; [exact (Hroute "preset_mode" eq_refl)|].
  exact (Hroute "status_led" eq_refl).
Qed.

End TopicsFurther.

Lemma topics_do_not_collide_witness :
  unique_id bedroom = unique_id bedroom_off.
Proof.
  apply (proj1 (topics_do_not_collide bedroom bedroom_off)). reflexivity.
Defined.

Lemma command_topics_lead_back_witness :
  handle_message calm "godaikin/daikin_4c50dd423066/set/fan_mode" (Bytes "low") =
  handle_set_message calm "fan_mode" "daikin_4c50dd423066" "low".
Proof.
  apply (proj1 (proj2 (proj2 (command_topics_lead_back calm bedroom (Bytes "low")
                                "low" eq_refl eq_refl)))).
Defined.

(** ** controller.py: discovery and refresh *)

Section RefreshFurther.

Variable env : Controller.Env.

Lemma bind_returns {A B} (c : M Controller A) (k : A -> M Controller B)
    self a self' :
  c self = (Ret a, self') -> bind c k self = k a self'.
Proof. intros Hc. unfold bind. now rewrite Hc. Qed.

Lemma topics_of_known aircond self topics :
  mqtt_topics_by_unique_id self !! unique_id aircond = Some topics ->
  topics_of aircond self = (Ret topics, self).
Proof. intros Hsome. unfold topics_of, bind, gets. cbn. now rewrite Hsome. Qed.

Lemma get_mqtt_topics_cached aircond self topics :
  mqtt_topics_by_unique_id self !! unique_id aircond = Some topics ->
  get_mqtt_topics aircond self = (Ret topics, self).
Proof. intros Hsome. unfold get_mqtt_topics, bind, gets. cbn. now rewrite Hsome. Qed.

Lemma discover_entries aircond self :
  let self' := snd (discover env aircond self) in
  (forall uid,
      uid <> unique_id aircond ->
      mqtt_topics_by_unique_id self' !! uid = mqtt_topics_by_unique_id self !! uid) /\
  mqtt_topics_by_unique_id self' !! unique_id aircond =
    Some (default (from_aircond aircond)
            (mqtt_topics_by_unique_id self !! unique_id aircond)).
Proof.
  cbn zeta. unfold discover.
  assert (Hkeeps : forall topics,
    keeps mqtt_topics_by_unique_id
      (for_each (make_discovery_messages env aircond topics)
         (fun msg =>
            mqtt_publish env (topic msg) (PayloadDict (payload msg)) 1 true false))).
  { intros topics. apply keeps_for_each. intros msg.
    apply mqtt_publish_keeps; intros; reflexivity. }
  destruct (mqtt_topics_by_unique_id self !! unique_id aircond) as [topics|]
    eqn:Hcached.
  - rewrite (bind_returns _ _ _ _ _ (get_mqtt_topics_cached _ _ _ Hcached)).
    split; [intros uid Hne|]; rewrite Hkeeps; [reflexivity | exact Hcached].
  - rewrite (bind_returns _ _ _ _ _ (get_mqtt_topics_registers _ _ Hcached)).
    split; [intros uid Hne|]; rewrite Hkeeps; cbn.
    + now apply lookup_insert_ne.
    + apply lookup_insert_eq.
Qed.

Lemma discover_each_keeps_entries airconds self uid topics :
  mqtt_topics_by_unique_id self !! uid = Some topics ->
  mqtt_topics_by_unique_id (snd (for_each airconds (discover env) self)) !! uid
  = Some topics.
Proof.
  revert self. induction airconds as [|first rest IH]; intros self Hentry;
    [exact Hentry|].
  cbn [for_each]. unfold bind.
  destruct (discover_entries first self) as [Hothers Hfirst].
  assert (Hstep :
    mqtt_topics_by_unique_id (snd (discover env first self)) !! uid = Some topics).
  { destruct (decide (uid = unique_id first)) as [->|Hne].
    - rewrite Hfirst, Hentry. reflexivity.
    - now rewrite Hothers. }
  destruct (discover env first self) as [[[]|e] self']; cbn [fst snd] in *.
  - now apply IH.
  - exact Hstep.
Qed.

Lemma discover_each_registers airconds self aircond :
  fst (for_each airconds (discover env) self) = Ret tt ->
  In aircond airconds ->
  mqtt_topics_by_unique_id (snd (for_each airconds (discover env) self))
    !! unique_id aircond =
  Some (default (from_aircond aircond)
          (mqtt_topics_by_unique_id self !! unique_id aircond)).
Proof.
  revert self. induction airconds as [|first rest IH]; intros self Hret Hin;
    [destruct Hin|].
  cbn [for_each] in *. unfold bind in *.
  destruct (discover_entries first self) as [Hothers Hfirst].
  destruct (discover env first self) as [[[]|e] self']; cbn [fst snd] in *;
    [|discriminate].
  destruct (decide (unique_id aircond = unique_id first)) as [Hsame|Hne].
  - rewrite <- Hsame in Hfirst.
    rewrite (discover_each_keeps_entries rest self' _ _ Hfirst).
    now rewrite (from_aircond_of_unique_id aircond first Hsame).
  - destruct Hin as [->|Hin]; [contradiction|].
    rewrite (IH self' Hret Hin). now rewrite Hothers.
Qed.

(** X21.  When discovery has run through, every device of the list it
    fetched has its topics in the map: the entry it had before, or else
    the topics made from the device.  The lookups of
    [publish_aircond_state] and [publish_sensor_state] for such a device
    then succeed, and go on succeeding after any number of poll cycles
    and inbound messages. *)
Theorem publish_discovery_registers self airconds :
  cloud env (length (api_requests self)) = Ret airconds ->
  fst (publish_discovery env self) = Ret tt ->
  forall aircond,
    In aircond airconds ->
    let started := after (publish_discovery env) self in
    let topics := default (from_aircond aircond)
                    (mqtt_topics_by_unique_id self !! unique_id aircond) in
    mqtt_topics_by_unique_id started !! unique_id aircond = Some topics /\
    topics_of aircond started = (Ret topics, started) /\
    (forall cycles messages,
        let later := after (message_loop env messages)
                       (after (poll_cycles env cycles) started) in
        topics_of aircond later = (Ret topics, later)).
Proof.
  intros Hcloud Hret aircond Hin. cbn zeta.
  assert (Hrun : publish_discovery env self =
                 for_each airconds (discover env) (fetched airconds self)).
  { unfold publish_discovery, get_airconds.
    unfold bind at 1. unfold bind at 1. unfold _api_request.
    rewrite Hcloud. reflexivity. }
  assert (Hentry :
    mqtt_topics_by_unique_id (after (publish_discovery env) self)
      !! unique_id aircond =
    Some (default (from_aircond aircond)
            (mqtt_topics_by_unique_id self !! unique_id aircond))).
  { unfold after. rewrite Hrun. rewrite Hrun in Hret.
    now rewrite (discover_each_registers airconds _ aircond Hret Hin). }
  split; [exact Hentry|]. split; [now apply topics_of_known|].
  intros cycles messages. apply topics_of_known. unfold after.
  now rewrite keeps_topics_message_loop, keeps_topics_poll_cycles.
Qed.

Lemma mqtt_publish_accepted topic payload qos retain only_if_changed self :
  (forall k, broker env k = Ret tt) ->
  mqtt_publish env topic payload qos retain only_if_changed self =
    (Ret tt, after (mqtt_publish env topic payload qos retain only_if_changed) self).
Proof.
  intros Hbroker. unfold after. destruct only_if_changed.
  - destruct (decide (payload_cache_by_topic self !! topic
                      = Some (payload_str env payload))) as [Hhit|Hmiss].
    + now rewrite mqtt_publish_unchanged.
    + rewrite mqtt_publish_changed by exact Hmiss.
      unfold mqtt_client_publish. now rewrite Hbroker.
  - rewrite mqtt_publish_ungated.
    unfold mqtt_client_publish. now rewrite Hbroker.
Qed.

Lemma mqtt_publish_gated_published topic payload self :
  published (after (mqtt_publish env topic payload 1 true true) self) =
    (published self
     ++ unless_cached (payload_cache_by_topic self)
          (state_publish topic (payload_str env payload)))%list /\
  payload_cache_by_topic (after (mqtt_publish env topic payload 1 true true) self)
    = <[topic := payload_str env payload]> (payload_cache_by_topic self).
Proof.
  destruct (mqtt_publish_gated_after env topic payload 1 true self)
    as [Hcache Hpublished].
  split; [exact Hpublished | exact Hcache].
Qed.

Lemma publish_sensor_state_run aircond self topics :
  mqtt_topics_by_unique_id self !! unique_id aircond = Some topics ->
  publish_sensor_state env aircond self =
  mqtt_publish env (sensor topics)
    (PayloadDict (sensor_payload aircond (metered_usage env aircond self)))
    1 true true (metered env aircond self).
Proof.
  intros Htopics. unfold publish_sensor_state, metered, metered_usage.
  rewrite (bind_returns _ _ _ _ _ (topics_of_known _ _ _ Htopics)).
  unfold bind, modify, dt_now.
  cbn [energy set_energy set_clock_reads clock_reads].
  destruct (accumulate_energy_usage_for_aircond _ _ _) as [usage counter].
  reflexivity.
Qed.

Lemma state_topics_differ aircond :
  status (from_aircond aircond) <> availability (from_aircond aircond) /\
  status (from_aircond aircond) <> sensor (from_aircond aircond) /\
  availability (from_aircond aircond) <> sensor (from_aircond aircond).
Proof.
  rewrite status_topic, sensor_topic, availability_topic.
  repeat split; intros Heq; apply String.app_inj in Heq; revert Heq.
  - now apply (append_last_differs _ _ _ _ "s" "y")%char.
  - now apply (append_last_differs _ _ _ _ "s" "r")%char.
  - now apply (append_last_differs _ _ _ _ "y" "r")%char.
Qed.

(** X22.  For a device with its own topics in the map, codes that the
    enumerations know and a broker that takes every call, a refresh makes
    its broker calls in a fixed order: the status, then the availability
    ("online" exactly when the event type is "connected", whatever the
    power flag), then the sensor payload; each of the three is left out
    when the cache holds it already, and nothing else is sent. *)
Theorem publish_both_in_order aircond self payload :
  (forall k, broker env k = Ret tt) ->
  mqtt_topics_by_unique_id self !! unique_id aircond = Some (from_aircond aircond) ->
  aircond_state_payload aircond = Ret payload ->
  let topics := from_aircond aircond in
  let cache := payload_cache_by_topic self in
  fst (publish_both env aircond self) = Ret tt /\
  published (after (publish_both env aircond) self) =
    (published self
     ++ unless_cached cache (state_publish (status topics) (json_dumps env payload))
     ++ unless_cached cache
          (state_publish (availability topics)
             (if String.eqb (eventType (shadowState aircond)) "connected"
              then "online" else "offline"))
     ++ unless_cached cache
          (state_publish (sensor topics)
             (json_dumps env
                (sensor_payload aircond (metered_usage env aircond self)))))%list.
Proof.
  intros Hbroker Htopics Hpayload. cbn zeta.
  destruct (state_topics_differ aircond) as (Hsa & Hss & Has).
  set (topics := from_aircond aircond) in *.
  set (availability_payload :=
         if String.eqb (eventType (shadowState aircond)) "connected"
         then "online" else "offline").
  set (s1 := after (mqtt_publish env (status topics) (PayloadDict payload)
                      1 true true) self).
  set (s2 := after (mqtt_publish env (availability topics)
                      (PayloadStr availability_payload) 1 true true) s1).
  assert (Hfirst : publish_aircond_state env aircond self = (Ret tt, s2)).
  { unfold publish_aircond_state.
    rewrite (bind_returns _ _ _ _ _ (topics_of_known _ _ _ Htopics)).
    rewrite (bind_returns (lift (aircond_state_payload aircond)) _ self payload self)
      by (unfold lift; now rewrite Hpayload).
    rewrite (bind_returns _ _ _ _ _
               (mqtt_publish_accepted _ _ _ _ _ _ Hbroker)).
    apply (mqtt_publish_accepted _ _ _ _ _ _ Hbroker). }
  destruct (mqtt_publish_gated_published (status topics) (PayloadDict payload) self)
    as [Hp1 Hc1].
  destruct (mqtt_publish_gated_published (availability topics)
              (PayloadStr availability_payload) s1) as [Hp2 Hc2].
  fold s1 in Hp1, Hc1. fold s2 in Hp2, Hc2.
  assert (Hsame : forall X (component : Controller -> X),
    (forall m self, component (set_payload_cache_by_topic m self) = component self) ->
    (forall l self, component (set_published l self) = component self) ->
    component s2 = component self).
  { intros X component Hcache Hpublished. unfold s2, s1, after.
    now rewrite !(mqtt_publish_keeps env component _ _ _ _ _ Hcache Hpublished). }
  assert (Htopics2 :
    mqtt_topics_by_unique_id s2 !! unique_id aircond = Some topics).
  { rewrite (Hsame _ mqtt_topics_by_unique_id); [exact Htopics | reflexivity ..]. }
  assert (Hmetered :
    metered_usage env aircond s2 = metered_usage env aircond self).
  { unfold metered_usage.
    rewrite (Hsame _ clock_reads), (Hsame _ energy); reflexivity. }
  unfold publish_both, after.
  rewrite (bind_returns _ _ _ _ _ Hfirst).
  rewrite (publish_sensor_state_run aircond s2 topics Htopics2), Hmetered.
  rewrite (mqtt_publish_accepted _ _ _ _ _ _ Hbroker). cbn [fst snd].
  split; [reflexivity|].
  destruct (mqtt_publish_gated_published (sensor topics)
              (PayloadDict (sensor_payload aircond (metered_usage env aircond self)))
              (metered env aircond s2)) as [Hp3 _].
  rewrite Hp3.
  change (published (metered env aircond s2)) with (published s2).
  change (payload_cache_by_topic (metered env aircond s2))
    with (payload_cache_by_topic s2).
  rewrite Hp2, Hp1, Hc2, Hc1, <- !app_assoc.
  unfold unless_cached. cbn [pub_topic pub_payload state_publish payload_str].
  rewrite (lookup_insert_ne _ (status topics) (availability topics)) by exact Hsa.
  rewrite (lookup_insert_ne _ (availability topics) (sensor topics)) by exact Has.
  rewrite (lookup_insert_ne _ (status topics) (sensor topics)) by exact Hss.
  reflexivity.
Qed.

Lemma round2_zero usage : (usage == 0)%Q -> (round2 usage == 0)%Q.
Proof.
  intros Hzero. unfold round2, round_half_even.
  assert (Hscaled : (usage * 100 == 0)%Q) by (rewrite Hzero; ring).
  rewrite (Qfloor_comp _ _ Hscaled). change (Qfloor 0) with 0.
  assert (Hlt : ((usage * 100 - inject_Z 0) ?= (1 # 2))%Q = Lt).
  { apply Qlt_alt. rewrite Hscaled. reflexivity. }
  rewrite Hlt. reflexivity.
Qed.

(** X23.  A device that reports its power flag as 0 is published with
    power 0 and energy 0 in the same cycle, whatever non-negative total
    was held for it: the sensor payload that [publish_sensor_state] hands
    to the gated publish has both at zero. *)
Theorem publish_sensor_state_off aircond self topics :
  mqtt_topics_by_unique_id self !! unique_id aircond = Some topics ->
  Set_OnOff (shadowState aircond) = 0 ->
  (0 <= get_energy_usage (unique_id aircond) (energy self))%Q ->
  exists usage reported,
    publish_sensor_state env aircond self =
      mqtt_publish env (sensor topics) (PayloadDict (sensor_payload aircond usage))
        1 true true (metered env aircond self) /\
    field "Sta_ODPwrCon" (sensor_payload aircond usage) = Some (JInt 0) /\
    field "energy" (sensor_payload aircond usage) = Some (JFloat reported) /\
    (reported == 0)%Q /\
    (get_energy_usage (unique_id aircond) (energy (metered env aircond self)) == 0)%Q.
Proof.
  intros Htopics Hoff Hnonneg.
  exists (metered_usage env aircond self),
    (round2 (metered_usage env aircond self)).
  destruct (reset_then_accumulate_nonneg (clock env (clock_reads self))
              aircond (energy self) Hoff Hnonneg) as (_ & Hzero & Hstored).
  split; [now apply publish_sensor_state_run|].
  split; [|split; [reflexivity|split]].
  - cbn. unfold power_w. rewrite Hoff. reflexivity.
  - apply round2_zero. exact Hzero.
  - exact Hstored.
Qed.

End RefreshFurther.

Lemma publish_discovery_registers_witness :
  topics_of bedroom (after (publish_discovery calm) Controller.init) =
    (Ret (from_aircond bedroom), after (publish_discovery calm) Controller.init).
Proof.
  apply (publish_discovery_registers calm Controller.init [bedroom]
           eq_refl eq_refl bedroom).
  left. reflexivity.
Defined.

Lemma publish_both_in_order_witness :
  map pub_topic (published (after (publish_both calm bedroom) discovered)) =
  ["godaikin/daikin_4c50dd423066/status";
   "godaikin/daikin_4c50dd423066/availability";
   "godaikin/daikin_4c50dd423066/sensor"].
Proof.
  destruct (publish_both_in_order calm bedroom discovered
              [("mode", JStr "fan_only"); ("temperature", JInt 26);
               ("current_temperature", JInt 28); ("fan_mode", JStr "low");
               ("swing_mode", JStr "Auto");
               ("swing_horizontal_mode", JStr "Step_3");
               ("preset_mode", JStr "none")]) as [_ Horder].
  - reflexivity.
  - vm_compute. reflexivity.
  - reflexivity.
  - rewrite Horder. vm_compute. reflexivity.
Defined.

Lemma publish_sensor_state_off_witness :
  exists usage reported,
    publish_sensor_state calm bedroom_off discovered =
      mqtt_publish calm (sensor (from_aircond bedroom))
        (PayloadDict (sensor_payload bedroom_off usage)) 1 true true
        (metered calm bedroom_off discovered) /\
    field "Sta_ODPwrCon" (sensor_payload bedroom_off usage) = Some (JInt 0) /\
    field "energy" (sensor_payload bedroom_off usage) = Some (JFloat reported) /\
    (reported == 0)%Q /\
    (get_energy_usage (unique_id bedroom_off)
       (energy (metered calm bedroom_off discovered)) == 0)%Q.
Proof.
  apply (publish_sensor_state_off calm bedroom_off discovered
           (from_aircond bedroom)).
  - vm_compute. reflexivity.
  - reflexivity.
  - vm_compute. discriminate.
Defined.

(** ** discovery.py and the [mac_address] of types.py *)

Section DiscoveryFurther.

Lemma aircond_state_payload_keys aircond payload key :
  aircond_state_payload aircond = Ret payload ->
  In key (map snd control_templates) ->
  is_Some (field key payload).
Proof.
  unfold aircond_state_payload. intros Hpayload Hkey.
  destruct (if negb (is_on aircond) then _ else _); [|discriminate].
  destruct (FanSpeed.of_value _); [|discriminate].
  destruct (AircondSwing.of_value _); [|discriminate].
  destruct (AircondSwing.of_value _); [|discriminate].
  injection Hpayload as <-. cbn in Hkey.
  repeat (destruct Hkey as [<-|Hkey]; [eexists; reflexivity|]).
  destruct Hkey.
Qed.

(** X24.  The discovery documents read what the bridge publishes.  Each
    sensor document listens on the sensor topic of the device and its
    value template reads a key that every sensor payload has; the status
    light document reads "status_led" there and commands on the status
    light topic; each of the seven templates of the climate document
    reads a key that every status payload has, on the status topic. *)
Theorem discovery_reads_published_keys aircond state topics :
  (forall msg,
      In msg (Discovery.make_sensor_discovery_messages aircond topics) ->
      field "state_topic" (payload msg) = Some (JStr (sensor topics)) /\
      exists key,
        field "value_template" (payload msg) = Some (JStr (template key)) /\
        forall usage, is_Some (field key (sensor_payload aircond usage))) /\
  (forall msg,
      In msg (Discovery.make_configuration_discovery_messages aircond state topics) ->
      field "state_topic" (payload msg) = Some (JStr (sensor topics)) /\
      field "command_topic" (payload msg) = Some (JStr (cmd_status_led topics)) /\
      field "state_value_template" (payload msg)
        = Some (JStr (template "status_led")) /\
      forall usage, is_Some (field "status_led" (sensor_payload aircond usage))) /\
  (forall msg entry key,
      In msg (Discovery.make_control_discovery_messages aircond state topics) ->
      In (entry, key) control_templates ->
      topic msg = discovery topics /\
      field "mode_state_topic" (payload msg) = Some (JStr (status topics)) /\
      field entry (payload msg) = Some (JStr (template key)) /\
      forall status_payload,
        aircond_state_payload aircond = Ret status_payload ->
        is_Some (field key status_payload)).
Proof.
  split; [|split].
  - intros msg Hin. cbn in Hin.
    repeat (destruct Hin as [<-|Hin];
            [split; [reflexivity|]; eexists; split; [reflexivity|];
             intros usage; eexists; reflexivity|]).
    destruct Hin.
  - intros msg. unfold Discovery.make_configuration_discovery_messages.
    destruct (truthy _); [|intros []]. intros [<-|[]].
    repeat split. intros usage. eexists. reflexivity.
  - intros msg entry key [<-|[]] Hentry.
    split; [reflexivity|]. split; [reflexivity|]. split.
    + cbn in Hentry.
      repeat (destruct Hentry as [[= <- <-]|Hentry]; [reflexivity|]).
      destruct Hentry.
    + intros status_payload Hstatus.
      apply (aircond_state_payload_keys aircond status_payload key Hstatus).
      apply (in_map snd) in Hentry. exact Hentry.
Qed.

Lemma discovery_topics aircond state :
  map topic (Discovery.make_discovery_messages aircond state (from_aircond aircond)) =
  ("homeassistant/climate/" ++ (unique_id aircond ++ "/config"))
  :: ("homeassistant/sensor/" ++ (unique_id aircond ++ "/power/config"))
  :: ("homeassistant/sensor/"
      ++ (unique_id aircond ++ "/indoor_temperature/config"))
  :: ("homeassistant/sensor/"
      ++ (unique_id aircond ++ "/outdoor_temperature/config"))
  :: ("homeassistant/sensor/" ++ (unique_id aircond ++ "/energy/config"))
  :: (if truthy (Discovery.Ena_LEDOff state)
      then ["homeassistant/light/" ++ (unique_id aircond ++ "/status_led/config")]
      else []).
Proof.
  unfold Discovery.make_discovery_messages,
    Discovery.make_configuration_discovery_messages.
  destruct (truthy (Discovery.Ena_LEDOff state)); reflexivity.
Qed.

Lemma same_prefix_differ (pre uid tail tail' : string) :
  tail <> tail' -> pre ++ (uid ++ tail) <> pre ++ (uid ++ tail').
Proof.
  intros Hne Heq. apply String.app_inj in Heq. apply String.app_inj in Heq.
  contradiction.
Qed.

(** X25.  What discovery makes for a device: one climate document on the
    discovery topic of the device, four sensor documents, and a status
    light document when the device has the LED switch, five or six in
    all, each on a topic of its own. *)
Theorem discovery_documents aircond state :
  let messages :=
    Discovery.make_discovery_messages aircond state (from_aircond aircond) in
  length messages = (if truthy (Discovery.Ena_LEDOff state) then 6 else 5)%nat /\
  head (map topic messages) = Some (discovery (from_aircond aircond)) /\
  NoDup (map topic messages).
Proof.
  cbn zeta. split; [|split].
  - rewrite <- (length_map topic), discovery_topics.
    destruct (truthy _); reflexivity.
  - now rewrite discovery_topics.
  - rewrite discovery_topics.
    assert (Hclimate : forall tail tail',
      "homeassistant/climate/" ++ (unique_id aircond ++ tail) <>
      "homeassistant/sensor/" ++ (unique_id aircond ++ tail')).
    { intros tail tail' Heq. discriminate Heq. }
    assert (Hlight_climate : forall tail tail',
      "homeassistant/climate/" ++ (unique_id aircond ++ tail) <>
      "homeassistant/light/" ++ (unique_id aircond ++ tail')).
    { intros tail tail' Heq. discriminate Heq. }
    assert (Hlight_sensor : forall tail tail',
      "homeassistant/sensor/" ++ (unique_id aircond ++ tail) <>
      "homeassistant/light/" ++ (unique_id aircond ++ tail')).
    { intros tail tail' Heq. discriminate Heq. }
    assert (Hsensor : forall tail tail',
      tail <> tail' ->
      "homeassistant/sensor/" ++ (unique_id aircond ++ tail) <>
      "homeassistant/sensor/" ++ (unique_id aircond ++ tail')).
    { intros tail tail'. apply same_prefix_differ. }
    destruct (truthy _);
      repeat (apply NoDup_cons_2;
              [rewrite ?elem_of_cons, elem_of_nil;
               intros Hin;
               repeat (destruct Hin as [Hin|Hin];
                       [first [ now apply Hclimate in Hin
                              | now apply Hlight_climate in Hin
                              | now apply Hlight_sensor in Hin
                              | revert Hin; apply Hsensor; discriminate ]|]);
               exact Hin|]);
      apply NoDup_nil_2.
Qed.

Lemma length_substring (s : string) n m :
  (n + m <= String.length s)%nat -> String.length (substring n m s) = m.
Proof.
  revert n m. induction s as [|c s IH]; intros n m Hlen.
  - cbn in Hlen. assert (n = O) by lia. assert (m = O) by lia. now subst.
  - destruct n as [|n].
    + destruct m as [|m]; [reflexivity|]. cbn. f_equal.
      apply (IH O m). cbn in Hlen. lia.
    + cbn. apply IH. cbn in Hlen. lia.
Qed.

Lemma twelve_characters (s : string) :
  String.length s = 12%nat ->
  exists a b c d e f g h i j k l, s = twelve a b c d e f g h i j k l.
Proof.
  intros Hlen.
  do 12 (destruct s as [|? s]; [discriminate Hlen|]).
  destruct s; [|discriminate Hlen].
  do 12 eexists. reflexivity.
Qed.

(** X26.  The MAC address of a device is always seventeen characters.
    For a thing name of twelve characters or more it is the last twelve
    of them, in their order, in six groups of two with colons between;
    for a shorter one it is the all-zero address. *)
Theorem mac_address_format self :
  String.length (mac_address self) = 17%nat /\
  ((String.length (ThingName self) < 12)%nat ->
   mac_address self = "00:00:00:00:00:00") /\
  ((12 <= String.length (ThingName self))%nat ->
   exists a b c d e f g h i j k l,
     suffix_of 12 (ThingName self) = twelve a b c d e f g h i j k l /\
     mac_address self = grouped a b c d e f g h i j k l).
Proof.
  assert (Hshort : (String.length (ThingName self) < 12)%nat ->
                   mac_address self = "00:00:00:00:00:00").
  { intros Hlt. unfold mac_address. apply Nat.ltb_lt in Hlt. now rewrite Hlt. }
  assert (Hlong : (12 <= String.length (ThingName self))%nat ->
    exists a b c d e f g h i j k l,
      suffix_of 12 (ThingName self) = twelve a b c d e f g h i j k l /\
      mac_address self = grouped a b c d e f g h i j k l).
  { intros Hge. unfold mac_address.
    destruct (Nat.ltb_spec (String.length (ThingName self)) 12); [lia|].
    destruct (twelve_characters (suffix_of 12 (ThingName self)))
      as (a & b & c & d & e & f & g & h & i & j & k & l & Hsuffix).
    { unfold suffix_of. apply length_substring. lia. }
    exists a, b, c, d, e, f, g, h, i, j, k, l.
    split; [exact Hsuffix|]. rewrite Hsuffix. reflexivity. }
  split; [|split; assumption].
  destruct (Nat.lt_ge_cases (String.length (ThingName self)) 12) as [Hlt|Hge].
  - now rewrite Hshort.
  - destruct (Hlong Hge) as (a & b & c & d & e & f & g & h & i & j & k & l & _ & ->).
    reflexivity.
Qed.

End DiscoveryFurther.

Lemma discovery_reads_published_keys_witness :
  is_Some (field "energy" (sensor_payload bedroom 0%Q)).
Proof.
  destruct (proj1 (discovery_reads_published_keys bedroom bedroom_flags
                     (from_aircond bedroom))
              (List.last (Discovery.make_sensor_discovery_messages bedroom
                            (from_aircond bedroom))
                 {| topic := ""; payload := [] |}))
    as [_ [key [Htemplate Hkey]]].
  - cbn. tauto.
  - injection Htemplate as Htemplate.
    apply String.app_inj in Htemplate. apply append_inj_r in Htemplate.
    rewrite <- Htemplate in Hkey. exact (Hkey 0%Q).
Defined.

Lemma mac_address_format_witness :
  mac_address bedroom = "4c:50:dd:42:30:66" /\
  mac_address (with_state {| ACName := "hall"; ThingName := "AC1";
                             shadowState := bedroom_state |} bedroom_state)
  = "00:00:00:00:00:00".
Proof.
  split.
  - destruct (proj2 (proj2 (mac_address_format bedroom)))
      as (a & b & c & d & e & f & g & h & i & j & k & l & Hsuffix & Hmac).
    + vm_compute. lia.
    + rewrite Hmac. vm_compute in Hsuffix. injection Hsuffix as <- <- <- <- <- <- <- <- <- <- <- <-.
      reflexivity.
  - apply (proj1 (proj2 (mac_address_format _))). vm_compute. lia.
Defined.
